(** * Company Screener: job orchestration, fan-out collection and
    text-generation adapter

    A shallow embedding of the report-generation service
    (main.py, app/models, app/utils/url_parser.py, app/core,
    app/data_sources/web_searcher.py, app/processors/report_generator.py)
    and the properties its specification states about it.

    Conventions of the embedding.
    - A Python [str] is a Rocq [string], one [ascii] per character.
    - A Python [float] amount of money is a binary64 [float]: the
      primitive operations round as Python's do (to nearest, ties to
      even). A Python [int] is a [Z]; where the code multiplies a float by
      an int the int is converted first, as Python does. The sampling
      temperature, a literal passed on to the backend, is kept as the
      rational it denotes.
    - A call that may raise returns [Exception + A]; [inl e] is "raised e".
    - The external collaborators (the chat-completion backend, the JSON
      parsing of its answers, the scheduler's completion order) are
      oracles: arguments of the functions or fields of a [World].
    - [jobs_db] is a [gmap] from job id to the job object stored under it.
      An id is bound once, to a new object, when its job is created; no
      statement binds it to another object afterwards or deletes it. So a
      local variable [job] read from [jobs_db[id]] is an alias of the
      entry [id]: a write through [job] is a write to that entry. *)

From Stdlib Require Import QArith.
From Stdlib Require Import Ascii String.
From Stdlib Require Import Floats.PrimFloat Floats.SpecFloat Floats.FloatOps.
From stdpp Require Import gmap strings list fin_maps.
Close Scope Q_scope.
#[local] Set Warnings "-inexact-float".

(** ** Python exceptions and results *)

Inductive Exception : Type :=
| KeyError (key : string)
| AttributeError (msg : string)
| TypeError (msg : string)
| ValueError (msg : string)
| IndexError (msg : string)
| RuntimeError (msg : string)
| ValidationError (msg : string)
| RateLimitError (msg : string)
| APIError (msg : string)
| OverflowError (msg : string).

(** [str(e)]: a [KeyError] prints the repr of its key, the others their
    message. *)
Definition str_exc (e : Exception) : string :=
  match e with
  | KeyError k => "'" +:+ k +:+ "'"
  | AttributeError m | TypeError m | ValueError m | IndexError m
  | RuntimeError m | ValidationError m | RateLimitError m | APIError m
  | OverflowError m => m
  end.

(** [isinstance(exc, RateLimitError)] *)
Definition is_RateLimitError (e : Exception) : bool :=
  match e with RateLimitError _ => true | _ => false end.

Abbreviation result A := (Exception + A)%type (only parsing).

Definition ret {A} (x : A) : result A := inr x.
Definition raise {A} (e : Exception) : result A := inl e.
Definition bind {A B} (r : result A) (k : A -> result B) : result B :=
  match r with
  | inl e => inl e
  | inr x => k x
  end.

Notation "'let!' x ':=' r 'in' k" := (bind r (fun x => k))
  (at level 10, x name, r at level 100, k at level 200).

Definition is_raised {A} (r : result A) : bool :=
  match r with inl _ => true | inr _ => false end.

(** ** app/models/report.py and app/models/job.py *)

Module job.

Inductive JobStatus : Type := PENDING | PROCESSING | COMPLETED | FAILED.

#[global] Instance JobStatus_eq_dec : EqDecision JobStatus.
Proof. solve_decision. Defined.

(** The [value] of each member of the [str] enum. *)
Definition JobStatus_value (s : JobStatus) : string :=
  match s with
  | PENDING => "pending"
  | PROCESSING => "processing"
  | COMPLETED => "completed"
  | FAILED => "failed"
  end.

Record ReportModel : Type := mkReportModel {
  company_overview : option string;
  product_business_model : option string;
  market_analysis : option string;
  competitive_landscape : option string;
  financial_metrics : option string;
  fundraising_history : option string;
  team_key_stakeholders : option string
}.

Record ScreenerJob : Type := mkScreenerJob {
  id : string;
  status : JobStatus;
  url : string;
  domain : option string;
  report : option ReportModel;
  error : option string
}.

(** Attribute assignments [job.status = s], [job.domain = d],
    [job.report = r], [job.error = m]. *)
Definition set_status (s : JobStatus) (j : ScreenerJob) : ScreenerJob :=
  mkScreenerJob (id j) s (url j) (domain j) (report j) (error j).
Definition set_domain (d : string) (j : ScreenerJob) : ScreenerJob :=
  mkScreenerJob (id j) (status j) (url j) (Some d) (report j) (error j).
Definition set_report (r : ReportModel) (j : ScreenerJob) : ScreenerJob :=
  mkScreenerJob (id j) (status j) (url j) (domain j) (Some r) (error j).
Definition set_error (m : string) (j : ScreenerJob) : ScreenerJob :=
  mkScreenerJob (id j) (status j) (url j) (domain j) (report j) (Some m).

(** [ScreenerJob(id=job_id, status=status, url=url)]: the other fields
    take their default [None]. *)
Definition new_job (job_id : string) (s : JobStatus) (u : string) : ScreenerJob :=
  mkScreenerJob job_id s u None None None.

End job.
Export job.

(** ** main.py: the inbound API *)

Module main.

Record HTTPException : Type := mkHTTPException {
  status_code : Z;
  detail : string
}.

Record JobResponse : Type := mkJobResponse {
  job_id : string;
  resp_status : JobStatus
}.

(** POST /generate, with [job_id] the fresh [uuid4] drawn by the call.
    The job is stored as [PENDING]; the orchestration is only scheduled
    (it runs later, see [processors_report_generator]). *)
Definition generate (job_id : string) (request_url : string)
    (jobs_db : gmap string ScreenerJob) : JobResponse * gmap string ScreenerJob :=
  let job := new_job job_id PENDING request_url in
  (mkJobResponse job_id PENDING, <[job_id := job]> jobs_db).

(** GET /job/{job_id} *)
Definition get_job_status (job_id : string)
    (jobs_db : gmap string ScreenerJob) : HTTPException + JobResponse :=
  match jobs_db !! job_id with
  | None => inl (mkHTTPException 404 "Job not found")
  | Some job => inr (mkJobResponse job_id (status job))
  end.

(** GET /report/{job_id}; the f-string of the 400 detail renders the enum
    member by its value. *)
Definition get_report (job_id : string)
    (jobs_db : gmap string ScreenerJob) : HTTPException + option ReportModel :=
  match jobs_db !! job_id with
  | None => inl (mkHTTPException 404 "Job not found")
  | Some job =>
      if decide (status job <> COMPLETED)
      then inl (mkHTTPException 400
                  ("Report not yet ready. Current status: "
                     +:+ JobStatus_value (status job)))
      else inr (report job)
  end.

End main.

(** ** Python string operations used by the program *)

Module pystr.

(** [s.startswith(p)] *)
Definition startswith (p s : string) : bool := String.prefix p s.

(** The slice [s[n:]] *)
Fixpoint slice_from (n : nat) (s : string) : string :=
  match n, s with
  | O, _ => s
  | S _, EmptyString => EmptyString
  | S n', String _ rest => slice_from n' rest
  end.

(** [s.split(sep)] for a one-character separator: the pieces between
    the occurrences of [sep], empty ones included; never an empty list. *)
Fixpoint split (sep : ascii) (s : string) : list string :=
  match s with
  | EmptyString => [EmptyString]
  | String c rest =>
      if Ascii.eqb c sep then EmptyString :: split sep rest
      else match split sep rest with
           | [] => [String c EmptyString]
           | piece :: pieces => String c piece :: pieces
           end
  end.

(** [s.replace(old, new)] for one-character [old] and [new] *)
Fixpoint replace (old new : ascii) (s : string) : string :=
  match s with
  | EmptyString => EmptyString
  | String c rest =>
      String (if Ascii.eqb c old then new else c) (replace old new rest)
  end.

(** [c in s] for a character [c] *)
Fixpoint contains (c : ascii) (s : string) : bool :=
  match s with
  | EmptyString => false
  | String d rest => Ascii.eqb c d || contains c rest
  end.

(** [l[i]] on a list: [IndexError] out of range *)
Definition index {A} (l : list A) (i : nat) : result A :=
  match l !! i with
  | Some x => ret x
  | None => raise (IndexError "list index out of range")
  end.

End pystr.

(** ** urllib.parse.urlparse: the [netloc] component

    The standard library's [urlsplit], as far as it decides [netloc]:
    leading C0-control and space characters are stripped, tab, carriage
    return and newline are removed, a leading [scheme:] is cut off when
    the text before the first colon is a well-formed scheme, and if what
    remains starts with two slashes the netloc runs up to the first of
    the delimiters slash, question mark and hash. A netloc with an
    unmatched bracket raises [ValueError]. The validation of a bracketed
    IPv6 literal and the NFKC check of a non-ASCII host, which can only
    raise [ValueError] too, are left out. *)

Module urllib.

Definition is_c0_control_or_space (c : ascii) : bool :=
  Nat.leb (nat_of_ascii c) 32.

Fixpoint lstrip (s : string) : string :=
  match s with
  | EmptyString => EmptyString
  | String c rest => if is_c0_control_or_space c then lstrip rest else s
  end.

Definition is_unsafe (c : ascii) : bool :=
  let n := nat_of_ascii c in
  Nat.eqb n 9 || Nat.eqb n 10 || Nat.eqb n 13.

Fixpoint remove_unsafe (s : string) : string :=
  match s with
  | EmptyString => EmptyString
  | String c rest =>
      if is_unsafe c then remove_unsafe rest else String c (remove_unsafe rest)
  end.

Definition is_ascii_alpha (c : ascii) : bool :=
  let n := nat_of_ascii c in
  (Nat.leb 65 n && Nat.leb n 90) || (Nat.leb 97 n && Nat.leb n 122).

Definition is_digit (c : ascii) : bool :=
  let n := nat_of_ascii c in Nat.leb 48 n && Nat.leb n 57.

(** [scheme_chars]: letters, digits and the three signs + - . *)
Definition is_scheme_char (c : ascii) : bool :=
  let n := nat_of_ascii c in
  is_ascii_alpha c || is_digit c || Nat.eqb n 43 || Nat.eqb n 45 || Nat.eqb n 46.

(** The text after [scheme:] when everything before the first colon is
    a scheme character; [None] when there is no colon or a character
    before it is not allowed. *)
Fixpoint after_scheme (s : string) : option string :=
  match s with
  | EmptyString => None
  | String c rest =>
      if Ascii.eqb c ":" then Some rest
      else if is_scheme_char c then after_scheme rest
      else None
  end.

Definition strip_scheme (u : string) : string :=
  match u with
  | EmptyString => u
  | String c _ =>
      if is_ascii_alpha c
      then match after_scheme u with
           | Some rest => rest
           | None => u
           end
      else u
  end.

Definition is_delim (c : ascii) : bool :=
  Ascii.eqb c "/" || Ascii.eqb c "?" || Ascii.eqb c "#".

(** [_splitnetloc]: the characters before the first delimiter *)
Fixpoint until_delim (s : string) : string :=
  match s with
  | EmptyString => EmptyString
  | String c rest => if is_delim c then EmptyString else String c (until_delim rest)
  end.

Definition urlparse_netloc (u : string) : result string :=
  let u := strip_scheme (remove_unsafe (lstrip u)) in
  if pystr.startswith "//" u then
    let netloc := until_delim (pystr.slice_from 2 u) in
    if xorb (pystr.contains "[" netloc) (pystr.contains "]" netloc)
    then raise (ValueError "Invalid IPv6 URL")
    else ret netloc
  else ret EmptyString.

End urllib.

(** ** app/utils/url_parser.py *)

Module url_parser.

Definition extract_company_name_from_url (url : string) : result string :=
  let! domain := urllib.urlparse_netloc url in
  (* Remove www. if present *)
  let domain :=
    if pystr.startswith "www." domain then pystr.slice_from 4 domain else domain in
  (* Extract the main part of the domain (before the TLD) *)
  let! main_domain := pystr.index (pystr.split "." domain) 0 in
  (* Clean up and normalize the company name *)
  let company_name := pystr.replace "_" " " (pystr.replace "-" " " main_domain) in
  ret company_name.

Definition extract_domain_from_url (url : string) : result string :=
  let! domain := urllib.urlparse_netloc url in
  let domain :=
    if pystr.startswith "www." domain then pystr.slice_from 4 domain else domain in
  ret domain.

(** The derivation in the words of the specification: strip a leading
    [www.], take the label before the first dot, replace dashes and
    underscores with spaces. *)
Definition strip_www (host : string) : string :=
  if pystr.startswith "www." host then pystr.slice_from 4 host else host.

Fixpoint label_before_first_dot (host : string) : string :=
  match host with
  | EmptyString => EmptyString
  | String c rest =>
      if Ascii.eqb c "." then EmptyString else String c (label_before_first_dot rest)
  end.

Fixpoint separators_to_spaces (label : string) : string :=
  match label with
  | EmptyString => EmptyString
  | String c rest =>
      String (if Ascii.eqb c "-" || Ascii.eqb c "_" then " "%char else c)
        (separators_to_spaces rest)
  end.

Definition derived_company_name (host : string) : string :=
  separators_to_spaces (label_before_first_dot (strip_www host)).

End url_parser.

(** The host label in the specification's sense, read off the netloc:
    the host is what follows the last [@] (the userinfo ends there) up
    to the first [:] after it (the port starts there); bracketed IPv6
    hosts are left aside. *)
Module host_label.

Fixpoint after_last_at (netloc : string) : string :=
  match netloc with
  | EmptyString => EmptyString
  | String c rest =>
      if pystr.contains "@" rest then after_last_at rest
      else if Ascii.eqb "@" c then rest
      else String c rest
  end.

Fixpoint before_port (hostport : string) : string :=
  match hostport with
  | EmptyString => EmptyString
  | String c rest =>
      if Ascii.eqb ":" c then EmptyString else String c (before_port rest)
  end.

Definition host (netloc : string) : string := before_port (after_last_at netloc).

(** The name the specification derives: from the host label. *)
Definition company_name (netloc : string) : string :=
  url_parser.derived_company_name (host netloc).

End host_label.

(** ** app/constants.py *)

Definition OPENAI_MODEL : string := "gpt-4.1-2025-04-14".

(** ** app/core/openai_api.py *)

Module openai_api.

Record ModelPrices : Type := mkModelPrices {
  prompt_price : float;
  completion_price : float
}.

Definition MODEL_COSTS : gmap string ModelPrices :=
  list_to_map [
    ("gpt-4.1-2025-04-14", mkModelPrices 2.0 8.0);
    ("gpt-4o-2024-11-20", mkModelPrices 2.5 10.0);
    ("gpt-4o-2024-05-13", mkModelPrices 5.0 15.0);
    ("o1-mini", mkModelPrices 3.0 12.0);
    ("o1-preview", mkModelPrices 15.0 60.0);
    ("gpt-4o", mkModelPrices 2.5 10.0);
    ("gpt-4o-mini", mkModelPrices 0.15 0.6);
    ("gpt-4o-search-preview", mkModelPrices 2.5 10.0)
  ].

(** The keyword arguments of [chat.completions.create]. An argument the
    call does not pass is [None]. *)
Inductive MessageContent : Type :=
| Plain (text : string)
| TextParts (texts : list string).

Record Message : Type := mkMessage {
  role : string;
  content : MessageContent
}.

Record ChatRequest : Type := mkChatRequest {
  req_model : string;
  req_max_tokens : option Z;
  req_temperature : option Q;
  req_seed : option Z;
  req_messages : list Message
}.

(** What the backend returns: token usage and the choices, each with
    its message content and annotations. *)
Record ChatMessage : Type := mkChatMessage {
  msg_content : string;
  msg_annotations : list string
}.

Record ChatCompletion : Type := mkChatCompletion {
  prompt_tokens : Z;
  completion_tokens : Z;
  choices : list ChatMessage
}.

(** The backend: the outcome of the [attempt]-th call of one
    [get_openai_response] invocation. *)
Definition Backend : Type := nat -> ChatRequest -> result ChatCompletion.

(** What one invocation does besides returning, in order. *)
Inductive Event : Type :=
| Create (req : ChatRequest)
| Sleep (seconds : Z)
| LogWarning
| LogError.

Definition max_retries : nat := 5.

(** The request of one attempt: the branch on the model prefix. *)
Definition request_for (prompt system_prompt : string) (max_tokens : Z)
    (model : string) : ChatRequest :=
  if pystr.startswith "o1-" model || pystr.startswith "gpt-4o-search" model
  then
    (* For "o1-" models, send only a user prompt *)
    mkChatRequest model None None None
      [mkMessage "user" (TextParts [prompt])]
  else
    (* For other models, include a system prompt and user prompt *)
    mkChatRequest model (Some max_tokens) (Some 0.5%Q) (Some 666%Z)
      [mkMessage "system" (Plain system_prompt);
       mkMessage "user" (Plain prompt)].

(** [for attempt in range(max_retries)], with the running
    [backoff_seconds]; the events are listed in the order they happen. *)
Fixpoint attempts_loop (backend : Backend) (req : ChatRequest)
    (attempts : list nat) (backoff_seconds : Z)
    : result ChatCompletion * list Event :=
  match attempts with
  | [] =>
      (raise (RuntimeError "Unable to get a valid OpenAI response after max retries."),
       [])
  | attempt :: rest =>
      match backend attempt req with
      | inr response => (ret response, [Create req])
      | inl exc =>
          if is_RateLimitError exc then
            if Nat.ltb attempt (max_retries - 1) then
              let '(r, events) :=
                attempts_loop backend req rest (backoff_seconds * 2)%Z in
              (r, Create req :: LogWarning :: Sleep backoff_seconds :: events)
            else (raise exc, [Create req; LogError])
          else (raise exc, [Create req])
      end
  end.

(** [system_prompt or "You are an AI publishing assistant"] *)
Definition system_prompt_or_default (system_prompt : option string) : string :=
  match system_prompt with
  | None => "You are an AI publishing assistant"
  | Some EmptyString => "You are an AI publishing assistant"
  | Some sp => sp
  end.

Definition get_openai_response (backend : Backend) (prompt : string)
    (system_prompt : option string) (max_tokens : Z) (model : string)
    : result ChatCompletion * list Event :=
  let system_prompt := system_prompt_or_default system_prompt in
  attempts_loop backend (request_for prompt system_prompt max_tokens model)
    (seq 0 max_retries) 1%Z.

(** The events of a run that matter to the retry policy. *)
Definition calls (events : list Event) : list ChatRequest :=
  omap (fun ev => match ev with Create req => Some req | _ => None end) events.

Definition sleeps (events : list Event) : list Z :=
  omap (fun ev => match ev with Sleep n => Some n | _ => None end) events.

(** Vocabulary for the runs of the loop. The backend answers attempt
    [attempt] with a rate-limit signal: *)
Definition rate_limited (backend : Backend) (req : ChatRequest)
    (attempt : nat) : bool :=
  match backend attempt req with
  | inl exc => is_RateLimitError exc
  | inr _ => false
  end.

(** The delays of [k] retries that start from delay [b], and the
    events of the [k] failed attempts before them. *)
Definition backoffs (b : Z) (k : nat) : list Z :=
  map (fun j => (b * 2 ^ Z.of_nat j)%Z) (seq 0 k).

Definition retry_events (req : ChatRequest) (b : Z) (k : nat) : list Event :=
  flat_map (fun delay => [Create req; LogWarning; Sleep delay]) (backoffs b k).

(** The events of the attempt the loop stops at. *)
Definition last_events (backend : Backend) (req : ChatRequest)
    (attempt : nat) : list Event :=
  if rate_limited backend req attempt then [Create req; LogError] else [Create req].

End openai_api.

(** ** app/core/llm_api_wrapper.py *)

Module llm_api_wrapper.
Import openai_api.

Record LLMAPIWrapper : Type := mkLLMAPIWrapper {
  accumulated_cost : float
}.

(** [LLMAPIWrapper()]. The attribute starts as the int [0]; the first
    [+=] converts it to the float zero that stands for it here. *)
Definition init : LLMAPIWrapper := mkLLMAPIWrapper 0%float.

(** What [get_response] returns: the message content, or a dict of
    annotations and content when the message has annotations. *)
Inductive ResponseValue : Type :=
| Content (text : string)
| Annotated (annotations : list string) (text : string).

(** [model or OPENAI_MODEL] *)
Definition model_or_default (model : option string) : string :=
  match model with
  | None => OPENAI_MODEL
  | Some EmptyString => OPENAI_MODEL
  | Some m => m
  end.

(** The conversion of the int operand of [float * int]: the nearest
    binary64 value, ties to even; an int too large for a float raises. *)
Definition float_of_int (n : Z) : result float :=
  let converted := SF2Prim (binary_normalize prec emax n 0 false) in
  if is_infinity converted
  then raise (OverflowError "int too large to convert to float")
  else ret converted.

(** Lines 25-28 of [get_response]: the three amounts, each rounded to
    binary64. The divisor is the int 1000000, which converts exactly. *)
Definition total_cost (prices : ModelPrices) (response : ChatCompletion)
    : result float :=
  let! p := float_of_int (prompt_tokens response) in
  let prompt_cost := (prompt_price prices * p)%float in
  let! c := float_of_int (completion_tokens response) in
  let completion_cost := (completion_price prices * c)%float in
  ret ((prompt_cost + completion_cost) / 1000000)%float.

(** [get_response], after its initial [time.sleep(1)]: the result, the
    wrapper after the call and the events of the backend call. *)
Definition get_response (self : LLMAPIWrapper) (backend : Backend)
    (prompt : string) (system_prompt : option string) (max_tokens : Z)
    (model : option string)
    : result ResponseValue * LLMAPIWrapper * list Event :=
  let model := model_or_default model in
  let '(r, events) := get_openai_response backend prompt system_prompt max_tokens model in
  match r with
  | inl exc => (raise exc, self, events)
  | inr response =>
      match MODEL_COSTS !! model with
      | None => (raise (KeyError model), self, events)
      | Some model_prices =>
          match total_cost model_prices response with
          | inl exc => (raise exc, self, events)
          | inr total_cost =>
              (* self.accumulated_cost += total_cost *)
              let self' :=
                mkLLMAPIWrapper (accumulated_cost self + total_cost)%float in
              match choices response with
              | [] => (raise (IndexError "list index out of range"), self', events)
              | response_message :: _ =>
                  match msg_annotations response_message with
                  | [] => (ret (Content (msg_content response_message)), self', events)
                  | _ :: _ =>
                      (ret (Annotated (msg_annotations response_message)
                              (msg_content response_message)), self', events)
                  end
              end
          end
      end
  end.

End llm_api_wrapper.

(** ** asyncio.gather

    An awaitable is given by the outcome it produces when it has run to
    its end: a value or a raised exception. The scheduler decides the
    order in which the awaitables finish: those named (by index) in
    [order] finish first, in that order, the others after them in list
    order; an index that occurs again or is out of range names nothing. *)

Module asyncio.

Definition completion_order (order : list nat) (n : nat) : list nat :=
  order ++ seq 0 n.

Section Gather.
Context {V : Type}.

(** The awaitable [i] finishes: its outcome goes to slot [i], unless
    the slot is filled already. *)
Definition finish (tasks : list (result V))
    (slots : list (option (result V))) (i : nat) : list (option (result V)) :=
  match tasks !! i, slots !! i with
  | Some outcome, Some None => <[i := Some outcome]> slots
  | _, _ => slots
  end.

(** Every filled slot holds the outcome of the awaitable of its
    index. *)
Definition slots_ok (tasks : list (result V))
    (slots : list (option (result V))) : Prop :=
  length slots = length tasks /\
  forall j o, slots !! j = Some (Some o) -> tasks !! j = Some o.

Definition run_all (order : list nat) (tasks : list (result V))
    : list (option (result V)) :=
  foldl (finish tasks) (replicate (length tasks) None)
    (completion_order order (length tasks)).

(** [await asyncio.gather] of the tasks with [return_exceptions=True]: the list
    of the slots once every awaitable has finished; a raised
    exception is an element of the list. *)
Definition gather_return_exceptions (order : list nat)
    (tasks : list (result V)) : list (result V) :=
  omap (fun slot => slot) (run_all order tasks).

(** The first awaitable, in completion order, that raises. *)
Fixpoint first_raised (finishing : list nat) (tasks : list (result V))
    : option Exception :=
  match finishing with
  | [] => None
  | i :: rest =>
      match tasks !! i with
      | Some (inl exc) => Some exc
      | _ => first_raised rest tasks
      end
  end.

Definition value_of (outcome : result V) : option V :=
  match outcome with inr v => Some v | inl _ => None end.

(** [await asyncio.gather] of the tasks, without [return_exceptions]: the first exception raised is
    propagated at once to the awaiting caller; otherwise the values,
    in the order of the arguments. *)
Definition gather (order : list nat) (tasks : list (result V))
    : result (list V) :=
  match first_raised (completion_order order (length tasks)) tasks with
  | Some exc => raise exc
  | None => ret (omap value_of tasks)
  end.

End Gather.

End asyncio.

(** ** app/core/report_generator.py: the data-source fan-out *)

Module core_report_generator.

(** What a data source returns ([Dict[str, Any]]), as far as its shape
    matters here. *)
#[local] Unset Elimination Schemes.
Inductive Json : Type :=
| JStr (s : string)
| JList (items : list Json)
| JObj (fields : list (string * Json)).
#[local] Set Elimination Schemes.

(** An element of the list [results]: a source's dict, or the exception
    it raised ([isinstance(result, Exception)]). *)
Definition is_exception (r : result Json) : bool := is_raised r.

Definition _safe_extract (results : list (result Json)) (index : nat) : Json :=
  if Nat.leb (length results) index then
    JObj [("error", JStr "Result index out of range")]
  else
    match results !! index with
    | Some (inl exc) => JObj [("error", JStr (str_exc exc))]
    | Some (inr data) => data
    | None => JObj [("error", JStr "Result index out of range")]
    end.

Record RawData : Type := mkRawData {
  company_name : string;
  url : string;
  search_data : Json;
  research_data : Json;
  website_data : Json;
  linkedin_data : Json;
  funding_data : Json
}.

(** The number of error markers (captured exceptions) in a list of
    outcomes. *)
Definition count_exceptions (results : list (result Json)) : nat :=
  length (List.filter is_exception results).

(** Lines 52-71 of [generate_report_async]: the five fetches are
    gathered with [return_exceptions=True] and combined. [tasks] are
    the awaitables of the serper, perplexity, scraper, linkedin and
    tracxn sources, in this order. *)
Definition collect_raw_data (order : list nat) (company_name url : string)
    (tasks : list (result Json)) : RawData :=
  let results := asyncio.gather_return_exceptions order tasks in
  mkRawData company_name url
    (_safe_extract results 0)
    (_safe_extract results 1)
    (_safe_extract results 2)
    (_safe_extract results 3)
    (_safe_extract results 4).

End core_report_generator.

(** ** app/data_sources/openai_websearch.py and web_searcher.py *)

Module openai_websearch.

Record WebSearchResponse : Type := mkWebSearchResponse {
  content : string;
  link : string
}.

(** [search_on_website]. [website_url] is [job.domain], which may be
    [None]: the [replace] that builds the prompt then raises, outside
    the [try]. [answer] is the oracle for the [try] block (the LLM call,
    [parse_json_markdown] and the validation of the parsed data): any
    exception it raises is logged and turned into the N/A response. *)
Definition search_on_website
    (answer : string -> string -> result WebSearchResponse)
    (topic : string) (website_url : option string) : result WebSearchResponse :=
  match website_url with
  | None => raise (TypeError "replace() argument 2 must be str, not None")
  | Some website_url =>
      match answer topic website_url with
      | inl _ => ret (mkWebSearchResponse "N/A" "N/A")
      | inr result => ret result
      end
  end.

End openai_websearch.

Module web_searcher.
Import openai_websearch.

Definition info_topics : list (string * string) :=
  [("company_name", "What is the name of the company?");
   ("business_model",
    "What is the business model of the company? It can be B2B, B2C, C2C, etc.");
   ("products_services", "What products and/or services does the company offer?");
   ("market", "What market does the company work in?");
   ("team", "Who are the founders and team members of the company?")].

(** The [answer] of [fetch_info]: the response object, or the string
    of the [except] branch. *)
Inductive Answer : Type :=
| Response (r : WebSearchResponse)
| Str (s : string).

Definition fetch_info (answer : string -> string -> result WebSearchResponse)
    (job_domain : option string) (key topic : string) : result (string * Answer) :=
  match search_on_website answer topic job_domain with
  | inr a => ret (key, Response a)
  | inl _ => ret (key, Str "N/A")
  end.

(** [answer.dict()] *)
Definition dict (a : Answer) : result WebSearchResponse :=
  match a with
  | Response r => ret r
  | Str _ => raise (AttributeError "'str' object has no attribute 'dict'")
  end.

(** [{key: answer.dict() for key, answer in results_list}] *)
Fixpoint to_dict (results_list : list (string * Answer))
    (acc : gmap string WebSearchResponse) : result (gmap string WebSearchResponse) :=
  match results_list with
  | [] => ret acc
  | (key, a) :: rest =>
      let! d := dict a in
      to_dict rest (<[key := d]> acc)
  end.

Definition get_company_info
    (answer : string -> string -> result WebSearchResponse) (order : list nat)
    (job_domain : option string) : result (gmap string WebSearchResponse) :=
  let tasks := map (fun kt => fetch_info answer job_domain (fst kt) (snd kt)) info_topics in
  let! results_list := asyncio.gather order tasks in
  to_dict results_list ∅.

(** The response a topic ends with: the answer of the web search, or
    the N/A response when the search failed. *)
Definition resolved (answer : string -> string -> result WebSearchResponse)
    (website_url topic : string) : WebSearchResponse :=
  match answer topic website_url with
  | inl _ => mkWebSearchResponse "N/A" "N/A"
  | inr r => r
  end.

(** The dict [get_company_info] builds when every topic has ended with
    a response. *)
Definition collected (answer : string -> string -> result WebSearchResponse)
    (website_url : string) : gmap string WebSearchResponse :=
  foldl (fun acc kt => <[fst kt := resolved answer website_url (snd kt)]> acc)
    ∅ info_topics.

End web_searcher.

(** ** app/processors/report_generator.py: the orchestrator *)

Module processors_report_generator.
Import openai_websearch llm_api_wrapper.

Record RawData : Type := mkRawData {
  company_name : string;
  url : string;
  website_data : gmap string WebSearchResponse
}.

(** The collaborators of one run: the web search behind
    [search_on_website], the three section processors ([generate]
    returns what the LLM wrapper returned, or raises), and the
    completion orders the scheduler picks for the two gathers. *)
Record World : Type := mkWorld {
  web_answer : string -> string -> result WebSearchResponse;
  overview_processor : RawData -> result ResponseValue;
  product_processor : RawData -> result ResponseValue;
  market_processor : RawData -> result ResponseValue;
  sources_order : list nat;
  sections_order : list nat
}.

(** The validation of a [str | None] field of [ReportModel]. *)
Definition validate_text (v : ResponseValue) : result (option string) :=
  match v with
  | Content text => ret (Some text)
  | Annotated _ _ => raise (ValidationError "Input should be a valid string")
  end.

Definition section_tasks (w : World) (raw_data : RawData)
    : list (result ResponseValue) :=
  [overview_processor w raw_data;
   product_processor w raw_data;
   market_processor w raw_data].

Definition _generate_report_sections (w : World) (raw_data : RawData)
    : result ReportModel :=
  let tasks := section_tasks w raw_data in
  let! results := asyncio.gather (sections_order w) tasks in
  let! r0 := pystr.index results 0 in
  let! r1 := pystr.index results 1 in
  let! r2 := pystr.index results 2 in
  let! overview := validate_text r0 in
  let! product := validate_text r1 in
  let! market := validate_text r2 in
  ret (mkReportModel overview product market None None None None).

(** The statements of [generate_report_async], one location before
    each, with the local variables live there. [at_company_info] and
    [at_sections] are the two [await]s, where the coroutine is
    suspended; [except_*] are the statements of the handler. *)
Inductive Location : Type :=
| at_lookup
| at_set_processing
| at_set_domain
| at_company_name
| at_company_info (company_name : string)
| at_override (company_name : string) (website_data : gmap string WebSearchResponse)
| at_sections (raw_data : RawData)
| at_set_report (report : ReportModel)
| at_set_completed (report : ReportModel)
| at_store (report : ReportModel)
| at_return (report : ReportModel)
| except_check (e : Exception)
| except_set_failed (e : Exception)
| except_set_error (e : Exception)
| except_store
| returned (value : option ReportModel)
| raised (e : Exception).

Definition Config : Type := (Location * gmap string ScreenerJob)%type.

(** [jobs_db[self.job_id] = job]: the entry is bound to the object it
    holds already. *)
Definition rebind (job_id : string) (jobs_db : gmap string ScreenerJob)
    : gmap string ScreenerJob :=
  match jobs_db !! job_id with
  | Some job => <[job_id := job]> jobs_db
  | None => jobs_db
  end.

(** [job.domain], read through the alias. *)
Definition job_domain (job_id : string) (jobs_db : gmap string ScreenerJob)
    : option string :=
  match jobs_db !! job_id with
  | Some job => domain job
  | None => None
  end.

(** The override of the company name: the [content] the web search
    resolved for the topic [company_name], when it is longer than three
    characters. *)
Definition choose_company_name (derived : string) (found : WebSearchResponse) : string :=
  if Nat.ltb 3 (String.length (content found)) then content found else derived.

Section Step.
Variable w : World.
Variable job_id : string.
Variable url : string.

Definition step (c : Config) : Config :=
  let '(loc, jobs_db) := c in
  match loc with
  | at_lookup =>
      (* job = jobs_db[self.job_id] *)
      match jobs_db !! job_id with
      | Some _ => (at_set_processing, jobs_db)
      | None => (except_check (KeyError job_id), jobs_db)
      end
  | at_set_processing =>
      (* job.status = JobStatus.PROCESSING *)
      (at_set_domain, alter (set_status PROCESSING) job_id jobs_db)
  | at_set_domain =>
      (* job.domain = extract_domain_from_url(url) *)
      match url_parser.extract_domain_from_url url with
      | inr d => (at_company_name, alter (set_domain d) job_id jobs_db)
      | inl e => (except_check e, jobs_db)
      end
  | at_company_name =>
      (* company_name = extract_company_name_from_url(url) *)
      match url_parser.extract_company_name_from_url url with
      | inr name => (at_company_info name, jobs_db)
      | inl e => (except_check e, jobs_db)
      end
  | at_company_info name =>
      (* website_data = await self.web_search.get_company_info(job) *)
      match web_searcher.get_company_info (web_answer w) (sources_order w)
              (job_domain job_id jobs_db) with
      | inr website_data => (at_override name website_data, jobs_db)
      | inl e => (except_check e, jobs_db)
      end
  | at_override name website_data =>
      (* if website_data["company_name"] and
            len(website_data["company_name"]["content"]) > 3: ...
         the dict of a response has two keys, so it is truthy *)
      match website_data !! "company_name" with
      | None => (except_check (KeyError "company_name"), jobs_db)
      | Some found =>
          let name := choose_company_name name found in
          (at_sections (mkRawData name url website_data), jobs_db)
      end
  | at_sections raw_data =>
      (* report = await self._generate_report_sections(raw_data) *)
      match _generate_report_sections w raw_data with
      | inr r => (at_set_report r, jobs_db)
      | inl e => (except_check e, jobs_db)
      end
  | at_set_report r =>
      (* job.report = report *)
      (at_set_completed r, alter (set_report r) job_id jobs_db)
  | at_set_completed r =>
      (* job.status = JobStatus.COMPLETED *)
      (at_store r, alter (set_status COMPLETED) job_id jobs_db)
  | at_store r =>
      (* jobs_db[self.job_id] = job *)
      (at_return r, rebind job_id jobs_db)
  | at_return r =>
      (* return report *)
      (returned (Some r), jobs_db)
  | except_check e =>
      (* except Exception as e: if self.job_id in jobs_db: *)
      match jobs_db !! job_id with
      | Some _ => (except_set_failed e, jobs_db)
      | None => (returned None, jobs_db)
      end
  | except_set_failed e =>
      (* job = jobs_db[self.job_id]; job.status = JobStatus.FAILED *)
      match jobs_db !! job_id with
      | Some _ => (except_set_error e, alter (set_status FAILED) job_id jobs_db)
      | None => (raised (KeyError job_id), jobs_db)
      end
  | except_set_error e =>
      (* job.error = str(e) *)
      (except_store, alter (set_error (str_exc e)) job_id jobs_db)
  | except_store =>
      (* jobs_db[self.job_id] = job *)
      (returned None, rebind job_id jobs_db)
  | returned v => (returned v, jobs_db)
  | raised e => (raised e, jobs_db)
  end.

(** The configuration after [n] statements. *)
Definition steps (n : nat) (c : Config) : Config := Nat.iter n step c.

(** The whole call: no path runs more than eleven statements. *)
Definition generate_report_async (jobs_db : gmap string ScreenerJob) : Config :=
  steps 11 (at_lookup, jobs_db).

End Step.

(** The coroutine has not started, is suspended at an [await], or is
    over: the configurations another coroutine can see. *)
Definition observable (loc : Location) : bool :=
  match loc with
  | at_lookup | at_company_info _ | at_sections _ | returned _ | raised _ => true
  | _ => false
  end.

(** The job record agrees with its status: a report is attached exactly
    when the job is Completed, an error exactly when it is Failed. *)
Definition consistent (job : ScreenerJob) : Prop :=
  (is_Some (report job) <-> status job = COMPLETED) /\
  (is_Some (error job) <-> status job = FAILED).

(** One move of the lifecycle Pending -> Processing -> Completed or
    Failed, or no move. *)
Definition lifecycle_step (s s' : JobStatus) : Prop :=
  s' = s \/
  (s = PENDING /\ s' = PROCESSING) \/
  (s = PROCESSING /\ (s' = COMPLETED \/ s' = FAILED)).

(** The two locations between the two assignments of an update of the
    job: after [job.report = report] and before [job.status = COMPLETED];
    after [job.status = FAILED] and before [job.error = str(e)]. *)
Definition mid_update (loc : Location) : bool :=
  match loc with
  | at_set_completed _ | except_set_error _ => true
  | _ => false
  end.

(** What the job looks like at each location of a run that was started
    on a Pending job. *)
Definition job_at (loc : Location) (job : ScreenerJob) : Prop :=
  match loc with
  | at_lookup | at_set_processing =>
      status job = PENDING /\ report job = None /\ error job = None
  | at_set_domain | at_company_name | at_company_info _ | at_override _ _
  | at_sections _ | at_set_report _ | except_check _ | except_set_failed _ =>
      status job = PROCESSING /\ report job = None /\ error job = None
  | at_set_completed r =>
      status job = PROCESSING /\ report job = Some r /\ error job = None
  | at_store r | at_return r | returned (Some r) =>
      status job = COMPLETED /\ report job = Some r /\ error job = None
  | except_set_error _ =>
      status job = FAILED /\ report job = None /\ error job = None
  | except_store | returned None =>
      status job = FAILED /\ report job = None /\ is_Some (error job)
  | raised _ => False
  end.

(** An upper bound on the number of statements still to run. *)
Definition remaining (loc : Location) : nat :=
  match loc with
  | at_lookup => 11
  | at_set_processing => 10
  | at_set_domain => 9
  | at_company_name => 8
  | at_company_info _ => 7
  | at_override _ _ => 6
  | at_sections _ => 5
  | at_set_report _ => 4
  | at_set_completed _ => 3
  | at_store _ => 2
  | at_return _ => 1
  | except_check _ => 4
  | except_set_failed _ => 3
  | except_set_error _ => 2
  | except_store => 1
  | returned _ | raised _ => 0
  end.

(** The second lookup of the handler is guarded by its membership test,
    and nothing has been raised to the caller. *)
Definition guarded (job_id : string) (c : Config) : Prop :=
  match fst c with
  | except_set_failed _ => is_Some (snd c !! job_id)
  | raised _ => False
  | _ => True
  end.

End processors_report_generator.

(** ** Concurrent calls of [LLMAPIWrapper.get_response]

    Several coroutines call [get_response] on one wrapper, on the
    single-threaded event loop: a coroutine that runs keeps running until
    it reaches an [await] or returns. A successful call is suspended
    once, in [await get_openai_response(...)]; when it is resumed it
    computes its [total_cost], reads [self.accumulated_cost], writes the
    sum back and returns. The read and the write of the [+=] are two
    steps here. *)

Module concurrent_calls.
Import llm_api_wrapper.

Inductive CallState : Type :=
| scheduled
| awaiting_response
| computed (total_cost : float)
| loaded (total_cost : float) (read : float)
| finished.

Record Loop : Type := mkLoop {
  wrapper : LLMAPIWrapper;
  calls : list CallState;
  running : option nat
}.

Definition is_running (i : nat) (running : option nat) : bool :=
  match running with
  | Some j => Nat.eqb i j
  | None => false
  end.

Definition is_idle (running : option nat) : bool :=
  match running with
  | Some _ => false
  | None => true
  end.

(** The event loop gives call [i] its next step, if call [i] may take
    one: a new or suspended call only when no coroutine is running, the
    running call at any time. [costs] lists the [total_cost] each call
    computes from its response. *)
Definition advance (costs : list float) (l : Loop) (i : nat) : Loop :=
  match calls l !! i, costs !! i with
  | Some scheduled, Some _ =>
      if is_idle (running l)
      then mkLoop (wrapper l) (<[i := awaiting_response]> (calls l)) None
      else l
  | Some awaiting_response, Some c =>
      if is_idle (running l)
      then mkLoop (wrapper l) (<[i := computed c]> (calls l)) (Some i)
      else l
  | Some (computed c), Some _ =>
      if is_running i (running l)
      then mkLoop (wrapper l)
             (<[i := loaded c (accumulated_cost (wrapper l))]> (calls l)) (Some i)
      else l
  | Some (loaded c read), Some _ =>
      if is_running i (running l)
      then mkLoop (mkLLMAPIWrapper (read + c)%float) (<[i := finished]> (calls l)) None
      else l
  | _, _ => l
  end.

(** The loop after the scheduler's choices [schedule], from [m] calls
    not yet started. *)
Definition start (self : LLMAPIWrapper) (m : nat) : Loop :=
  mkLoop self (replicate m scheduled) None.

Definition run (costs : list float) (schedule : list nat) (l : Loop) : Loop :=
  foldl (advance costs) l schedule.

Definition all_finished (l : Loop) : Prop :=
  Forall (fun st => st = finished) (calls l).

(** The number of calls that have written their cost back. *)
Definition is_finished (st : CallState) : bool :=
  match st with
  | finished => true
  | _ => false
  end.

Definition finished_calls (states : list CallState) : nat :=
  length (List.filter is_finished states).

(** The accumulator after [k] executions of
    [self.accumulated_cost += c], from [initial]: [k] binary64
    additions, one after the other. *)
Definition add_times (k : nat) (c initial : float) : float :=
  Nat.iter k (fun accumulated => (accumulated + c)%float) initial.

(** What every loop reached from [start] satisfies when each of the [m]
    calls costs [c]: the accumulator holds the initial amount with [c]
    added once for every finished call, and a call between its
    resumption and its write is the running one, with the value it has
    read still in the accumulator. *)
Definition accounted (c : float) (m : nat) (initial : float) (l : Loop) : Prop :=
  length (calls l) = m /\
  accumulated_cost (wrapper l) = add_times (finished_calls (calls l)) c initial /\
  (forall i c', calls l !! i = Some (computed c') ->
     running l = Some i /\ c' = c) /\
  (forall i c' read, calls l !! i = Some (loaded c' read) ->
     running l = Some i /\ c' = c /\
     read = accumulated_cost (wrapper l)).

(** The schedule that runs the calls one after the other. *)
Definition sequential (m : nat) : list nat :=
  flat_map (fun i => [i; i; i; i]) (seq 0 m).

(** A scheduler that could switch coroutines between any two steps:
    the same steps without the rule that the running call goes on. *)
Definition advance_preemptive (costs : list float) (l : Loop) (i : nat) : Loop :=
  match calls l !! i, costs !! i with
  | Some scheduled, Some _ =>
      mkLoop (wrapper l) (<[i := awaiting_response]> (calls l)) None
  | Some awaiting_response, Some c =>
      mkLoop (wrapper l) (<[i := computed c]> (calls l)) None
  | Some (computed c), Some _ =>
      mkLoop (wrapper l)
        (<[i := loaded c (accumulated_cost (wrapper l))]> (calls l)) None
  | Some (loaded c read), Some _ =>
      mkLoop (mkLLMAPIWrapper (read + c)%float) (<[i := finished]> (calls l)) None
  | _, _ => l
  end.

End concurrent_calls.

(** ** Concrete inputs used by the examples below *)

Definition sample_report : ReportModel :=
  mkReportModel (Some "# Acme") (Some "Robots") (Some "Large") None None None None.

Definition sample_db : gmap string ScreenerJob :=
  <["job-1" := mkScreenerJob "job-1" COMPLETED "https://acme.co/" (Some "acme.co")
                 (Some sample_report) None]>
  (<["job-2" := new_job "job-2" PENDING "https://example.org/"]> ∅).


(** A backend that answers every attempt with a rate-limit signal, one
    that answers the third attempt with another error, and one that
    answers at once. *)
Definition always_rate_limited : openai_api.Backend :=
  fun _ _ => inl (RateLimitError "429 Too Many Requests").

Definition broken_at_third_attempt : openai_api.Backend :=
  fun attempt _ =>
    if Nat.ltb attempt 2 then inl (RateLimitError "429 Too Many Requests")
    else inl (APIError "500 Internal Server Error").

Definition sample_completion : openai_api.ChatCompletion :=
  openai_api.mkChatCompletion 1000 500
    [openai_api.mkChatMessage "Acme builds robots." []].

Definition answering : openai_api.Backend :=
  fun _ _ => inr sample_completion.

(** Five data-source fetches of which the second and the fifth fail, and
    a completion order in which the last ones finish first. *)
Definition sample_fetches : list (result core_report_generator.Json) :=
  [inr (core_report_generator.JObj [("company overview", core_report_generator.JStr "Acme")]);
   inl (APIError "503 Service Unavailable");
   inr (core_report_generator.JObj [("home", core_report_generator.JStr "<html>")]);
   inr (core_report_generator.JObj []);
   inl (APIError "401 Unauthorized")].

Definition sample_order : list nat := [4; 2; 3; 0; 1].

(** A run for https://acme.co/about: the web search resolves the company
    name, fails for the market topic and answers the other topics; the
    three section processors answer. In the other worlds one collaborator
    behaves differently. *)
Definition sample_answer (topic website_url : string)
    : result openai_websearch.WebSearchResponse :=
  if String.eqb topic "What is the name of the company?"
  then inr (openai_websearch.mkWebSearchResponse "Acme Robotics" "https://acme.co/about")
  else if String.eqb topic "What market does the company work in?"
  then inl (APIError "Connection error.")
  else inr (openai_websearch.mkWebSearchResponse "B2B" "https://acme.co/").

Definition sample_world : processors_report_generator.World :=
  processors_report_generator.mkWorld sample_answer
    (fun _ => inr (llm_api_wrapper.Content "# Acme Robotics"))
    (fun _ => inr (llm_api_wrapper.Content "Robots as a service"))
    (fun _ => inr (llm_api_wrapper.Content "A large market"))
    [3; 1] [2; 0].

(** The overview processor's LLM call fails; nothing else does. *)
Definition failing_section_world : processors_report_generator.World :=
  processors_report_generator.mkWorld
    (fun _ _ => inr (openai_websearch.mkWebSearchResponse "Acme Robotics" "https://acme.co/"))
    (fun _ => inl (RateLimitError "429 Too Many Requests"))
    (fun _ => inr (llm_api_wrapper.Content "Robots as a service"))
    (fun _ => inr (llm_api_wrapper.Content "A large market"))
    [] [].

Definition sample_url : string := "https://acme.co/about".

Definition pending_db : gmap string ScreenerJob :=
  snd (main.generate "job-1" sample_url ∅).

(** Three concurrent calls and a scheduler that interleaves them: every
    call is started before the first one is resumed, and the scheduler
    turns to the third call once while the first one is running. *)
Definition interleaved : list nat := [0; 1; 2; 1; 1; 1; 0; 2; 0; 0; 2; 2; 2].

(** * More of the code *)

(** ** app/processors/report_generator.py: what a run hands on *)


(** The value a section generation returned is a dict of annotations. *)
Definition is_annotated (v : llm_api_wrapper.ResponseValue) : bool :=
  match v with
  | llm_api_wrapper.Annotated _ _ => true
  | llm_api_wrapper.Content _ => false
  end.

(** A world in which the overview comes back with annotations. *)
Definition annotated_world : processors_report_generator.World :=
  processors_report_generator.mkWorld
    (fun _ _ => inr (openai_websearch.mkWebSearchResponse "Acme Robotics" "https://acme.co/"))
    (fun _ => inr (llm_api_wrapper.Annotated ["https://acme.co/about"] "# Acme Robotics"))
    (fun _ => inr (llm_api_wrapper.Content "Robots as a service"))
    (fun _ => inr (llm_api_wrapper.Content "A large market"))
    [] [].

(** ** app/core/openai_api.py: the client singleton *)

Module openai_client.

Record AsyncOpenAI : Type := mkAsyncOpenAI {
  api_key : string
}.

(** [OpenAIClient.__new__], on the class attribute [_instance]: the
    result and the attribute after the call. [api_key] is
    [settings.openai_api_key], a [str] by the validation of the settings,
    so of the test [not api_key or not isinstance(api_key, str)] only the
    emptiness can hold. *)
Definition OpenAIClient (api_key : string) (_instance : option AsyncOpenAI)
    : result AsyncOpenAI * option AsyncOpenAI :=
  match _instance with
  | None =>
      match api_key with
      | EmptyString =>
          (raise (ValueError "API key is invalid. Please provide a valid OpenAI API key."),
           None)
      | _ => (ret (mkAsyncOpenAI api_key), Some (mkAsyncOpenAI api_key))
      end
  | Some client => (ret client, Some client)
  end.

(** Constructions one after the other, with the key the settings hold at
    each: the results in order, and the attribute at the end. *)
Fixpoint constructions (keys : list string) (_instance : option AsyncOpenAI)
    : list (result AsyncOpenAI) * option AsyncOpenAI :=
  match keys with
  | [] => ([], _instance)
  | key :: keys' =>
      let '(r, _instance') := OpenAIClient key _instance in
      let '(rs, final) := constructions keys' _instance' in
      (r :: rs, final)
  end.

End openai_client.

(** ** app/data_sources/openai_websearch.py: the search model *)

Definition SEARCH_MODEL : string := "gpt-4o-search-preview".

(** The sum of the delays of a run. *)
Definition total_delay (delays : list Z) : Z := foldr Z.add 0%Z delays.

(** A backend that is rate-limited twice and then answers. *)
Definition answering_at_third_attempt : openai_api.Backend :=
  fun attempt _ =>
    if Nat.ltb attempt 2 then inl (RateLimitError "429 Too Many Requests")
    else inr sample_completion.

(** A backend whose response has no choices. *)
Definition answering_without_choices : openai_api.Backend :=
  fun _ _ => inr (openai_api.mkChatCompletion 1000 500 []).

(** ** More Python string operations *)

(** [p in s] for strings: [p] occurs in [s]. *)
Fixpoint contains_str (p s : string) : bool :=
  String.prefix p s ||
  match s with
  | EmptyString => false
  | String _ rest => contains_str p rest
  end.

(** The text of [s] before the first occurrence of [p]; all of [s] when
    [p] does not occur. This is [re.split(p, s)[0]] for a pattern whose
    matches start exactly where the literal text [p] occurs. *)
Fixpoint before_first (p s : string) : string :=
  if String.prefix p s then EmptyString
  else match s with
       | EmptyString => EmptyString
       | String c rest => String c (before_first p rest)
       end.

(** ** app/utils/url_parser.py: [is_company_website] *)

Definition non_company_domains : list string :=
  ["facebook.com"; "linkedin.com"; "twitter.com"; "instagram.com";
   "youtube.com"; "medium.com"; "github.com"; "wikipedia.org";
   "google.com"; "amazon.com"; "apple.com"; "microsoft.com"].

(** [for domain in domains: if domain in netloc: return False] and the
    [return True] after the loop. *)
Fixpoint no_platform_in (domains : list string) (netloc : string) : bool :=
  match domains with
  | [] => true
  | domain :: rest =>
      if contains_str domain netloc then false else no_platform_in rest netloc
  end.

Definition is_company_website (url : string) : result bool :=
  let! netloc := urllib.urlparse_netloc url in
  (* Check if the URL has a valid domain *)
  match netloc with
  | EmptyString => ret false
  | _ =>
      (* Check if it's not a common non-company platform *)
      ret (no_platform_in non_company_domains netloc)
  end.

(** ** app/data_sources/openai_websearch.py: [strip_utm_source]

    [re.split(r'\?utm_[^&\s\)]*', url)[0]]: a match of the pattern starts
    at an occurrence of the text [?utm_] (the class after it may match
    nothing), so the first piece of the split is the text before the
    first such occurrence. *)
Definition strip_utm_source (url : string) : string := before_first "?utm_" url.

(** ** app/data_sources/openai_websearch.py: [search_on_web] *)

(** The logger a searcher was built with. *)
Inductive Logger : Type := a_logger.

(** [search_on_web], for the searcher's [logger] ([None] when the
    searcher was built with [logger=None]). [answer] is the oracle for
    the [try] block (the LLM call, the unwrapping of an annotated
    response, [parse_json_markdown] and the validation of the parsed
    data); the handler logs through [self.logger] before it returns the
    N/A response. *)
Definition search_on_web (logger : option Logger)
    (answer : string -> result openai_websearch.WebSearchResponse)
    (topic : string) : result openai_websearch.WebSearchResponse :=
  match answer topic with
  | inr result => ret result
  | inl _ =>
      (* self.logger.error(f"Error during web search: {e}") *)
      match logger with
      | None => raise (AttributeError "'NoneType' object has no attribute 'error'")
      | Some _ => ret (openai_websearch.mkWebSearchResponse "N/A" "N/A")
      end
  end.

(** ** app/processors/market_processor.py *)

Module market_processor.
Import openai_websearch llm_api_wrapper processors_report_generator.

Definition nl : string := String "010"%char EmptyString.

(** [MARKET_DESCRIPTION_PROMPT.replace("{raw_market_description}", ...)] *)
Definition rewrite_prompt (raw_market_description : string) : string :=
  nl +:+ "Given the following company description, rewrite it as a generic market description suitable for market research queries."
  +:+ nl +:+ "Focus on the type of market and the main activities, not the company name."
  +:+ nl +:+ "The resulting description must be short, one sentence long, 6 - 15 words."
  +:+ nl +:+ "Company market description:"
  +:+ nl +:+ "---"
  +:+ nl +:+ raw_market_description
  +:+ nl +:+ "---"
  +:+ nl +:+ "Market description for search queries:"
  +:+ nl.

(** [SECTION_PROMPT.format(data=...)] *)
Definition section_prompt (data : string) : string :=
  nl +:+ "You are an expert market analyst. Given the following structured market information:"
  +:+ nl +:+ "---"
  +:+ nl +:+ data
  +:+ nl +:+ "---"
  +:+ nl +:+ "Write a concise market overview report in Markdown"
  +:+ nl +:+ "Format the entire output as Markdown, using bullet points if appropriate.  "
  +:+ nl +:+ "If data contains numbers, use them."
  +:+ nl +:+ "DO NOT invent information, base all content only on the provided data."
  +:+ nl +:+ "DO NOT include the company name in the report."
  +:+ nl +:+ "DO NOT mention source links."
  +:+ nl.

(** The collaborators of one [generate]: the LLM call behind
    [_call_llm], the [try] block of [search_on_web], the completion
    order of the gather, the text an annotated response (a dict) is
    rendered to inside an f-string, and [json.dumps] of the data for the
    section prompt (company name, market description, parameters), which
    raises for a value it cannot serialise. *)
Record Market : Type := mkMarket {
  call_llm : string -> result ResponseValue;
  web_answer : string -> result WebSearchResponse;
  params_order : list nat;
  dict_str : list string -> string -> string;
  json_dumps : string -> ResponseValue -> list (string * string) -> result string
}.

(** [MarketProcessor.search]: the searcher was built with
    [logger=None]; a response object is truthy, so the dict of the
    answer is what is returned. *)
Definition search (m : Market) (topic : string) : result WebSearchResponse :=
  let! answer := search_on_web None (web_answer m) topic in
  ret answer.

(** [{market_description}] inside an f-string *)
Definition format_value (m : Market) (v : ResponseValue) : string :=
  match v with
  | Content text => text
  | Annotated annotations text => dict_str m annotations text
  end.

Definition parameters (market_description : string) : list (string * string) :=
  [("Total Addressable Market (TAM)",
    "What is the total addressable market (TAM) for '" +:+ market_description
      +:+ "'? Provide recent figures or best estimates.");
   ("Market Segments",
    "What are the main market segments for '" +:+ market_description
      +:+ "'? List and briefly describe them.");
   ("CAGR",
    "What is the Compound Annual Growth Rate (CAGR) for '" +:+ market_description
      +:+ "'? Provide recent figures or best estimates.");
   ("Geographic Expansion",
    "What are the main geographic regions for '" +:+ market_description
      +:+ "'? Are there notable trends in geographic expansion?")].

Definition fetch_param (m : Market) (key query : string) : result (string * string) :=
  let! search_result := search m query in
  ret (key, content search_result).

(** [{k: results[k] for k, _ in parameters}], in the order of the keys *)
Fixpoint pick (results : gmap string string) (keys : list string)
    : result (list (string * string)) :=
  match keys with
  | [] => ret []
  | k :: rest =>
      match results !! k with
      | None => raise (KeyError k)
      | Some v =>
          let! chosen := pick results rest in
          ret ((k, v) :: chosen)
      end
  end.

(** [data.get("website_data", {}).get("market", {}).get("content", "")] *)
Definition raw_market_description (data : RawData) : string :=
  match website_data data !! "market" with
  | Some found => content found
  | None => EmptyString
  end.

Definition generate (m : Market) (data : RawData) : result ResponseValue :=
  let company_name := company_name data in
  (* Use LLM to rewrite the market description for search queries *)
  let! market_description := call_llm m (rewrite_prompt (raw_market_description data)) in
  let parameters := parameters (format_value m market_description) in
  (* Run searches for all parameters asynchronously *)
  let tasks := map (fun kq => fetch_param m (fst kq) (snd kq)) parameters in
  let! results_list := asyncio.gather (params_order m) tasks in
  let results := foldl (fun acc kv => <[fst kv := snd kv]> acc) ∅ results_list in
  (* Prepare structured data for LLM *)
  let! chosen := pick results (map fst parameters) in
  let! dumped := json_dumps m company_name market_description chosen in
  call_llm m (section_prompt dumped).

End market_processor.

(** A market processor whose LLM answers and whose web search fails on
    the growth-rate query. *)
Definition sample_market : market_processor.Market :=
  market_processor.mkMarket
    (fun _ => inr (llm_api_wrapper.Content "warehouse robotics"))
    (fun topic =>
       if contains_str "CAGR" topic then inl (APIError "search failed")
       else inr (openai_websearch.mkWebSearchResponse "about 4 billion" "https://example.org/"))
    [] (fun _ text => text)
    (fun _ _ _ => inr "{}").

(** The sample world, with the market section generated by
    [sample_market]. *)
Definition market_world : processors_report_generator.World :=
  processors_report_generator.mkWorld
    (processors_report_generator.web_answer sample_world)
    (processors_report_generator.overview_processor sample_world)
    (processors_report_generator.product_processor sample_world)
    (market_processor.generate sample_market)
    [] [].

(** ** The construction of a report generator and POST /generate *)

Module report_generator_init.

(** [os.getenv] *)
Definition Env : Type := string -> option string.

(** [bool(value)] for what [os.getenv] returns. *)
Definition truthy (value : option string) : bool :=
  match value with
  | Some (String _ _) => true
  | _ => false
  end.

(** [self.api_key = api_key or os.getenv(name)] with no [api_key]
    passed, and [if not self.api_key: raise ValueError(message)]. *)
Definition require_key (env : Env) (name message : string) : result string :=
  match env name with
  | Some (String c rest) => ret (String c rest)
  | _ => raise (ValueError message)
  end.

(** The constructors of app/data_sources and of [LLMProcessor]. *)
Definition SerperDataSource (env : Env) : result string :=
  require_key env "SERPER_API_KEY" "Serper API key is required".

Definition PerplexityDataSource (env : Env) : result string :=
  require_key env "PERPLEXITY_API_KEY" "Perplexity API key is required".

Definition ScraperAPIDataSource (env : Env) : result string :=
  require_key env "SCRAPER_API_KEY" "ScraperAPI key is required".

Definition TracxnDataSource (env : Env) : result string :=
  require_key env "TRACXN_API_KEY" "Tracxn API key is required".

Definition LLMProcessor (env : Env) : result string :=
  require_key env "OPENAI_API_KEY" "OpenAI API key is required for the LLM processor".

(** [ReportGenerator.__init__], in the order of its assignments. The
    LLM wrapper, the web researcher and the three section processors are
    built without a check. [logger] is the outcome of
    [setup_logger(job_id)], which creates the log directory and opens
    the log file; [linkedin_source] is the outcome of
    [CoreSignalDataSource()], imported from
    app/data_sources/linkedin_source.py. *)
Definition ReportGenerator (env : Env) (logger linkedin_source : result unit)
    : result unit :=
  let! logger := logger in
  let! serper_source := SerperDataSource env in
  let! perplexity_source := PerplexityDataSource env in
  let! scraper_source := ScraperAPIDataSource env in
  let! linkedin_source := linkedin_source in
  let! tracxn_source := TracxnDataSource env in
  let! llm_processor := LLMProcessor env in
  ret tt.

(** app/utils/config.py: [Config.validate_required_keys], for class
    attributes read from the same environment. *)
Definition validate_required_keys (env : Env) : gmap string bool :=
  list_to_map
    [("OPENAI_API_KEY", truthy (env "OPENAI_API_KEY"));
     ("SERPER_API_KEY", truthy (env "SERPER_API_KEY"));
     ("PERPLEXITY_API_KEY", truthy (env "PERPLEXITY_API_KEY"));
     ("SCRAPER_API_KEY", truthy (env "SCRAPER_API_KEY"));
     ("CORESIGNAL_API_KEY", truthy (env "CORESIGNAL_API_KEY"));
     ("TRACXN_API_KEY", truthy (env "TRACXN_API_KEY"))].

(** main.py: POST /generate with the construction of the generator
    written out. [background_tasks] are the orchestrations scheduled so
    far, as pairs of job id and URL. The result is the response or the
    exception of the handler, the store and the scheduled tasks. *)
Definition generate (env : Env) (logger linkedin_source : result unit)
    (job_id request_url : string) (jobs_db : gmap string ScreenerJob)
    (background_tasks : list (string * string))
    : result main.JobResponse * gmap string ScreenerJob * list (string * string) :=
  (* Create and store the job *)
  let job := new_job job_id PENDING request_url in
  let jobs_db := <[job_id := job]> jobs_db in
  (* Start the report generation in the background *)
  match ReportGenerator env logger linkedin_source with
  | inl e => (raise e, jobs_db, background_tasks)
  | inr report_gen =>
      (ret (main.mkJobResponse job_id PENDING), jobs_db,
       background_tasks ++ [(job_id, request_url)])
  end.

End report_generator_init.

(** An environment with every key but the one of Serper. *)
Definition env_without_serper : report_generator_init.Env :=
  fun name => if String.eqb name "SERPER_API_KEY" then None else Some "secret".

(** ** app/data_sources/search_sources.py: [PerplexityDataSource.fetch_data] *)

Module perplexity_source.
Import core_report_generator.

Definition research_queries (company_name : string) : list string :=
  ["Detailed analysis of " +:+ company_name +:+ "'s business model and products";
   company_name +:+ " market size, TAM, and growth potential";
   company_name +:+ " competitors and competitive landscape";
   company_name +:+ " financial performance and key metrics";
   company_name +:+ " funding history and investors";
   company_name +:+ " leadership team background and experience"].

(** Extract category from query *)
Definition category (query : string) : string :=
  if contains_str "business model" query then "business_model"
  else if contains_str "market" query then "market_analysis"
  else if contains_str "competitors" query then "competitive_landscape"
  else if contains_str "financial" query then "financial_metrics"
  else if contains_str "funding" query then "fundraising"
  else if contains_str "leadership" query then "team"
  else "general".

(** The loop over the queries. [post query] is the request for one
    query with [raise_for_status] and [response.json()]: the parsed
    body, or what was raised. *)
Fixpoint fetch_loop (post : string -> result Json) (queries : list string)
    (results : gmap string Json) : result (gmap string Json) :=
  match queries with
  | [] => ret results
  | query :: rest =>
      let! body := post query in
      fetch_loop post rest (<[category query := body]> results)
  end.

Definition fetch_data (post : string -> result Json) (company_name url : string)
    : result (gmap string Json) :=
  fetch_loop post (research_queries company_name) ∅.

(** The six categories the code names for its six queries. *)
Definition categories : list string :=
  ["business_model"; "market_analysis"; "competitive_landscape";
   "financial_metrics"; "fundraising"; "team"].

End perplexity_source.

(** A backend that answers every query with the query itself. *)
Definition echo_post (query : string) : Exception + core_report_generator.Json :=
  inr (core_report_generator.JStr query).

(** ** app/data_sources/scraper_sources.py: [ScraperAPIDataSource.fetch_data] *)

Module scraper_sources.

(** The outcome of one [client.get] with [raise_for_status]: the text
    of the page, an [httpx.HTTPStatusError] with the status code of its
    response and its message, or another exception. *)
Inductive Fetched : Type :=
| Html (text : string)
| HTTPStatusError (status_code : Z) (message : string)
| Failure (e : Exception).

(** The entries of [results]: a page, or the error info of a page. *)
Inductive RawPage : Type :=
| Page (url html : string)
| PageError (url : string) (status_code : Z) (error : string).

Record CleanPage : Type := mkCleanPage {
  page_url : string;
  text_content : string
}.

(** Common paths for important company pages *)
Definition target_paths : list (string * string) :=
  [("home", "/"); ("about", "/about"); ("about-us", "/about-us");
   ("team", "/team"); ("our-team", "/our-team"); ("leadership", "/leadership");
   ("products", "/products"); ("solutions", "/solutions");
   ("services", "/services"); ("careers", "/careers")].

(** The collaborators of one [fetch_data]: [urljoin(base_url, path)]
    for the base of the request's URL, the scraping API, and the four
    regular-expression substitutions with the final [strip] that turn
    HTML into text. *)
Record Site : Type := mkSite {
  full_url : string -> string;
  get : string -> Fetched;
  clean_text : string -> string
}.

Fixpoint fetch_pages (site : Site) (paths : list (string * string))
    (results : gmap string RawPage) : result (gmap string RawPage) :=
  match paths with
  | [] => ret results
  | (page_type, path) :: rest =>
      let url := full_url site path in
      match get site url with
      | Html text => fetch_pages site rest (<[page_type := Page url text]> results)
      | HTTPStatusError status_code message =>
          if (status_code =? 404)%Z then
            (* Page not found, this is normal for some paths *)
            fetch_pages site rest results
          else
            (* For other errors, add error info but continue *)
            fetch_pages site rest
              (<[page_type +:+ "_error" := PageError url status_code message]> results)
      | Failure e => raise e
      end
  end.

(** One turn of the loop of [_extract_key_info_from_html]. *)
Definition extract_page (site : Site) (page_type : string) (data : RawPage)
    : option CleanPage :=
  if contains_str "error" page_type then None
  else match data with
       | Page url html => Some (mkCleanPage url (clean_text site html))
       | PageError _ _ _ => None
       end.

Definition _extract_key_info_from_html (site : Site) (raw_results : gmap string RawPage)
    : gmap string CleanPage :=
  map_imap (extract_page site) raw_results.

Definition fetch_data (site : Site) (company_name url : string)
    : result (gmap string CleanPage) :=
  let! netloc := urllib.urlparse_netloc url in
  let! results := fetch_pages site target_paths ∅ in
  ret (_extract_key_info_from_html site results).

(** The site that answers 404 wherever [site] answers with an HTTP
    error status. *)
Definition as_not_found (site : Site) : Site :=
  mkSite (full_url site)
    (fun url =>
       match get site url with
       | HTTPStatusError _ message => HTTPStatusError 404 message
       | fetched => fetched
       end)
    (clean_text site).

End scraper_sources.

(** What [fetch_data] makes of the outcome of its loop: the exception,
    or the cleaned pages. *)
Definition cleaned_outcome (site : scraper_sources.Site)
    (outcome : Exception + gmap string scraper_sources.RawPage)
    : Exception + gmap string scraper_sources.CleanPage :=
  match outcome with
  | inl e => inl e
  | inr results => inr (scraper_sources._extract_key_info_from_html site results)
  end.

(** A site whose home page is served, whose team page answers 500 and
    whose other pages are not found. *)
Definition sample_site : scraper_sources.Site :=
  scraper_sources.mkSite
    (fun path => "https://acme.co" +:+ path)
    (fun url =>
       if String.eqb url "https://acme.co/" then scraper_sources.Html "<h1>Acme</h1>"
       else if String.eqb url "https://acme.co/team"
       then scraper_sources.HTTPStatusError 500 "Server error"
       else scraper_sources.HTTPStatusError 404 "Not Found")
    (fun html => html).
(** * Properties *)

(** ** The inbound API (main.py) *)

Lemma get_report_inr (jobs_db : gmap string ScreenerJob) (job_id : string)
    (r : option ReportModel) :
  main.get_report job_id jobs_db = inr r ->
  exists job, jobs_db !! job_id = Some job /\ status job = COMPLETED /\ r = report job.
Proof.
  unfold main.get_report. intros H.
  destruct (jobs_db !! job_id) as [job|] eqn:Hjob; [|discriminate].
  destruct (decide (status job <> COMPLETED)) as [Hne|Heq]; [discriminate|].
  exists job. split; [reflexivity|]. split.
  - destruct (decide (status job = COMPLETED)); [assumption | contradiction].
  - congruence.
Qed.

(** C7. For a job id in the store the status query succeeds with the
    current status; the report query returns the stored report when the
    status is Completed and signals a client error (400) for every other
    status, so whatever it returns belongs to a Completed job; for an id
    that is not in the store both queries signal not-found (404). *)
Theorem job_queries_by_id (jobs_db : gmap string ScreenerJob) (job_id : string) :
  (forall job, jobs_db !! job_id = Some job ->
     main.get_job_status job_id jobs_db
       = inr (main.mkJobResponse job_id (status job)) /\
     (status job = COMPLETED ->
        main.get_report job_id jobs_db = inr (report job)) /\
     (status job <> COMPLETED ->
        exists exc, main.get_report job_id jobs_db = inl exc /\
                    main.status_code exc = 400%Z)) /\
  (forall r, main.get_report job_id jobs_db = inr r ->
     exists job, jobs_db !! job_id = Some job /\ status job = COMPLETED /\
                 r = report job) /\
  (jobs_db !! job_id = None ->
     (exists exc, main.get_job_status job_id jobs_db = inl exc /\
                  main.status_code exc = 404%Z) /\
     (exists exc, main.get_report job_id jobs_db = inl exc /\
                  main.status_code exc = 404%Z)).
Proof.
  split; [|split].
  - intros job Hjob. unfold main.get_job_status, main.get_report. rewrite Hjob.
    split; [reflexivity|]. split.
    + intros Hc. destruct (decide (status job <> COMPLETED)); [contradiction|reflexivity].
    + intros Hn. destruct (decide (status job <> COMPLETED)); [|contradiction].
      eexists. split; reflexivity.
  - apply get_report_inr.
  - intros Hnone. unfold main.get_job_status, main.get_report. rewrite Hnone.
    split; eexists; split; reflexivity.
Qed.

Lemma job_queries_by_id_witness :
  main.get_report "job-1" sample_db = inr (Some sample_report) /\
  (exists exc, main.get_report "job-2" sample_db = inl exc /\
               main.status_code exc = 400%Z) /\
  (exists exc, main.get_report "job-3" sample_db = inl exc /\
               main.status_code exc = 404%Z).
Proof.
  split; [|split].
  - destruct (job_queries_by_id sample_db "job-1") as [H _].
    destruct (H (mkScreenerJob "job-1" COMPLETED "https://acme.co/" (Some "acme.co")
                   (Some sample_report) None)) as (_ & Hc & _).
    + reflexivity.
    + apply Hc. reflexivity.
  - destruct (job_queries_by_id sample_db "job-2") as [H _].
    destruct (H (new_job "job-2" PENDING "https://example.org/")) as (_ & _ & Hn).
    + reflexivity.
    + apply Hn. discriminate.
  - destruct (job_queries_by_id sample_db "job-3") as (_ & _ & H).
    apply H. reflexivity.
Defined.

(** ** The text-generation adapter (app/core/openai_api.py) *)

Section RetryLoop.
Import openai_api.
Variable backend : Backend.
Variable req : ChatRequest.


Lemma backoffs_S (b : Z) (k : nat) :
  backoffs b (S k) = b :: backoffs (b * 2) k.
Proof.
  unfold backoffs. simpl. f_equal.
  - lia.
  - rewrite <- seq_shift, map_map. apply map_ext. intros j.
    rewrite Nat2Z.inj_succ, Z.pow_succ_r by lia. lia.
Qed.

Lemma retry_events_S (b : Z) (k : nat) :
  retry_events req b (S k) =
    Create req :: LogWarning :: Sleep b :: retry_events req (b * 2) k.
Proof. unfold retry_events. rewrite backoffs_S. reflexivity. Qed.

Lemma calls_retry_events (b : Z) (k attempt : nat) :
  calls (retry_events req b k ++ last_events backend req attempt) = replicate (S k) req.
Proof.
  revert b. induction k as [|k IH]; intros b.
  - unfold last_events. destruct (rate_limited backend req attempt); reflexivity.
  - rewrite retry_events_S.
    change (calls ((Create req :: LogWarning :: Sleep b :: retry_events req (b * 2) k)
                     ++ last_events backend req attempt))
      with (req :: calls (retry_events req (b * 2) k ++ last_events backend req attempt)).
    rewrite IH. reflexivity.
Qed.

Lemma sleeps_retry_events (b : Z) (k attempt : nat) :
  sleeps (retry_events req b k ++ last_events backend req attempt) = backoffs b k.
Proof.
  revert b. induction k as [|k IH]; intros b.
  - unfold last_events. destruct (rate_limited backend req attempt); reflexivity.
  - rewrite retry_events_S, backoffs_S.
    change (sleeps ((Create req :: LogWarning :: Sleep b :: retry_events req (b * 2) k)
                      ++ last_events backend req attempt))
      with (b :: sleeps (retry_events req (b * 2) k ++ last_events backend req attempt)).
    rewrite IH. reflexivity.
Qed.

Lemma attempts_loop_cons (attempt : nat) (rest : list nat) (b : Z) :
  attempts_loop backend req (attempt :: rest) b =
    match backend attempt req with
    | inr response => (ret response, [Create req])
    | inl exc =>
        if is_RateLimitError exc then
          if Nat.ltb attempt (max_retries - 1) then
            (fst (attempts_loop backend req rest (b * 2)%Z),
             Create req :: LogWarning :: Sleep b
               :: snd (attempts_loop backend req rest (b * 2)%Z))
          else (raise exc, [Create req; LogError])
        else (raise exc, [Create req])
    end.
Proof.
  cbn [attempts_loop].
  destruct (backend attempt req) as [exc|response]; [|reflexivity].
  destruct (is_RateLimitError exc); [|reflexivity].
  destruct (Nat.ltb attempt (max_retries - 1)); [|reflexivity].
  destruct (attempts_loop backend req rest (b * 2)%Z); reflexivity.
Qed.

(** The loop over the attempts [a, a+1, ..., 4]: it stops at the first
    attempt [a + k] that is not answered by a rate-limit signal, or at
    the last attempt; before it come [k] rate-limited attempts, each
    followed by its delay; the outcome is the outcome of attempt
    [a + k]. *)
Lemma attempts_loop_stops (n a : nat) (b : Z) :
  a + S n = max_retries ->
  exists k,
    k <= n /\
    (forall j, j < k -> rate_limited backend req (a + j) = true) /\
    (a + k < max_retries - 1 -> rate_limited backend req (a + k) = false) /\
    attempts_loop backend req (seq a (S n)) b =
      (backend (a + k) req,
       retry_events req b k ++ last_events backend req (a + k)).
Proof.
  revert a b. induction n as [|n IH]; intros a b Ha.
  - exists 0. assert (a = 4) by (unfold max_retries in Ha; lia). subst a.
    rewrite Nat.add_0_r.
    split; [lia|]. split; [intros j Hj; lia|].
    split; [unfold max_retries; simpl; lia|].
    change (seq 4 1) with [4]. rewrite attempts_loop_cons.
    unfold last_events, rate_limited.
    destruct (backend 4 req) as [exc|response] eqn:Hout; [|reflexivity].
    destruct (is_RateLimitError exc); reflexivity.
  - change (seq a (S (S n))) with (a :: seq (S a) (S n)).
    rewrite attempts_loop_cons.
    destruct (backend a req) as [exc|response] eqn:Hout.
    + destruct (is_RateLimitError exc) eqn:Hrl.
      * assert (Hlt : Nat.ltb a (max_retries - 1) = true).
        { apply Nat.ltb_lt. unfold max_retries in *. lia. }
        rewrite Hlt.
        destruct (IH (S a) (b * 2)%Z) as (k & Hk & Hpre & Hlast & Hloop); [lia|].
        exists (S k). split; [lia|]. split; [|split].
        -- intros j Hj. destruct j as [|j].
           ++ unfold rate_limited. rewrite Nat.add_0_r, Hout. exact Hrl.
           ++ replace (a + S j) with (S a + j) by lia. apply Hpre. lia.
        -- intros Hlt'. replace (a + S k) with (S a + k) by lia. apply Hlast. lia.
        -- rewrite Hloop, retry_events_S.
           replace (a + S k) with (S a + k) by lia. reflexivity.
      * exists 0. rewrite Nat.add_0_r.
        split; [lia|]. split; [intros j Hj; lia|]. split.
        -- intros _. unfold rate_limited. rewrite Hout. exact Hrl.
        -- unfold last_events, rate_limited. rewrite Hout, Hrl. reflexivity.
    + exists 0. rewrite Nat.add_0_r.
      split; [lia|]. split; [intros j Hj; lia|]. split.
      * intros _. unfold rate_limited. rewrite Hout. reflexivity.
      * unfold last_events, rate_limited. rewrite Hout. reflexivity.
Qed.

End RetryLoop.

Lemma backoffs_from_one (k : nat) :
  k <= 4 -> openai_api.backoffs 1 k = take k [1; 2; 4; 8]%Z.
Proof.
  intros Hk.
  destruct k as [|[|[|[|[|k]]]]]; try reflexivity. lia.
Qed.

Lemma get_openai_response_stops (backend : openai_api.Backend) (prompt : string)
    (system_prompt : option string) (max_tokens : Z) (model : string) :
  let req := openai_api.request_for prompt
               (openai_api.system_prompt_or_default system_prompt) max_tokens model in
  exists k,
    k <= 4 /\
    (forall j, j < k -> openai_api.rate_limited backend req j = true) /\
    (k < 4 -> openai_api.rate_limited backend req k = false) /\
    openai_api.get_openai_response backend prompt system_prompt max_tokens model =
      (backend k req,
       openai_api.retry_events req 1 k ++ openai_api.last_events backend req k).
Proof.
  intros req. unfold openai_api.get_openai_response.
  destruct (attempts_loop_stops backend req 4 0 1%Z) as (k & Hk & Hpre & Hlast & Hloop);
    [reflexivity|].
  exists k. split; [exact Hk|]. split; [exact Hpre|]. split; [exact Hlast|].
  exact Hloop.
Qed.

(** C4 (amended). Under any behaviour of the backend one call of
    [get_openai_response] attempts the backend call at most 5 times; the
    delays slept before the retries are the first ones of 1, 2, 4, 8 (one
    before each retry, so at most four: no delay of 16 is ever slept);
    when all five attempts are answered by a rate-limit signal the call
    raises the rate-limit error of the fifth attempt, after the delays
    1, 2, 4, 8; and a failure that is not a rate-limit signal is raised
    at once: the failing backend call is the last event of the run. *)
Theorem retry_policy (backend : openai_api.Backend) (prompt : string)
    (system_prompt : option string) (max_tokens : Z) (model : string) :
  let req := openai_api.request_for prompt
               (openai_api.system_prompt_or_default system_prompt) max_tokens model in
  let run := openai_api.get_openai_response backend prompt system_prompt max_tokens model in
  length (openai_api.calls (snd run)) <= 5 /\
  openai_api.sleeps (snd run)
    = take (length (openai_api.calls (snd run)) - 1) [1; 2; 4; 8]%Z /\
  ((forall attempt, attempt < 5 -> openai_api.rate_limited backend req attempt = true) ->
     length (openai_api.calls (snd run)) = 5 /\
     openai_api.sleeps (snd run) = [1; 2; 4; 8]%Z /\
     fst run = backend 4 req /\
     exists msg, fst run = inl (RateLimitError msg)) /\
  (forall k exc,
     k < 5 ->
     (forall j, j < k -> openai_api.rate_limited backend req j = true) ->
     backend k req = inl exc -> is_RateLimitError exc = false ->
     fst run = inl exc /\
     length (openai_api.calls (snd run)) = S k /\
     exists earlier, snd run = earlier ++ [openai_api.Create req]).
Proof.
  intros req run.
  destruct (get_openai_response_stops backend prompt system_prompt max_tokens model)
    as (k & Hk & Hpre & Hlast & Hrun).
  fold req in Hpre, Hlast, Hrun. fold run in Hrun.
  assert (Hcalls : openai_api.calls (snd run) = replicate (S k) req).
  { rewrite Hrun. apply calls_retry_events. }
  assert (Hsleeps : openai_api.sleeps (snd run) = take k [1; 2; 4; 8]%Z).
  { rewrite Hrun. cbn [snd]. rewrite sleeps_retry_events. apply backoffs_from_one, Hk. }
  split; [|split; [|split]].
  - rewrite Hcalls, length_replicate. lia.
  - rewrite Hcalls, length_replicate, Hsleeps. f_equal. lia.
  - intros Hall.
    assert (k = 4).
    { destruct (decide (k < 4)) as [Hlt|Hge]; [|lia].
      rewrite Hall in Hlast by lia. specialize (Hlast Hlt). discriminate. }
    subst k. rewrite Hcalls, Hsleeps, Hrun.
    split; [reflexivity|]. split; [reflexivity|]. split; [reflexivity|].
    specialize (Hall 4 ltac:(lia)). unfold openai_api.rate_limited in Hall.
    cbn [fst]. destruct (backend 4 req) as [exc|response]; [|discriminate].
    destruct exc; try discriminate. eexists. reflexivity.
  - intros k0 exc Hk0 Hbefore Hout Hnot.
    assert (Hstop : openai_api.rate_limited backend req k0 = false).
    { unfold openai_api.rate_limited. rewrite Hout. exact Hnot. }
    assert (k = k0).
    { destruct (lt_eq_lt_dec k k0) as [[Hlt|Heq]|Hgt]; [|exact Heq|].
      - rewrite Hbefore in Hlast by exact Hlt. specialize (Hlast ltac:(lia)). discriminate.
      - rewrite Hpre in Hstop by exact Hgt. discriminate. }
    subst k0. rewrite Hcalls, length_replicate, Hrun. cbn [fst snd].
    split; [exact Hout|]. split; [reflexivity|].
    exists (openai_api.retry_events req 1 k).
    unfold openai_api.last_events. rewrite Hstop. reflexivity.
Qed.

Lemma retry_policy_witness :
  let run := openai_api.get_openai_response always_rate_limited "prompt" None 4096 "gpt-4o" in
  (length (openai_api.calls (snd run)) = 5 /\
   openai_api.sleeps (snd run) = [1; 2; 4; 8]%Z) /\
  let run' := openai_api.get_openai_response broken_at_third_attempt "prompt" None 4096 "gpt-4o" in
  (fst run' = inl (APIError "500 Internal Server Error") /\
   length (openai_api.calls (snd run')) = 3).
Proof.
  split.
  - destruct (retry_policy always_rate_limited "prompt" None 4096 "gpt-4o")
      as (_ & _ & Hall & _).
    destruct Hall as (H5 & Hs & _); [intros attempt _; reflexivity|].
    split; [exact H5 | exact Hs].
  - destruct (retry_policy broken_at_third_attempt "prompt" None 4096 "gpt-4o")
      as (_ & _ & _ & Hother).
    destruct (Hother 2 (APIError "500 Internal Server Error")) as (Hr & Hc & _).
    + lia.
    + intros j Hj. destruct j as [|[|j]]; [reflexivity | reflexivity | lia].
    + reflexivity.
    + reflexivity.
    + split; [exact Hr | exact Hc].
Defined.

(** The claim as stated lists a fifth interval: under persistent rate
    limiting the call stops after the fifth attempt, having slept
    1, 2, 4, 8 only. *)
Lemma backoff_sequence_counterexample :
  let run := openai_api.get_openai_response always_rate_limited "prompt" None 4096 "gpt-4o" in
  fst run = inl (RateLimitError "429 Too Many Requests") /\
  length (openai_api.calls (snd run)) = 5 /\
  openai_api.sleeps (snd run) = [1; 2; 4; 8]%Z /\
  openai_api.sleeps (snd run) <> [1; 2; 4; 8; 16]%Z.
Proof.
  vm_compute. repeat split; discriminate.
Qed.


(** ** Cost accounting (app/core/llm_api_wrapper.py) *)

(** C5 (amended). When a call of [get_response] returns a value, the
    model it resolved to is in the price table, the backend returned a
    response, and the accumulator is the binary64 sum of what it was and
    of the cost computed in binary64 as (prompt price * p + completion
    price * c) / 1,000,000, with p and c the token counts of the
    response converted to floats and the prices those of the model: the
    amounts are rounded, not exact. When the model is not in the table
    the call raises and the accumulator is left as it was; what it
    raises is the [KeyError] of the model only when the backend call
    returned a response, and the exception of the backend call
    otherwise. *)
Theorem cost_accounting (self : llm_api_wrapper.LLMAPIWrapper)
    (backend : openai_api.Backend) (prompt : string) (system_prompt : option string)
    (max_tokens : Z) (model : option string) :
  let m := llm_api_wrapper.model_or_default model in
  let backend_result :=
    fst (openai_api.get_openai_response backend prompt system_prompt max_tokens m) in
  let out := llm_api_wrapper.get_response self backend prompt system_prompt max_tokens model in
  let self' := snd (fst out) in
  (forall value, fst (fst out) = inr value ->
     exists prices response p c,
       openai_api.MODEL_COSTS !! m = Some prices /\
       backend_result = inr response /\
       llm_api_wrapper.float_of_int (openai_api.prompt_tokens response) = inr p /\
       llm_api_wrapper.float_of_int (openai_api.completion_tokens response) = inr c /\
       llm_api_wrapper.accumulated_cost self' =
         (llm_api_wrapper.accumulated_cost self
          + (openai_api.prompt_price prices * p
             + openai_api.completion_price prices * c) / 1000000)%float) /\
  (openai_api.MODEL_COSTS !! m = None ->
     self' = self /\
     match backend_result with
     | inr response => fst (fst out) = inl (KeyError m)
     | inl exc => fst (fst out) = inl exc
     end).
Proof.
  intros m backend_result out self'.
  unfold self', out, llm_api_wrapper.get_response. fold m.
  unfold backend_result.
  destruct (openai_api.get_openai_response backend prompt system_prompt max_tokens m)
    as [[exc|response] events]; cbn [fst snd].
  - split.
    + intros value Hv. discriminate.
    + intros _. split; reflexivity.
  - destruct (openai_api.MODEL_COSTS !! m) as [prices|] eqn:Hprices.
    + split; [|intros Hnone; discriminate].
      intros value Hv. unfold llm_api_wrapper.total_cost in Hv |- *.
      destruct (llm_api_wrapper.float_of_int (openai_api.prompt_tokens response))
        as [e|p] eqn:Hp; [discriminate|].
      destruct (llm_api_wrapper.float_of_int (openai_api.completion_tokens response))
        as [e|c] eqn:Hc; [discriminate|].
      exists prices, response, p, c. cbn [bind ret] in Hv |- *.
      split; [reflexivity|]. split; [reflexivity|].
      split; [exact Hp|]. split; [exact Hc|].
      destruct (openai_api.choices response) as [|message rest]; [discriminate|].
      destruct (openai_api.msg_annotations message); reflexivity.
    + split; [|intros _].
      * intros value Hv. discriminate.
      * split; reflexivity.
Qed.

Lemma cost_accounting_witness :
  let out := llm_api_wrapper.get_response llm_api_wrapper.init answering
               "prompt" None 4096 (Some "gpt-4o-mini") in
  (exists prices response p c,
     openai_api.MODEL_COSTS !! "gpt-4o-mini" = Some prices /\
     fst (openai_api.get_openai_response answering "prompt" None 4096 "gpt-4o-mini")
       = inr response /\
     llm_api_wrapper.float_of_int (openai_api.prompt_tokens response) = inr p /\
     llm_api_wrapper.float_of_int (openai_api.completion_tokens response) = inr c /\
     llm_api_wrapper.accumulated_cost (snd (fst out)) =
       (0 + (openai_api.prompt_price prices * p
             + openai_api.completion_price prices * c) / 1000000)%float) /\
  let out' := llm_api_wrapper.get_response llm_api_wrapper.init answering
                "prompt" None 4096 (Some "gpt-5") in
  snd (fst out') = llm_api_wrapper.init /\ fst (fst out') = inl (KeyError "gpt-5").
Proof.
  split.
  - destruct (cost_accounting llm_api_wrapper.init answering "prompt" None 4096
                (Some "gpt-4o-mini")) as [Hok _].
    apply (Hok (llm_api_wrapper.Content "Acme builds robots.")). reflexivity.
  - destruct (cost_accounting llm_api_wrapper.init answering "prompt" None 4096
                (Some "gpt-5")) as [_ Hunknown].
    apply Hunknown. reflexivity.
Defined.

(** The claim as it was worded fails twice. For a model that is not in
    the table and a backend that keeps signalling the rate limit, the
    call raises the rate-limit error of the fifth attempt, not an
    unknown-model error. And the amount added is rounded: the sample call
    costs 0.00045 for the model gpt-4o-mini, but on a wrapper that has
    accumulated 0.1 the accumulator grows by a different amount. *)
Lemma unknown_model_counterexample :
  let out := llm_api_wrapper.get_response llm_api_wrapper.init always_rate_limited
               "prompt" None 4096 (Some "gpt-5") in
  let out' := llm_api_wrapper.get_response (llm_api_wrapper.mkLLMAPIWrapper 0.1)
                answering "prompt" None 4096 (Some "gpt-4o-mini") in
  openai_api.MODEL_COSTS !! "gpt-5" = None /\
  fst (fst out) = inl (RateLimitError "429 Too Many Requests") /\
  fst (fst out) <> inl (KeyError "gpt-5") /\
  length (openai_api.calls (snd out)) = 5 /\
  llm_api_wrapper.total_cost (openai_api.mkModelPrices 0.15 0.6) sample_completion
    = inr 0.00045%float /\
  fst (fst out') = inr (llm_api_wrapper.Content "Acme builds robots.") /\
  (llm_api_wrapper.accumulated_cost (snd (fst out')) - 0.1)%float <> 0.00045%float.
Proof.
  vm_compute. repeat split; try discriminate.
Qed.

Example cost_of_sample_call :
  llm_api_wrapper.accumulated_cost
    (snd (fst (llm_api_wrapper.get_response llm_api_wrapper.init answering
                 "prompt" None 4096 (Some "gpt-4o-mini"))))
  = 0.00045%float.
Proof. vm_compute. reflexivity. Qed.

(** ** The fan-out collector (asyncio.gather, app/core/report_generator.py) *)

Section GatherReturnExceptions.
Context {V : Type}.
Variable tasks : list (result V).

#[local] Abbreviation slots_ok := (asyncio.slots_ok tasks).

Lemma finish_ok (slots : list (option (result V))) (i : nat) :
  slots_ok slots -> slots_ok (asyncio.finish tasks slots i).
Proof.
  intros [Hlen Hslots]. unfold asyncio.finish.
  destruct (tasks !! i) as [outcome|] eqn:Htask; [|split; assumption].
  destruct (slots !! i) as [[filled|]|] eqn:Hslot; try (split; assumption).
  split.
  - rewrite length_insert. exact Hlen.
  - intros j o Hj. destruct (decide (i = j)) as [->|Hne].
    + rewrite list_lookup_insert_eq in Hj by (eapply lookup_lt_Some; exact Hslot).
      congruence.
    + rewrite list_lookup_insert_ne in Hj by exact Hne. apply Hslots, Hj.
Qed.

Lemma finish_keeps (slots : list (option (result V))) (i j : nat) (o : result V) :
  slots !! j = Some (Some o) -> asyncio.finish tasks slots i !! j = Some (Some o).
Proof.
  intros Hj. unfold asyncio.finish.
  destruct (tasks !! i) as [outcome|]; [|exact Hj].
  destruct (slots !! i) as [[filled|]|] eqn:Hslot; try exact Hj.
  rewrite list_lookup_insert_ne; [exact Hj|]. intros ->. congruence.
Qed.

Lemma finish_fills (slots : list (option (result V))) (i : nat) (o : result V) :
  length slots = length tasks -> tasks !! i = Some o ->
  exists o', asyncio.finish tasks slots i !! i = Some (Some o').
Proof.
  intros Hlen Htask. unfold asyncio.finish. rewrite Htask.
  assert (Hlt : i < length slots).
  { rewrite Hlen. eapply lookup_lt_Some. exact Htask. }
  destruct (slots !! i) as [[filled|]|] eqn:Hslot.
  - exists filled. exact Hslot.
  - exists o. apply list_lookup_insert_eq. exact Hlt.
  - apply lookup_ge_None in Hslot. lia.
Qed.

Lemma foldl_finish_ok (finishing : list nat) (slots : list (option (result V))) :
  slots_ok slots -> slots_ok (foldl (asyncio.finish tasks) slots finishing).
Proof.
  revert slots. induction finishing as [|i rest IH]; intros slots Hok; simpl.
  - exact Hok.
  - apply IH, finish_ok, Hok.
Qed.

Lemma foldl_finish_keeps (finishing : list nat) (slots : list (option (result V)))
    (j : nat) (o : result V) :
  slots !! j = Some (Some o) ->
  foldl (asyncio.finish tasks) slots finishing !! j = Some (Some o).
Proof.
  revert slots. induction finishing as [|i rest IH]; intros slots Hj; simpl.
  - exact Hj.
  - apply IH, finish_keeps, Hj.
Qed.

Lemma foldl_finish_fills (finishing : list nat) (slots : list (option (result V)))
    (i : nat) (o : result V) :
  slots_ok slots -> i ∈ finishing -> tasks !! i = Some o ->
  foldl (asyncio.finish tasks) slots finishing !! i = Some (Some o).
Proof.
  revert slots. induction finishing as [|i' rest IH]; intros slots Hok Hin Htask.
  - inversion Hin.
  - simpl. apply elem_of_cons in Hin as [->|Hin].
    + destruct (finish_fills slots i' o (proj1 Hok) Htask) as [o' Ho'].
      pose proof (proj2 (finish_ok slots i' Hok) i' o' Ho') as Heq.
      assert (o' = o) by congruence. subst o'.
      apply foldl_finish_keeps, Ho'.
    + apply IH; [apply finish_ok, Hok | exact Hin | exact Htask].
Qed.

Lemma empty_slots_ok : slots_ok (replicate (length tasks) None).
Proof.
  split.
  - apply length_replicate.
  - intros j o Hj. apply lookup_replicate in Hj as [Hj _]. discriminate.
Qed.

(** Whatever the completion order, once all awaitables have finished
    slot [i] holds the outcome of awaitable [i]. *)
Lemma run_all_slots (order : list nat) :
  asyncio.run_all order tasks = map Some tasks.
Proof.
  unfold asyncio.run_all, asyncio.completion_order.
  apply list_eq. intros i. rewrite list_lookup_fmap.
  destruct (tasks !! i) as [o|] eqn:Htask; simpl.
  - apply foldl_finish_fills; [apply empty_slots_ok | | exact Htask].
    apply elem_of_app. right. apply elem_of_seq.
    apply lookup_lt_Some in Htask. lia.
  - apply lookup_ge_None. apply lookup_ge_None in Htask.
    rewrite (proj1 (foldl_finish_ok _ _ empty_slots_ok)). exact Htask.
Qed.

Lemma gather_return_exceptions_outcomes (order : list nat) :
  asyncio.gather_return_exceptions order tasks = tasks.
Proof.
  unfold asyncio.gather_return_exceptions. rewrite run_all_slots.
  induction tasks as [|o rest IH]; simpl; [reflexivity|].
  f_equal. exact IH.
Qed.

End GatherReturnExceptions.

Lemma _safe_extract_lookup (results : list (result core_report_generator.Json)) (i : nat) :
  core_report_generator._safe_extract results i =
    match results !! i with
    | Some (inl exc) =>
        core_report_generator.JObj [("error", core_report_generator.JStr (str_exc exc))]
    | Some (inr data) => data
    | None =>
        core_report_generator.JObj
          [("error", core_report_generator.JStr "Result index out of range")]
    end.
Proof.
  unfold core_report_generator._safe_extract.
  destruct (Nat.leb (length results) i) eqn:Hle; [|reflexivity].
  apply Nat.leb_le in Hle.
  destruct (results !! i) as [o|] eqn:Hl; [|reflexivity].
  apply lookup_lt_Some in Hl. lia.
Qed.

(** C2. A gather with [return_exceptions=True] over N awaitables of
    which exactly K raise returns, for every completion order, a list of
    length N whose element [i] is the outcome of awaitable [i] (its value
    or its captured exception), with exactly K captured exceptions; the
    element at [i] depends on awaitable [i] alone, so no failure aborts
    or alters a sibling's outcome; and [_safe_extract] turns a captured
    exception into the error dict of its message and passes a value on,
    so the raw data combined from the five fetches does not depend on the
    completion order either. *)
Theorem fan_out_collector (order : list nat)
    (tasks : list (result core_report_generator.Json)) (N K : nat) :
  length tasks = N ->
  core_report_generator.count_exceptions tasks = K ->
  let results := asyncio.gather_return_exceptions order tasks in
  length results = N /\
  (forall i, results !! i = tasks !! i) /\
  core_report_generator.count_exceptions results = K /\
  (forall order' tasks' i,
     tasks' !! i = tasks !! i ->
     asyncio.gather_return_exceptions order' tasks' !! i = results !! i) /\
  (forall i exc, tasks !! i = Some (inl exc) ->
     core_report_generator._safe_extract results i
       = core_report_generator.JObj
           [("error", core_report_generator.JStr (str_exc exc))]) /\
  (forall i data, tasks !! i = Some (inr data) ->
     core_report_generator._safe_extract results i = data) /\
  (forall order' company_name url,
     core_report_generator.collect_raw_data order' company_name url tasks
       = core_report_generator.collect_raw_data order company_name url tasks).
Proof.
  intros HN HK results.
  assert (Hres : results = tasks) by apply gather_return_exceptions_outcomes.
  rewrite Hres.
  split; [exact HN|]. split; [reflexivity|]. split; [exact HK|].
  split; [|split; [|split]].
  - intros order' tasks' i Hi. rewrite gather_return_exceptions_outcomes. exact Hi.
  - intros i exc Hi. rewrite _safe_extract_lookup, Hi. reflexivity.
  - intros i data Hi. rewrite _safe_extract_lookup, Hi. reflexivity.
  - intros order' company_name url. unfold core_report_generator.collect_raw_data.
    rewrite !gather_return_exceptions_outcomes. reflexivity.
Qed.

Lemma fan_out_collector_witness :
  let results := asyncio.gather_return_exceptions sample_order sample_fetches in
  length results = 5 /\
  core_report_generator.count_exceptions results = 2 /\
  core_report_generator._safe_extract results 1
    = core_report_generator.JObj
        [("error", core_report_generator.JStr "503 Service Unavailable")].
Proof.
  destruct (fan_out_collector sample_order sample_fetches 5 2)
    as (Hlen & _ & Hcount & _ & Herr & _ & _).
  - reflexivity.
  - reflexivity.
  - split; [exact Hlen|]. split; [exact Hcount|].
    apply (Herr 1 (APIError "503 Service Unavailable")). reflexivity.
Defined.

(** ** asyncio.gather without [return_exceptions] *)

Section GatherPlain.
Context {V : Type}.

Lemma first_raised_values (finishing : list nat) (values : list V) :
  asyncio.first_raised finishing (map inr values) = None.
Proof.
  induction finishing as [|i rest IH]; [reflexivity|].
  cbn [asyncio.first_raised]. rewrite list_lookup_fmap.
  destruct (values !! i); exact IH.
Qed.

(** When no awaitable raises, the values come back in the order of the
    arguments, whatever the completion order. *)
Lemma gather_values (order : list nat) (values : list V) :
  asyncio.gather order (map inr values) = inr values.
Proof.
  unfold asyncio.gather. rewrite first_raised_values. unfold ret. f_equal.
  induction values as [|v rest IH]; [reflexivity|].
  cbn. f_equal. exact IH.
Qed.

Lemma first_raised_elem (finishing : list nat) (tasks : list (result V)) (e : Exception) :
  asyncio.first_raised finishing tasks = Some e -> inl e ∈ tasks.
Proof.
  induction finishing as [|i rest IH]; [discriminate|].
  cbn [asyncio.first_raised].
  destruct (tasks !! i) as [[exc|v]|] eqn:Hi; try exact IH.
  intros [= <-]. apply list_elem_of_lookup. exists i. exact Hi.
Qed.

Lemma first_raised_covers (finishing : list nat) (tasks : list (result V))
    (i : nat) (e0 : Exception) :
  i ∈ finishing -> tasks !! i = Some (inl e0) ->
  exists e, asyncio.first_raised finishing tasks = Some e.
Proof.
  intros Hin Hi. induction finishing as [|j rest IH]; [inversion Hin|].
  cbn [asyncio.first_raised].
  apply elem_of_cons in Hin as [<-|Hin].
  - rewrite Hi. eauto.
  - destruct (tasks !! j) as [[exc|v]|]; eauto.
Qed.

(** When an awaitable raises, the gather raises: the exception of one of
    its awaitables. *)
Lemma gather_raises (order : list nat) (tasks : list (result V)) (e0 : Exception) :
  inl e0 ∈ tasks ->
  exists e, asyncio.gather order tasks = inl e /\ inl e ∈ tasks.
Proof.
  intros Hin. apply list_elem_of_lookup in Hin as [i Hi].
  destruct (first_raised_covers (asyncio.completion_order order (length tasks)) tasks i e0)
    as [e He]; [|exact Hi|].
  - apply elem_of_app. right. apply elem_of_seq.
    apply lookup_lt_Some in Hi. lia.
  - exists e. unfold asyncio.gather. rewrite He. split; [reflexivity|].
    eapply first_raised_elem, He.
Qed.

End GatherPlain.

(** ** The web search behind [get_company_info] *)

Section CompanyInfo.
Import openai_websearch web_searcher.
Variable answer : string -> string -> result WebSearchResponse.
Variable order : list nat.

Lemma fetch_info_with_domain (website_url key topic : string) :
  fetch_info answer (Some website_url) key topic
    = inr (key, Response (resolved answer website_url topic)).
Proof.
  unfold fetch_info, search_on_website, resolved.
  destruct (answer topic website_url); reflexivity.
Qed.

(** Whatever the searches do, [get_company_info] returns a dict with an
    entry for each topic. *)
Lemma get_company_info_with_domain (website_url : string) :
  get_company_info answer order (Some website_url) = inr (collected answer website_url).
Proof.
  unfold get_company_info.
  assert (Htasks :
    map (fun kt => fetch_info answer (Some website_url) (fst kt) (snd kt)) info_topics
    = map inr (map (fun kt => (fst kt, Response (resolved answer website_url (snd kt))))
                 info_topics)).
  { rewrite map_map. apply map_ext. intros [key topic]. apply fetch_info_with_domain. }
  rewrite Htasks, gather_values. reflexivity.
Qed.

(** Without a domain every [fetch_info] falls back to the string "N/A",
    and building the dict raises. *)
Lemma get_company_info_without_domain :
  get_company_info answer order None
    = inl (AttributeError "'str' object has no attribute 'dict'").
Proof.
  unfold get_company_info.
  change (map (fun kt => fetch_info answer None (fst kt) (snd kt)) info_topics)
    with (map (@inr Exception _)
            (map (fun kt : string * string => (fst kt, Str "N/A")) info_topics)).
  rewrite gather_values. reflexivity.
Qed.

Lemma collected_lookup (website_url key topic : string) :
  (key, topic) ∈ info_topics ->
  collected answer website_url !! key = Some (resolved answer website_url topic).
Proof.
  intros Hin. unfold info_topics in Hin.
  repeat (apply elem_of_cons in Hin as [[= -> ->]|Hin];
          [unfold collected; cbn [foldl info_topics fst snd];
           repeat (rewrite lookup_insert_ne by discriminate);
           apply lookup_insert_eq|]).
  inversion Hin.
Qed.

End CompanyInfo.

(** ** The orchestrator (app/processors/report_generator.py) *)

Section Orchestrator.
Import processors_report_generator.
Variable w : World.
Variable job_id : string.
Variable url : string.

#[local] Abbreviation step := (processors_report_generator.step w job_id url).
#[local] Abbreviation steps := (processors_report_generator.steps w job_id url).

Lemma steps_S (n : nat) (c : Config) : steps (S n) c = steps n (step c).
Proof. unfold processors_report_generator.steps. apply Nat.iter_succ_r. Qed.

Lemma steps_add (n m : nat) (c : Config) : steps (n + m) c = steps m (steps n c).
Proof.
  revert c. induction n as [|n IH]; intros c.
  - reflexivity.
  - change (S n + m) with (S (n + m)). rewrite !steps_S. apply IH.
Qed.

Lemma steps_returned (n : nat) (v : option ReportModel) (jobs_db : gmap string ScreenerJob) :
  steps n (returned v, jobs_db) = (returned v, jobs_db).
Proof.
  induction n as [|n IH]; [reflexivity|].
  rewrite steps_S. exact IH.
Qed.

Lemma alter_present (f : ScreenerJob -> ScreenerJob) (jobs_db : gmap string ScreenerJob)
    (job : ScreenerJob) :
  jobs_db !! job_id = Some job -> alter f job_id jobs_db = <[job_id := f job]> jobs_db.
Proof.
  intros Hjob. apply map_eq. intros k.
  destruct (decide (job_id = k)) as [<-|Hne].
  - rewrite lookup_alter_eq, lookup_insert_eq, Hjob. reflexivity.
  - rewrite lookup_alter_ne, lookup_insert_ne by exact Hne. reflexivity.
Qed.

Lemma rebind_same (jobs_db : gmap string ScreenerJob) : rebind job_id jobs_db = jobs_db.
Proof.
  unfold rebind. destruct (jobs_db !! job_id) as [job|] eqn:Hjob; [|reflexivity].
  apply insert_id, Hjob.
Qed.

(** The handler, entered with the caught exception [e]. *)
Lemma handler_present (n : nat) (e : Exception) (jobs_db : gmap string ScreenerJob)
    (job : ScreenerJob) :
  jobs_db !! job_id = Some job ->
  steps (4 + n) (except_check e, jobs_db) =
    (returned None,
     <[job_id := set_error (str_exc e) (set_status FAILED job)]> jobs_db).
Proof.
  intros Hjob. rewrite steps_add.
  assert (Hrun : steps 4 (except_check e, jobs_db) =
            (returned None,
             <[job_id := set_error (str_exc e) (set_status FAILED job)]> jobs_db)).
  { rewrite !steps_S. cbn [processors_report_generator.step processors_report_generator.steps Nat.iter].
    rewrite Hjob. cbn [processors_report_generator.step]. rewrite Hjob.
    cbn [processors_report_generator.step].
    rewrite rebind_same.
    rewrite (alter_present _ _ _ Hjob).
    rewrite (alter_present _ _ (set_status FAILED job)) by apply lookup_insert_eq.
    rewrite insert_insert_eq. reflexivity. }
  rewrite Hrun. apply steps_returned.
Qed.

Lemma handler_absent (n : nat) (e : Exception) (jobs_db : gmap string ScreenerJob) :
  jobs_db !! job_id = None ->
  steps (1 + n) (except_check e, jobs_db) = (returned None, jobs_db).
Proof.
  intros Hjob. rewrite steps_add.
  assert (Hrun : steps 1 (except_check e, jobs_db) = (returned None, jobs_db)).
  { rewrite steps_S. cbn [processors_report_generator.step processors_report_generator.steps Nat.iter].
    rewrite Hjob. reflexivity. }
  rewrite Hrun. apply steps_returned.
Qed.

(** Case analysis on what a statement of [step] looks at: the store
    entry and the outcomes of the calls. *)
Ltac step_cases :=
  repeat match goal with
         | |- context [match ?x with _ => _ end] =>
             lazymatch type of x with
             | Location => fail
             | _ => let H := fresh "Hcase" in destruct x eqn:H
             end
         end.

Lemma step_remaining (c : Config) :
  remaining (fst (step c)) <= pred (remaining (fst c)).
Proof.
  destruct c as [loc jobs_db].
  destruct loc; cbn [processors_report_generator.step fst]; step_cases;
    cbn [remaining fst pred]; lia.
Qed.

Lemma steps_remaining (n : nat) (c : Config) :
  remaining (fst (steps n c)) <= remaining (fst c) - n.
Proof.
  revert c. induction n as [|n IH]; intros c.
  - cbn. lia.
  - rewrite steps_S. pose proof (IH (step c)). pose proof (step_remaining c). lia.
Qed.

Lemma step_guarded (c : Config) : guarded job_id c -> guarded job_id (step c).
Proof.
  destruct c as [loc jobs_db]. unfold guarded.
  destruct loc; cbn [processors_report_generator.step fst snd]; intros Hg;
    step_cases; cbn [fst snd]; try exact I; try exact Hg; eauto.
  destruct Hg as [job Hjob]. congruence.
Qed.

Lemma steps_guarded (n : nat) (c : Config) :
  guarded job_id c -> guarded job_id (steps n c).
Proof.
  revert c. induction n as [|n IH]; intros c Hg; [exact Hg|].
  rewrite steps_S. apply IH, step_guarded, Hg.
Qed.

(** A job that is in the store stays in the store. *)
Lemma step_present (c : Config) :
  is_Some (snd c !! job_id) -> is_Some (snd (step c) !! job_id).
Proof.
  destruct c as [loc jobs_db]. cbn [snd]. intros [job Hjob].
  destruct loc; cbn [processors_report_generator.step]; step_cases; cbn [snd];
    rewrite ?rebind_same, ?lookup_alter_eq;
    repeat match goal with
           | H : jobs_db !! job_id = _ |- _ => rewrite H
           end; cbn; try congruence; eauto.
Qed.

Lemma steps_present (n : nat) (c : Config) :
  is_Some (snd c !! job_id) -> is_Some (snd (steps n c) !! job_id).
Proof.
  revert c. induction n as [|n IH]; intros c Hp; [exact Hp|].
  rewrite steps_S. apply IH, step_present, Hp.
Qed.

(** The run of a call whose job id is not in the store. *)
Lemma steps_absent (n : nat) (jobs_db : gmap string ScreenerJob) :
  jobs_db !! job_id = None ->
  steps n (at_lookup, jobs_db) =
    (match n with
     | 0 => at_lookup
     | 1 => except_check (KeyError job_id)
     | _ => returned None
     end, jobs_db).
Proof.
  intros Hjob. destruct n as [|[|n]]; [reflexivity| |].
  - rewrite steps_S. cbn. rewrite Hjob. reflexivity.
  - rewrite steps_S. cbn [processors_report_generator.step]. rewrite Hjob.
    apply (handler_absent n). exact Hjob.
Qed.

(** One statement of a run on a job that was Pending when the run
    started: the job stays in the store, looks as its new location says,
    and its status has made at most one move of the lifecycle. *)
Lemma step_job_at (loc : Location) (jobs_db : gmap string ScreenerJob)
    (job : ScreenerJob) :
  jobs_db !! job_id = Some job -> job_at loc job ->
  exists job',
    snd (step (loc, jobs_db)) !! job_id = Some job' /\
    job_at (fst (step (loc, jobs_db))) job' /\
    lifecycle_step (status job) (status job').
Proof.
  intros Hjob Hat. unfold lifecycle_step.
  destruct loc as [| | | | | | | | | | | | | | |[r|]|];
    cbn [processors_report_generator.step job_at] in *;
    try contradiction; destruct Hat as (Hs & Hr & He);
    rewrite ?Hjob; step_cases; cbn [fst snd];
    rewrite ?rebind_same, ?lookup_alter_eq, ?Hjob; cbn [fmap option_fmap option_map];
    eexists; (split; [reflexivity|]); cbn [job_at status report error set_status
      set_domain set_report set_error]; rewrite ?Hs, ?Hr, ?He; eauto 10.
Qed.

Lemma steps_job_at (n : nat) (jobs_db : gmap string ScreenerJob) (job : ScreenerJob) :
  jobs_db !! job_id = Some job -> job_at at_lookup job ->
  exists job',
    snd (steps n (at_lookup, jobs_db)) !! job_id = Some job' /\
    job_at (fst (steps n (at_lookup, jobs_db))) job'.
Proof.
  intros Hjob Hat. induction n as [|n IH].
  - exists job. split; assumption.
  - destruct IH as (job' & Hjob' & Hat').
    change (steps (S n) (at_lookup, jobs_db)) with (step (steps n (at_lookup, jobs_db))).
    destruct (steps n (at_lookup, jobs_db)) as [loc jobs_db'].
    destruct (step_job_at loc jobs_db' job' Hjob' Hat') as (job'' & H1 & H2 & _).
    exists job''. split; assumption.
Qed.

(** The first six statements, for a job in the store and a URL that
    parses: whatever the web searches do, the run is then suspended in
    the section stage, with the raw data built from the responses. *)
Lemma run_to_sections (jobs_db : gmap string ScreenerJob) (job : ScreenerJob)
    (d name : string) :
  jobs_db !! job_id = Some job ->
  url_parser.extract_domain_from_url url = inr d ->
  url_parser.extract_company_name_from_url url = inr name ->
  steps 6 (at_lookup, jobs_db) =
    (at_sections
       (mkRawData
          (choose_company_name name
             (web_searcher.resolved (web_answer w) d "What is the name of the company?"))
          url (web_searcher.collected (web_answer w) d)),
     <[job_id := set_domain d (set_status PROCESSING job)]> jobs_db).
Proof.
  intros Hjob Hdomain Hname.
  assert (Hprocessing : alter (set_domain d) job_id (alter (set_status PROCESSING) job_id jobs_db)
                        = <[job_id := set_domain d (set_status PROCESSING job)]> jobs_db).
  { rewrite (alter_present _ _ _ Hjob).
    rewrite (alter_present _ _ (set_status PROCESSING job)) by apply lookup_insert_eq.
    apply insert_insert_eq. }
  rewrite !steps_S.
  cbn [processors_report_generator.steps Nat.iter processors_report_generator.step].
  rewrite Hjob. cbn [processors_report_generator.step].
  rewrite Hdomain. cbn [processors_report_generator.step].
  rewrite Hname. cbn [processors_report_generator.step].
  rewrite Hprocessing.
  unfold job_domain. rewrite lookup_insert_eq. cbn [domain set_domain].
  rewrite get_company_info_with_domain. cbn [processors_report_generator.step].
  rewrite (collected_lookup _ d "company_name" "What is the name of the company?")
    by (unfold web_searcher.info_topics; apply list_elem_of_here).
  reflexivity.
Qed.

Lemma run_from_sections_returned (n : nat) (raw_data : RawData) (r : ReportModel)
    (jobs_db : gmap string ScreenerJob) (job : ScreenerJob) :
  jobs_db !! job_id = Some job ->
  _generate_report_sections w raw_data = inr r ->
  steps (5 + n) (at_sections raw_data, jobs_db) =
    (returned (Some r), <[job_id := set_status COMPLETED (set_report r job)]> jobs_db).
Proof.
  intros Hjob Hsections. rewrite steps_add.
  assert (Hrun : steps 5 (at_sections raw_data, jobs_db) =
            (returned (Some r),
             <[job_id := set_status COMPLETED (set_report r job)]> jobs_db)).
  { rewrite !steps_S.
    cbn [processors_report_generator.steps Nat.iter processors_report_generator.step].
    rewrite Hsections. cbn [processors_report_generator.step].
    rewrite rebind_same, (alter_present _ _ _ Hjob).
    rewrite (alter_present _ _ (set_report r job)) by apply lookup_insert_eq.
    rewrite insert_insert_eq. reflexivity. }
  rewrite Hrun. apply steps_returned.
Qed.

Lemma run_from_sections_raised (n : nat) (raw_data : RawData) (e : Exception)
    (jobs_db : gmap string ScreenerJob) (job : ScreenerJob) :
  jobs_db !! job_id = Some job ->
  _generate_report_sections w raw_data = inl e ->
  steps (5 + n) (at_sections raw_data, jobs_db) =
    (returned None, <[job_id := set_error (str_exc e) (set_status FAILED job)]> jobs_db).
Proof.
  intros Hjob Hsections.
  change (5 + n) with (S (4 + n)). rewrite steps_S.
  cbn [processors_report_generator.step]. rewrite Hsections.
  apply handler_present, Hjob.
Qed.

Lemma sections_text (raw_data : RawData) (o p m : string) :
  section_tasks w raw_data
    = [inr (llm_api_wrapper.Content o); inr (llm_api_wrapper.Content p);
       inr (llm_api_wrapper.Content m)] ->
  _generate_report_sections w raw_data
    = inr (mkReportModel (Some o) (Some p) (Some m) None None None None).
Proof.
  intros Htasks. unfold _generate_report_sections. rewrite Htasks.
  change [inr (llm_api_wrapper.Content o); inr (llm_api_wrapper.Content p);
          inr (llm_api_wrapper.Content m)]
    with (map (@inr Exception _)
            [llm_api_wrapper.Content o; llm_api_wrapper.Content p;
             llm_api_wrapper.Content m]).
  rewrite gather_values. reflexivity.
Qed.

Lemma sections_raise (raw_data : RawData) (e0 : Exception) :
  inl e0 ∈ section_tasks w raw_data ->
  exists e, inl e ∈ section_tasks w raw_data /\
            _generate_report_sections w raw_data = inl e.
Proof.
  intros Hin.
  destruct (gather_raises (sections_order w) (section_tasks w raw_data) e0 Hin)
    as (e & Hgather & He).
  exists e. split; [exact He|].
  unfold _generate_report_sections. rewrite Hgather. reflexivity.
Qed.

End Orchestrator.

(** C10. A call of [generate_report_async] never raises to its caller,
    whatever the job id, the URL, the store and the collaborators: it
    returns within eleven statements. Whenever an exception [e] escapes
    the body of the [try] it is caught; if the job id is in the store at
    that point, the call ends with that job Failed and [str(e)] in its
    error field; if it is not, the call ends with the store it was
    started with. A call for an id that is not in the store returns
    without having changed the store. *)
Theorem generate_report_async_never_raises
    (w : processors_report_generator.World) (job_id url : string)
    (jobs_db : gmap string ScreenerJob) :
  let final := processors_report_generator.generate_report_async w job_id url jobs_db in
  (exists value, fst final = processors_report_generator.returned value) /\
  (jobs_db !! job_id = None ->
     final = (processors_report_generator.returned None, jobs_db)) /\
  (forall n e jobs_db',
     processors_report_generator.steps w job_id url n
       (processors_report_generator.at_lookup, jobs_db)
       = (processors_report_generator.except_check e, jobs_db') ->
     (forall job, jobs_db' !! job_id = Some job ->
        final = (processors_report_generator.returned None,
                 <[job_id := set_error (str_exc e) (set_status FAILED job)]> jobs_db')) /\
     (jobs_db' !! job_id = None ->
        jobs_db' = jobs_db /\
        final = (processors_report_generator.returned None, jobs_db))).
Proof.
  intros final. unfold final, processors_report_generator.generate_report_async.
  split; [|split].
  - pose proof (steps_remaining w job_id url 11
                  (processors_report_generator.at_lookup, jobs_db)) as Hrem.
    pose proof (steps_guarded w job_id url 11
                  (processors_report_generator.at_lookup, jobs_db) I) as Hg.
    unfold processors_report_generator.guarded in Hg.
    destruct (fst (processors_report_generator.steps w job_id url 11
                     (processors_report_generator.at_lookup, jobs_db))) eqn:Hloc;
      cbn in Hrem; try lia; try contradiction.
    eexists. reflexivity.
  - intros Hjob. apply (steps_absent w job_id url 11). exact Hjob.
  - intros n e jobs_db' Hn.
    pose proof (steps_remaining w job_id url n
                  (processors_report_generator.at_lookup, jobs_db)) as Hrem.
    rewrite Hn in Hrem. cbn in Hrem.
    assert (Hsplit : 11 = n + (11 - n)) by lia.
    split.
    + intros job Hjob. rewrite Hsplit, steps_add, Hn.
      replace (11 - n) with (4 + (7 - n)) by lia.
      apply handler_present. exact Hjob.
    + intros Hnone.
      assert (Hstart : jobs_db !! job_id = None).
      { destruct (jobs_db !! job_id) as [job|] eqn:Hjob; [|reflexivity].
        pose proof (steps_present w job_id url n
                      (processors_report_generator.at_lookup, jobs_db)) as Hp.
        cbn [snd] in Hp. rewrite Hn in Hp. cbn [snd] in Hp.
        rewrite Hjob, Hnone in Hp. destruct Hp as [x Hx]; [eauto|discriminate]. }
      rewrite (steps_absent w job_id url n jobs_db Hstart) in Hn.
      split; [congruence|].
      apply (steps_absent w job_id url 11). exact Hstart.
Qed.

Lemma generate_report_async_never_raises_witness :
  processors_report_generator.generate_report_async failing_section_world
    "job-1" sample_url ∅ = (processors_report_generator.returned None, ∅) /\
  exists job,
    snd (processors_report_generator.generate_report_async failing_section_world
           "job-1" sample_url pending_db) !! "job-1" = Some job /\
    status job = FAILED /\ error job = Some "429 Too Many Requests".
Proof.
  split.
  - destruct (generate_report_async_never_raises failing_section_world
                "job-1" sample_url ∅) as (_ & Habsent & _).
    apply Habsent. reflexivity.
  - destruct (generate_report_async_never_raises failing_section_world
                "job-1" sample_url pending_db) as (_ & _ & Hcaught).
    destruct (Hcaught 7 (RateLimitError "429 Too Many Requests")
                (snd (processors_report_generator.steps failing_section_world
                        "job-1" sample_url 7
                        (processors_report_generator.at_lookup, pending_db))))
      as [Hpresent _]; [vm_compute; reflexivity|].
    eexists. rewrite (Hpresent (mkScreenerJob "job-1" PROCESSING sample_url
                                  (Some "acme.co") None None)) by (vm_compute; reflexivity).
    cbn [snd]. rewrite lookup_insert_eq. repeat split.
Defined.

Lemma job_at_consistent (loc : processors_report_generator.Location) (job : ScreenerJob) :
  processors_report_generator.job_at loc job ->
  processors_report_generator.mid_update loc = false ->
  processors_report_generator.consistent job.
Proof.
  unfold processors_report_generator.consistent.
  destruct loc as [| | | | | | | | | | | | | | |[r|]|];
    cbn [processors_report_generator.job_at processors_report_generator.mid_update];
    try contradiction; try discriminate;
    intros (Hs & Hr & He) _; rewrite Hs; try rewrite Hr; try rewrite He;
    repeat split; intros H; try discriminate; try (destruct H; discriminate);
    eauto.
Qed.

(** C1 (amended). A job is created Pending; every statement of
    [generate_report_async] leaves its status unchanged or moves it along
    Pending -> Processing -> Completed or Failed, so nothing leaves a
    terminal status; and at every location of the run except the two
    between the paired assignments ([job.report] set and [job.status]
    not yet Completed; [job.status] Failed and [job.error] not yet set)
    the report is present iff the status is Completed and the error is
    present iff the status is Failed. In particular this holds whenever
    the coroutine has not started, is suspended at an [await], or has
    returned, which are the states another coroutine can observe. *)
Theorem job_lifecycle (w : processors_report_generator.World) (job_id url : string)
    (jobs_db0 : gmap string ScreenerJob) (n : nat) :
  let start :=
    (processors_report_generator.at_lookup, snd (main.generate job_id url jobs_db0)) in
  let before := processors_report_generator.steps w job_id url n start in
  let after := processors_report_generator.steps w job_id url (S n) start in
  exists job job',
    snd before !! job_id = Some job /\
    snd after !! job_id = Some job' /\
    (n = 0 -> status job = PENDING) /\
    processors_report_generator.lifecycle_step (status job) (status job') /\
    (status job = COMPLETED \/ status job = FAILED -> status job' = status job) /\
    (processors_report_generator.mid_update (fst before) = false ->
       processors_report_generator.consistent job) /\
    (processors_report_generator.observable (fst before) = true ->
       processors_report_generator.consistent job).
Proof.
  intros start before after.
  assert (Hstart : snd start !! job_id = Some (new_job job_id PENDING url)).
  { apply lookup_insert_eq. }
  assert (Hat0 : processors_report_generator.job_at processors_report_generator.at_lookup
                   (new_job job_id PENDING url)).
  { repeat split. }
  destruct (steps_job_at w job_id url n (snd start) _ Hstart Hat0) as (job & Hjob & Hat).
  fold start in Hjob, Hat. change (processors_report_generator.steps w job_id url n
    (processors_report_generator.at_lookup, start.2)) with before in Hjob, Hat.
  assert (Hafter : after = processors_report_generator.step w job_id url before) by reflexivity.
  destruct before as [loc jobs_db] eqn:Hbefore. cbn [fst snd] in *.
  destruct (step_job_at w job_id url loc jobs_db job Hjob Hat) as (job' & Hjob' & _ & Hmove).
  exists job, job'. rewrite Hafter.
  split; [exact Hjob|]. split; [exact Hjob'|]. split; [|split; [|split; [|split]]].
  - intros ->. cbn in Hbefore. injection Hbefore as <- <-.
    unfold main.generate in Hjob. cbn [snd] in Hjob.
    rewrite lookup_insert_eq in Hjob. injection Hjob as <-. reflexivity.
  - exact Hmove.
  - intros Hterminal. unfold processors_report_generator.lifecycle_step in Hmove.
    destruct Hmove as [Hsame|[[Hp _]|[Hp _]]]; [exact Hsame| |];
      destruct Hterminal as [Ht|Ht]; congruence.
  - apply job_at_consistent, Hat.
  - intros Hobs. apply (job_at_consistent loc job Hat).
    destruct loc; try reflexivity; discriminate.
Qed.

Lemma job_lifecycle_witness :
  exists job,
    snd (processors_report_generator.steps sample_world "job-1" sample_url 11
           (processors_report_generator.at_lookup, pending_db)) !! "job-1" = Some job /\
    processors_report_generator.consistent job.
Proof.
  destruct (job_lifecycle sample_world "job-1" sample_url ∅ 11)
    as (job & job' & Hjob & _ & _ & _ & _ & Hconsistent & _).
  exists job. split; [exact Hjob|]. apply Hconsistent. vm_compute. reflexivity.
Defined.

(** The claim as stated covers every statement: after [job.report =
    report] and before [job.status = JobStatus.COMPLETED] the job has a
    report and is still Processing. *)
Lemma report_before_completed_counterexample :
  exists job r,
    processors_report_generator.steps sample_world "job-1" sample_url 8
      (processors_report_generator.at_lookup, pending_db)
      = (processors_report_generator.at_set_completed r,
         <["job-1" := job]> pending_db) /\
    status job = PROCESSING /\ report job = Some r /\
    ~ processors_report_generator.consistent job.
Proof.
  eexists (mkScreenerJob "job-1" PROCESSING sample_url (Some "acme.co") (Some _) None), _.
  split; [vm_compute; reflexivity|].
  split; [reflexivity|]. split; [reflexivity|].
  intros [Hreport _]. cbn in Hreport.
  assert (PROCESSING = COMPLETED) by (apply Hreport; eauto). discriminate.
Qed.

(** The other pair of assignments: after [job.status = JobStatus.FAILED]
    and before [job.error = str(e)] the job is Failed without an error. *)
Example failed_before_error :
  exists job e,
    processors_report_generator.steps failing_section_world "job-1" sample_url 9
      (processors_report_generator.at_lookup, pending_db)
      = (processors_report_generator.except_set_error e,
         <["job-1" := job]> pending_db) /\
    status job = FAILED /\ error job = None.
Proof.
  eexists (mkScreenerJob "job-1" FAILED sample_url (Some "acme.co") None None), _.
  split; [vm_compute; reflexivity|]. split; reflexivity.
Qed.

(** ** Failure isolation *)

(** C3 (amended). For a job in the store and a URL that parses: whatever
    the individual web searches do, the run reaches the section stage with
    an entry for every topic in the raw data, the N/A marker for a search
    that failed; if the three section generations then return text the job
    ends Completed with the report attached. A failure of an individual
    section generation is not isolated: it is raised out of the gather of
    the sections and the job ends Failed with the message of a raised
    section exception. *)
Theorem failure_isolation (w : processors_report_generator.World) (job_id url : string)
    (jobs_db : gmap string ScreenerJob) (job : ScreenerJob) (d name : string) :
  jobs_db !! job_id = Some job ->
  url_parser.extract_domain_from_url url = inr d ->
  url_parser.extract_company_name_from_url url = inr name ->
  let final := processors_report_generator.generate_report_async w job_id url jobs_db in
  let processing := set_domain d (set_status PROCESSING job) in
  exists raw_data,
    processors_report_generator.steps w job_id url 6
      (processors_report_generator.at_lookup, jobs_db)
      = (processors_report_generator.at_sections raw_data,
         <[job_id := processing]> jobs_db) /\
    (forall key topic, (key, topic) ∈ web_searcher.info_topics ->
       processors_report_generator.website_data raw_data !! key
         = Some (match processors_report_generator.web_answer w topic d with
                 | inl _ => openai_websearch.mkWebSearchResponse "N/A" "N/A"
                 | inr r => r
                 end)) /\
    (forall o p m,
       processors_report_generator.section_tasks w raw_data
         = [inr (llm_api_wrapper.Content o); inr (llm_api_wrapper.Content p);
            inr (llm_api_wrapper.Content m)] ->
       let r := mkReportModel (Some o) (Some p) (Some m) None None None None in
       final = (processors_report_generator.returned (Some r),
                <[job_id := set_status COMPLETED (set_report r processing)]> jobs_db)) /\
    (forall e0,
       inl e0 ∈ processors_report_generator.section_tasks w raw_data ->
       exists e,
         inl e ∈ processors_report_generator.section_tasks w raw_data /\
         final = (processors_report_generator.returned None,
                  <[job_id := set_error (str_exc e) (set_status FAILED processing)]>
                    jobs_db)).
Proof.
  intros Hjob Hdomain Hname final processing.
  pose proof (run_to_sections w job_id url jobs_db job d name Hjob Hdomain Hname) as Hrun.
  fold processing in Hrun.
  eexists. split; [exact Hrun|]. split; [|split].
  - intros key topic Hin. cbn [processors_report_generator.website_data].
    apply (collected_lookup _ d key topic Hin).
  - intros o p m Htasks r. unfold final, processors_report_generator.generate_report_async.
    change 11 with (6 + (5 + 0)). rewrite steps_add, Hrun.
    rewrite (run_from_sections_returned w job_id url 0 _ r _ processing).
    + rewrite insert_insert_eq. reflexivity.
    + apply lookup_insert_eq.
    + apply sections_text, Htasks.
  - intros e0 Hin.
    destruct (sections_raise w _ e0 Hin) as (e & He & Hsections).
    exists e. split; [exact He|].
    unfold final, processors_report_generator.generate_report_async.
    change 11 with (6 + (5 + 0)). rewrite steps_add, Hrun.
    rewrite (run_from_sections_raised w job_id url 0 _ e _ processing).
    + rewrite insert_insert_eq. reflexivity.
    + apply lookup_insert_eq.
    + exact Hsections.
Qed.

Lemma failure_isolation_witness :
  exists raw_data job,
    processors_report_generator.steps sample_world "job-1" sample_url 6
      (processors_report_generator.at_lookup, pending_db)
      = (processors_report_generator.at_sections raw_data,
         <["job-1" := set_domain "acme.co"
                        (set_status PROCESSING (new_job "job-1" PENDING sample_url))]>
           pending_db) /\
    processors_report_generator.website_data raw_data !! "market"
      = Some (openai_websearch.mkWebSearchResponse "N/A" "N/A") /\
    snd (processors_report_generator.generate_report_async sample_world
           "job-1" sample_url pending_db) !! "job-1" = Some job /\
    status job = COMPLETED.
Proof.
  destruct (failure_isolation sample_world "job-1" sample_url pending_db
              (new_job "job-1" PENDING sample_url) "acme.co" "acme")
    as (raw_data & Hrun & Hdata & Hdone & _);
    [reflexivity | reflexivity | reflexivity |].
  exists raw_data. eexists.
  split; [exact Hrun|]. split.
  - apply (Hdata "market" "What market does the company work in?").
    unfold web_searcher.info_topics. do 3 apply list_elem_of_further.
    apply list_elem_of_here.
  - rewrite (Hdone "# Acme Robotics" "Robots as a service" "A large market")
      by reflexivity.
    cbn [snd]. rewrite lookup_insert_eq. split; reflexivity.
Defined.

(** The claim as stated has section failures isolated too: here every
    web search answers, the LLM call of the overview section alone fails,
    and the job ends Failed with that failure as its error. *)
Lemma section_failure_counterexample :
  let final := processors_report_generator.generate_report_async failing_section_world
                 "job-1" sample_url pending_db in
  (forall topic website_url,
     is_raised (processors_report_generator.web_answer failing_section_world
                  topic website_url) = false) /\
  (forall raw_data,
     processors_report_generator.section_tasks failing_section_world raw_data
       = [inl (RateLimitError "429 Too Many Requests");
          inr (llm_api_wrapper.Content "Robots as a service");
          inr (llm_api_wrapper.Content "A large market")]) /\
  fst final = processors_report_generator.returned None /\
  snd final !! "job-1"
    = Some (mkScreenerJob "job-1" FAILED sample_url (Some "acme.co") None
              (Some "429 Too Many Requests")).
Proof.
  split; [reflexivity|]. split; [reflexivity|].
  split; vm_compute; reflexivity.
Qed.

(** ** Company-name resolution (app/utils/url_parser.py) *)

Lemma split_first_piece (host : string) :
  exists pieces,
    pystr.split "." host = url_parser.label_before_first_dot host :: pieces.
Proof.
  induction host as [|c rest [pieces IH]]; cbn [pystr.split url_parser.label_before_first_dot].
  - eexists. reflexivity.
  - destruct (Ascii.eqb c "."); [eexists; reflexivity|].
    rewrite IH. eexists. reflexivity.
Qed.

Lemma replace_separators (label : string) :
  pystr.replace "_" " " (pystr.replace "-" " " label)
    = url_parser.separators_to_spaces label.
Proof.
  induction label as [|c rest IH]; [reflexivity|].
  cbn [pystr.replace url_parser.separators_to_spaces]. rewrite IH. f_equal.
  destruct (Ascii.eqb c "-") eqn:Hdash; [reflexivity|].
  cbn [orb]. reflexivity.
Qed.

(** The code computes the derivation the specification words. *)
Lemma extract_company_name_derived (url : string) :
  url_parser.extract_company_name_from_url url =
    match urllib.urlparse_netloc url with
    | inl e => inl e
    | inr netloc => inr (url_parser.derived_company_name netloc)
    end.
Proof.
  unfold url_parser.extract_company_name_from_url, url_parser.derived_company_name,
    url_parser.strip_www.
  destruct (urllib.urlparse_netloc url) as [e|netloc]; [reflexivity|].
  cbn [bind].
  destruct (split_first_piece
              (if pystr.startswith "www." netloc then pystr.slice_from 4 netloc else netloc))
    as [pieces Hsplit].
  rewrite Hsplit. cbn. unfold ret. f_equal. apply replace_separators.
Qed.

Lemma extract_domain_netloc (url d : string) :
  url_parser.extract_domain_from_url url = inr d ->
  exists netloc, urllib.urlparse_netloc url = inr netloc /\ d = url_parser.strip_www netloc.
Proof.
  unfold url_parser.extract_domain_from_url.
  destruct (urllib.urlparse_netloc url) as [e|netloc]; [discriminate|].
  cbn. intros [= <-]. exists netloc. split; reflexivity.
Qed.

Lemma after_last_at_without (netloc : string) :
  pystr.contains "@" netloc = false -> host_label.after_last_at netloc = netloc.
Proof.
  destruct netloc as [|c rest]; [reflexivity|].
  cbn [pystr.contains host_label.after_last_at]. intros H.
  apply orb_false_iff in H as [Hc Hrest]. rewrite Hrest, Hc. reflexivity.
Qed.

Lemma before_port_without (hostport : string) :
  pystr.contains ":" hostport = false -> host_label.before_port hostport = hostport.
Proof.
  induction hostport as [|c rest IH]; [reflexivity|].
  cbn [pystr.contains host_label.before_port]. intros H.
  apply orb_false_iff in H as [Hc Hrest]. rewrite Hc, (IH Hrest). reflexivity.
Qed.

(** C8 (amended). The company name derived from a URL is computed from
    its netloc, not from its host: it is the label of the netloc before
    the first dot, after a leading "www." is stripped, with dashes and
    underscores replaced by spaces. It is the name derived from the host
    label when the netloc carries neither userinfo nor port; otherwise
    userinfo or port can end up in the name. In a run for a job in the
    store and a URL that parses, the raw data handed to all three
    section generators carries the name the web search resolved for the
    company when that name is longer than three characters, and the
    derived name otherwise; whatever the search resolved, the run
    reaches the section stage. *)
Theorem company_name_resolution (w : processors_report_generator.World)
    (job_id url : string) (jobs_db : gmap string ScreenerJob) :
  url_parser.extract_company_name_from_url url =
    match urllib.urlparse_netloc url with
    | inl e => inl e
    | inr netloc => inr (url_parser.derived_company_name netloc)
    end /\
  (forall netloc,
     urllib.urlparse_netloc url = inr netloc ->
     pystr.contains "@" netloc = false ->
     pystr.contains ":" netloc = false ->
     url_parser.extract_company_name_from_url url
       = inr (host_label.company_name netloc)) /\
  (forall job d,
     jobs_db !! job_id = Some job ->
     url_parser.extract_domain_from_url url = inr d ->
     let found :=
       web_searcher.resolved (processors_report_generator.web_answer w) d
         "What is the name of the company?" in
     exists netloc raw_data jobs_db',
       urllib.urlparse_netloc url = inr netloc /\
       processors_report_generator.steps w job_id url 6
         (processors_report_generator.at_lookup, jobs_db)
         = (processors_report_generator.at_sections raw_data, jobs_db') /\
       processors_report_generator.website_data raw_data !! "company_name" = Some found /\
       (3 < String.length (openai_websearch.content found) ->
          processors_report_generator.company_name raw_data
            = openai_websearch.content found) /\
       (String.length (openai_websearch.content found) <= 3 ->
          processors_report_generator.company_name raw_data
            = url_parser.derived_company_name netloc) /\
       processors_report_generator.section_tasks w raw_data
         = [processors_report_generator.overview_processor w raw_data;
            processors_report_generator.product_processor w raw_data;
            processors_report_generator.market_processor w raw_data]).
Proof.
  split; [apply extract_company_name_derived|]. split.
  { intros netloc Hnetloc Hat Hport.
    rewrite extract_company_name_derived, Hnetloc.
    unfold host_label.company_name, host_label.host.
    rewrite (after_last_at_without _ Hat), (before_port_without _ Hport). reflexivity. }
  intros job d Hjob Hdomain found.
  destruct (extract_domain_netloc url d Hdomain) as (netloc & Hnetloc & _).
  assert (Hname : url_parser.extract_company_name_from_url url
                  = inr (url_parser.derived_company_name netloc)).
  { rewrite extract_company_name_derived, Hnetloc. reflexivity. }
  pose proof (run_to_sections w job_id url jobs_db job d _ Hjob Hdomain Hname) as Hrun.
  exists netloc. eexists. eexists.
  split; [exact Hnetloc|]. split; [exact Hrun|].
  cbn [processors_report_generator.website_data processors_report_generator.company_name].
  fold found. unfold processors_report_generator.choose_company_name.
  split; [|split; [|split]].
  - apply (collected_lookup _ d "company_name" "What is the name of the company?").
    unfold web_searcher.info_topics. apply list_elem_of_here.
  - intros Hlong. apply Nat.ltb_lt in Hlong. rewrite Hlong. reflexivity.
  - intros Hshort. apply Nat.ltb_ge in Hshort. rewrite Hshort. reflexivity.
  - reflexivity.
Qed.

Lemma company_name_resolution_witness :
  url_parser.extract_company_name_from_url "https://acme.co/about" = inr "acme" /\
  url_parser.extract_company_name_from_url "https://acme.co/about"
    = inr (host_label.company_name "acme.co") /\
  exists raw_data jobs_db',
    processors_report_generator.steps sample_world "job-1" sample_url 6
      (processors_report_generator.at_lookup, pending_db)
      = (processors_report_generator.at_sections raw_data, jobs_db') /\
    processors_report_generator.company_name raw_data = "Acme Robotics".
Proof.
  destruct (company_name_resolution sample_world "job-1" sample_url pending_db)
    as (Hderived & Hhost & Hrun).
  split; [exact Hderived|]. split.
  - apply (Hhost "acme.co"); reflexivity.
  - destruct (Hrun (new_job "job-1" PENDING sample_url) "acme.co")
      as (netloc & raw_data & jobs_db' & _ & Hsteps & _ & Hlong & _);
      [reflexivity | reflexivity |].
    exists raw_data, jobs_db'. split; [exact Hsteps|].
    rewrite Hlong; [reflexivity|]. vm_compute. lia.
Defined.

(** The name is not always that of the host label: a port or userinfo
    in the URL goes into the name. *)
Lemma port_in_company_name_counterexample :
  urllib.urlparse_netloc "http://localhost:8000/" = inr "localhost:8000" /\
  url_parser.extract_company_name_from_url "http://localhost:8000/"
    = inr "localhost:8000" /\
  host_label.company_name "localhost:8000" = "localhost" /\
  urllib.urlparse_netloc "https://user:pw@www.acme.co:8080/x"
    = inr "user:pw@www.acme.co:8080" /\
  url_parser.extract_company_name_from_url "https://user:pw@www.acme.co:8080/x"
    = inr "user:pw@www" /\
  host_label.company_name "user:pw@www.acme.co:8080" = "acme".
Proof.
  vm_compute. repeat split.
Qed.

(** ** The cost accumulator under concurrent calls *)

Section CostAccumulator.
Import llm_api_wrapper concurrent_calls.
Variable c : float.
Variable m : nat.
Variable initial : float.

Lemma finished_calls_insert_finished (states : list CallState) (i : nat) (st : CallState) :
  states !! i = Some st -> is_finished st = false ->
  finished_calls (<[i := finished]> states) = S (finished_calls states).
Proof.
  unfold finished_calls.
  revert i. induction states as [|st0 states' IH]; intros i Hst Hnot.
  - rewrite lookup_nil in Hst. discriminate.
  - destruct i as [|i]; cbn in Hst.
    + injection Hst as ->. cbn. rewrite Hnot. reflexivity.
    + change (<[S i := finished]> (st0 :: states')) with (st0 :: <[i := finished]> states').
      cbn [List.filter]. destruct (is_finished st0); cbn [length];
        rewrite (IH i Hst Hnot); reflexivity.
Qed.

Lemma finished_calls_insert_unfinished (states : list CallState) (i : nat)
    (st st' : CallState) :
  states !! i = Some st -> is_finished st = false -> is_finished st' = false ->
  finished_calls (<[i := st']> states) = finished_calls states.
Proof.
  unfold finished_calls.
  revert i. induction states as [|st0 states' IH]; intros i Hst Hnot Hnot'.
  - reflexivity.
  - destruct i as [|i]; cbn in Hst.
    + injection Hst as ->. cbn. rewrite Hnot, Hnot'. reflexivity.
    + change (<[S i := st']> (st0 :: states')) with (st0 :: <[i := st']> states').
      cbn [List.filter]. destruct (is_finished st0); cbn [length];
        rewrite (IH i Hst Hnot Hnot'); reflexivity.
Qed.

Lemma finished_calls_all (states : list CallState) :
  Forall (fun st => st = finished) states ->
  finished_calls states = length states.
Proof.
  unfold finished_calls. induction 1 as [|st states' -> _ IH]; [reflexivity|].
  cbn. rewrite IH. reflexivity.
Qed.

Lemma start_accounted :
  accounted c m initial (start (mkLLMAPIWrapper initial) m).
Proof.
  unfold accounted, start. cbn [calls wrapper running accumulated_cost].
  split; [apply length_replicate|]. split; [|split].
  - assert (Hzero : forall n, finished_calls (replicate n scheduled) = 0).
    { unfold finished_calls. induction n as [|n IHn]; [reflexivity|exact IHn]. }
    rewrite Hzero. reflexivity.
  - intros i c' Hi. apply lookup_replicate in Hi as [Hi _]. discriminate.
  - intros i c' read Hi. apply lookup_replicate in Hi as [Hi _]. discriminate.
Qed.

(** Every step of the event loop keeps the books. *)
Lemma advance_accounted (l : Loop) (i : nat) :
  accounted c m initial l -> accounted c m initial (advance (replicate m c) l i).
Proof.
  intros Hl. pose proof Hl as (Hlen & Hacc & Hcomputed & Hloaded). unfold advance.
  destruct (calls l !! i) as [st|] eqn:Hst; [|exact Hl].
  destruct (replicate m c !! i) as [c0|] eqn:Hc;
    [|destruct st; exact Hl].
  apply lookup_replicate in Hc as [-> _].
  assert (Hi : i < length (calls l)) by (eapply lookup_lt_Some; exact Hst).
  destruct st as [| |c'|c' read|].
  - (* a new call runs up to its await *)
    destruct (running l) as [j|] eqn:Hrun; cbn [is_idle];
      [exact Hl|].
    unfold accounted. cbn [calls wrapper running].
    split; [rewrite length_insert; exact Hlen|]. split; [|split].
    + rewrite (finished_calls_insert_unfinished _ i scheduled)
        by (exact Hst || reflexivity).
      exact Hacc.
    + intros k c0 Hk. destruct (decide (i = k)) as [->|Hne].
      * rewrite list_lookup_insert_eq in Hk by exact Hi. discriminate.
      * rewrite list_lookup_insert_ne in Hk by exact Hne.
        destruct (Hcomputed k c0 Hk) as [Hr _]. congruence.
    + intros k c0 r Hk. destruct (decide (i = k)) as [->|Hne].
      * rewrite list_lookup_insert_eq in Hk by exact Hi. discriminate.
      * rewrite list_lookup_insert_ne in Hk by exact Hne.
        destruct (Hloaded k c0 r Hk) as [Hr _]. congruence.
  - (* a suspended call is resumed and computes its cost *)
    destruct (running l) as [j|] eqn:Hrun; cbn [is_idle];
      [exact Hl|].
    unfold accounted. cbn [calls wrapper running].
    split; [rewrite length_insert; exact Hlen|]. split; [|split].
    + rewrite (finished_calls_insert_unfinished _ i awaiting_response)
        by (exact Hst || reflexivity).
      exact Hacc.
    + intros k c0 Hk. destruct (decide (i = k)) as [->|Hne].
      * rewrite list_lookup_insert_eq in Hk by exact Hi.
        injection Hk as <-. split; reflexivity.
      * rewrite list_lookup_insert_ne in Hk by exact Hne.
        destruct (Hcomputed k c0 Hk) as [Hr _]. congruence.
    + intros k c0 r Hk. destruct (decide (i = k)) as [->|Hne].
      * rewrite list_lookup_insert_eq in Hk by exact Hi. discriminate.
      * rewrite list_lookup_insert_ne in Hk by exact Hne.
        destruct (Hloaded k c0 r Hk) as [Hr _]. congruence.
  - (* the running call reads the accumulator *)
    destruct (Hcomputed i c' Hst) as [Hrun Hc'].
    rewrite Hrun. cbn [is_running]. rewrite Nat.eqb_refl.
    unfold accounted. cbn [calls wrapper running].
    split; [rewrite length_insert; exact Hlen|]. split; [|split].
    + rewrite (finished_calls_insert_unfinished _ i (computed c'))
        by (exact Hst || reflexivity).
      exact Hacc.
    + intros k c0 Hk. destruct (decide (i = k)) as [->|Hne].
      * rewrite list_lookup_insert_eq in Hk by exact Hi. discriminate.
      * rewrite list_lookup_insert_ne in Hk by exact Hne.
        destruct (Hcomputed k c0 Hk) as [Hr _]. congruence.
    + intros k c0 r Hk. destruct (decide (i = k)) as [->|Hne].
      * rewrite list_lookup_insert_eq in Hk by exact Hi.
        injection Hk as <- <-. split; [reflexivity|]. split; [exact Hc'|reflexivity].
      * rewrite list_lookup_insert_ne in Hk by exact Hne.
        destruct (Hloaded k c0 r Hk) as [Hr _]. congruence.
  - (* the running call writes the sum back and returns *)
    destruct (Hloaded i c' read Hst) as (Hrun & Hc' & Hread).
    rewrite Hrun. cbn [is_running]. rewrite Nat.eqb_refl.
    unfold accounted. cbn [calls wrapper running accumulated_cost].
    split; [rewrite length_insert; exact Hlen|]. split; [|split].
    + rewrite (finished_calls_insert_finished _ i (loaded c' read))
        by (exact Hst || reflexivity).
      rewrite Hread, Hacc, Hc'. reflexivity.
    + intros k c0 Hk. destruct (decide (i = k)) as [->|Hne].
      * rewrite list_lookup_insert_eq in Hk by exact Hi. discriminate.
      * rewrite list_lookup_insert_ne in Hk by exact Hne.
        destruct (Hcomputed k c0 Hk) as [Hr _]. congruence.
    + intros k c0 r Hk. destruct (decide (i = k)) as [->|Hne].
      * rewrite list_lookup_insert_eq in Hk by exact Hi. discriminate.
      * rewrite list_lookup_insert_ne in Hk by exact Hne.
        destruct (Hloaded k c0 r Hk) as [Hr _]. congruence.
  - exact Hl.
Qed.

Lemma run_accounted (schedule : list nat) (l : Loop) :
  accounted c m initial l -> accounted c m initial (run (replicate m c) schedule l).
Proof.
  revert l. induction schedule as [|i rest IH]; intros l Hl; [exact Hl|].
  cbn. apply IH, advance_accounted, Hl.
Qed.

End CostAccumulator.

Section Sequential.
Import llm_api_wrapper concurrent_calls.
Variable costs : list float.

Lemma run_app (schedule schedule' : list nat) (l : Loop) :
  run costs (schedule ++ schedule') l = run costs schedule' (run costs schedule l).
Proof. unfold run. apply foldl_app. Qed.

(** One call run from its start to its end while the loop is idle. *)
Lemma run_one_call (acc : float) (k n : nat) (c : float) :
  costs !! k = Some c ->
  run costs [k; k; k; k]
    (mkLoop (mkLLMAPIWrapper acc)
       (replicate k finished ++ replicate (S n) scheduled) None)
  = mkLoop (mkLLMAPIWrapper (acc + c)%float)
      (replicate (S k) finished ++ replicate n scheduled) None.
Proof.
  intros Hc.
  assert (Hat : forall st rest,
            (replicate k finished ++ st :: rest) !! k = Some st).
  { intros st rest. rewrite lookup_app_r by (rewrite length_replicate; lia).
    rewrite length_replicate, Nat.sub_diag. reflexivity. }
  assert (Hset : forall st st' rest,
            <[k := st']> (replicate k finished ++ st :: rest)
            = replicate k finished ++ st' :: rest).
  { intros st st' rest.
    rewrite insert_app_r_alt by (rewrite length_replicate; lia).
    rewrite length_replicate, Nat.sub_diag. reflexivity. }
  change (replicate (S n) scheduled) with (scheduled :: replicate n scheduled).
  unfold run. cbn [foldl].
  unfold advance at 4. cbn [calls running wrapper]. rewrite Hat, Hc. cbn [is_idle].
  rewrite Hset.
  unfold advance at 3. cbn [calls running wrapper]. rewrite Hat, Hc. cbn [is_idle].
  rewrite Hset.
  unfold advance at 2. cbn [calls running wrapper]. rewrite Hat, Hc.
  cbn [is_running]. rewrite Nat.eqb_refl, Hset.
  unfold advance. cbn [calls running wrapper accumulated_cost]. rewrite Hat, Hc.
  cbn [is_running]. rewrite Nat.eqb_refl, Hset.
  f_equal. rewrite (replicate_S_end k), <- app_assoc. reflexivity.
Qed.

Lemma run_sequential (n k : nat) (acc : float) :
  length costs = k + n ->
  exists acc',
    run costs (flat_map (fun i => [i; i; i; i]) (seq k n))
      (mkLoop (mkLLMAPIWrapper acc) (replicate k finished ++ replicate n scheduled) None)
    = mkLoop (mkLLMAPIWrapper acc') (replicate (k + n) finished) None.
Proof.
  revert k acc. induction n as [|n IH]; intros k acc Hlen.
  - exists acc. cbn. rewrite app_nil_r, Nat.add_0_r. reflexivity.
  - destruct (costs !! k) as [c|] eqn:Hc;
      [|apply lookup_ge_None in Hc; lia].
    cbn [seq flat_map]. rewrite run_app, (run_one_call acc k n c Hc).
    destruct (IH (S k) (acc + c)%float) as [acc' Hrun]; [lia|].
    exists acc'. rewrite Hrun. f_equal. f_equal. lia.
Qed.

End Sequential.

(** C6 (amended). M concurrent successful calls on one wrapper, each
    costing C: the event loop switches coroutines only at an [await],
    and the read and the write of [self.accumulated_cost += total_cost]
    have no await between them, so under every schedule, once all calls
    have finished, the accumulator is what M executions of the [+=] one
    after the other leave in it: C added M times in binary64, no update
    lost and the same value for every interleaving. This value is M * C
    up to the rounding of the additions, not exactly. The calls can all
    finish. *)
Theorem no_lost_update (M : nat) (C initial : float) :
  let costs := replicate M C in
  let l0 := concurrent_calls.start (llm_api_wrapper.mkLLMAPIWrapper initial) M in
  (forall schedule,
     concurrent_calls.all_finished (concurrent_calls.run costs schedule l0) ->
     llm_api_wrapper.accumulated_cost
       (concurrent_calls.wrapper (concurrent_calls.run costs schedule l0))
     = concurrent_calls.add_times M C initial) /\
  (forall schedule schedule',
     concurrent_calls.all_finished (concurrent_calls.run costs schedule l0) ->
     concurrent_calls.all_finished (concurrent_calls.run costs schedule' l0) ->
     concurrent_calls.wrapper (concurrent_calls.run costs schedule l0)
     = concurrent_calls.wrapper (concurrent_calls.run costs schedule' l0)) /\
  concurrent_calls.all_finished
    (concurrent_calls.run costs (concurrent_calls.sequential M) l0).
Proof.
  intros costs l0.
  assert (Hlen : length costs = M) by apply length_replicate.
  assert (Hany : forall schedule,
            concurrent_calls.all_finished (concurrent_calls.run costs schedule l0) ->
            llm_api_wrapper.accumulated_cost
              (concurrent_calls.wrapper (concurrent_calls.run costs schedule l0))
            = concurrent_calls.add_times M C initial).
  { intros schedule Hdone.
    destruct (run_accounted C M initial schedule l0 (start_accounted C M initial))
      as (Hl & Hacc & _).
    fold costs in Hl, Hacc. rewrite Hacc, (finished_calls_all _ Hdone), Hl. reflexivity. }
  split; [exact Hany|]. split.
  - intros schedule schedule' Hdone Hdone'.
    pose proof (Hany schedule Hdone) as H. pose proof (Hany schedule' Hdone') as H'.
    destruct (concurrent_calls.wrapper (concurrent_calls.run costs schedule l0)),
      (concurrent_calls.wrapper (concurrent_calls.run costs schedule' l0)).
    cbn in H, H'. congruence.
  - destruct (run_sequential costs M 0 initial) as [acc' Hrun]; [rewrite Hlen; lia|].
    unfold concurrent_calls.sequential, l0, concurrent_calls.start.
    cbn [replicate app] in Hrun. rewrite Hrun.
    unfold concurrent_calls.all_finished. cbn [concurrent_calls.calls].
    apply Forall_forall. intros st Hst. apply elem_of_replicate in Hst as [-> _].
    reflexivity.
Qed.

Lemma no_lost_update_witness :
  llm_api_wrapper.accumulated_cost
    (concurrent_calls.wrapper
       (concurrent_calls.run (replicate 3 0.00045%float) interleaved
          (concurrent_calls.start llm_api_wrapper.init 3)))
  = concurrent_calls.add_times 3 0.00045 0.
Proof.
  destruct (no_lost_update 3 0.00045%float 0%float) as [Hany _].
  apply (Hany interleaved).
  vm_compute. repeat constructor.
Defined.

(** The accumulator does not equal M * C exactly: six calls of 0.00045
    leave 0.0026999999999999997 in a fresh accumulator, under the
    sequential and under an interleaved schedule, and six times 0.00045
    is 0.0027. *)
Lemma rounded_sum_counterexample :
  let C := 0.00045%float in
  let l0 := concurrent_calls.start llm_api_wrapper.init 6 in
  let final := concurrent_calls.run (replicate 6 C) (concurrent_calls.sequential 6) l0 in
  let final' :=
    concurrent_calls.run (replicate 6 C)
      [0; 1; 2; 3; 4; 5; 5; 5; 5; 3; 3; 3; 0; 0; 0; 4; 4; 4; 1; 1; 1; 2; 2; 2] l0 in
  concurrent_calls.all_finished final /\
  concurrent_calls.all_finished final' /\
  llm_api_wrapper.accumulated_cost (concurrent_calls.wrapper final)
    = 0.0026999999999999997%float /\
  llm_api_wrapper.accumulated_cost (concurrent_calls.wrapper final')
    = 0.0026999999999999997%float /\
  (6 * C)%float = 0.0027%float /\
  llm_api_wrapper.accumulated_cost (concurrent_calls.wrapper final) <> (6 * C)%float.
Proof.
  vm_compute. repeat split; try discriminate; repeat constructor.
Qed.

(** Were the scheduler allowed to switch between the read and the write,
    an update could be lost: two calls that both read before either
    writes leave the cost of one call in the accumulator. *)
Example lost_update_if_preemptive :
  llm_api_wrapper.accumulated_cost
    (concurrent_calls.wrapper
       (foldl (concurrent_calls.advance_preemptive [1%float; 1%float])
          (concurrent_calls.start llm_api_wrapper.init 2)
          [0; 1; 0; 1; 0; 1; 0; 1]))
  = 1%float.
Proof. vm_compute. reflexivity. Qed.

(** * Properties of more of the code *)

(** ** The inbound API and the runs of the orchestrator *)

(** X1. Right after POST /generate has stored a job, the status query
    for its id answers Pending and the report query signals 400; the
    answers for every other id are what they were. *)
Theorem created_job_is_pending (job_id url : string)
    (jobs_db : gmap string ScreenerJob) :
  let created := main.generate job_id url jobs_db in
  fst created = main.mkJobResponse job_id PENDING /\
  main.get_job_status job_id (snd created) = inr (main.mkJobResponse job_id PENDING) /\
  (exists exc, main.get_report job_id (snd created) = inl exc /\
               main.status_code exc = 400%Z) /\
  (forall other, other <> job_id ->
     main.get_job_status other (snd created) = main.get_job_status other jobs_db /\
     main.get_report other (snd created) = main.get_report other jobs_db).
Proof.
  intros created. unfold created, main.generate. cbn [fst snd].
  split; [reflexivity|]. split; [|split].
  - unfold main.get_job_status. rewrite lookup_insert_eq. reflexivity.
  - unfold main.get_report. rewrite lookup_insert_eq. cbn.
    eexists. split; reflexivity.
  - intros other Hother. unfold main.get_job_status, main.get_report.
    rewrite lookup_insert_ne by congruence. split; reflexivity.
Qed.

Lemma created_job_is_pending_witness :
  main.get_job_status "job-2" (snd (main.generate "job-9" sample_url sample_db))
    = inr (main.mkJobResponse "job-2" PENDING).
Proof.
  destruct (created_job_is_pending "job-9" sample_url sample_db) as (_ & _ & _ & Hother).
  destruct (Hother "job-2") as [Hstatus _]; [discriminate|].
  rewrite Hstatus. reflexivity.
Defined.

Ltac statement_cases :=
  repeat match goal with
         | |- context [match ?x with _ => _ end] =>
             lazymatch type of x with
             | processors_report_generator.Location => fail
             | _ => let H := fresh "Hcase" in destruct x eqn:H
             end
         end.





Lemma step_keeps_identity (w : processors_report_generator.World) (job_id url : string)
    (loc : processors_report_generator.Location) (jobs_db : gmap string ScreenerJob)
    (job : ScreenerJob) :
  jobs_db !! job_id = Some job ->
  exists job',
    snd (processors_report_generator.step w job_id url (loc, jobs_db)) !! job_id
      = Some job' /\
    id job' = id job /\ job.url job' = job.url job.
Proof.
  intros Hjob.
  destruct loc; cbn [processors_report_generator.step]; rewrite ?Hjob;
    statement_cases; cbn [snd];
    rewrite ?(rebind_same job_id), ?lookup_alter_eq, ?Hjob; cbn;
    eexists; (split; [reflexivity|]); split; reflexivity.
Qed.

(** X3. The statements of a run assign the status, the domain, the
    report and the error of the job: its id and its url are never
    changed, from any configuration in which the job is stored. *)
Theorem run_keeps_id_and_url (w : processors_report_generator.World)
    (job_id url : string) (n : nat) (loc : processors_report_generator.Location)
    (jobs_db : gmap string ScreenerJob) (job : ScreenerJob) :
  jobs_db !! job_id = Some job ->
  exists job',
    snd (processors_report_generator.steps w job_id url n (loc, jobs_db)) !! job_id
      = Some job' /\
    id job' = id job /\ job.url job' = job.url job.
Proof.
  revert loc jobs_db job. induction n as [|n IH]; intros loc jobs_db job Hjob.
  - exists job. split; [exact Hjob|]. split; reflexivity.
  - rewrite steps_S.
    destruct (step_keeps_identity w job_id url loc jobs_db job Hjob)
      as (job1 & Hjob1 & Hid1 & Hurl1).
    destruct (processors_report_generator.step w job_id url (loc, jobs_db))
      as [loc1 jobs_db1].
    destruct (IH loc1 jobs_db1 job1 Hjob1) as (job' & Hjob' & Hid & Hurl).
    exists job'. split; [exact Hjob'|]. split; congruence.
Qed.

Lemma run_keeps_id_and_url_witness :
  exists job',
    snd (processors_report_generator.generate_report_async sample_world
           "job-1" sample_url pending_db) !! "job-1" = Some job' /\
    id job' = "job-1" /\ job.url job' = sample_url.
Proof.
  apply (run_keeps_id_and_url sample_world "job-1" sample_url 11
           processors_report_generator.at_lookup pending_db
           (new_job "job-1" PENDING sample_url)).
  reflexivity.
Defined.

Lemma created_job_at_lookup (job_id url : string) (jobs_db0 : gmap string ScreenerJob) :
  snd (main.generate job_id url jobs_db0) !! job_id = Some (new_job job_id PENDING url) /\
  processors_report_generator.job_at processors_report_generator.at_lookup
    (new_job job_id PENDING url).
Proof.
  split; [apply lookup_insert_eq | repeat split].
Qed.

(** The run of a created job is over after eleven statements: it has
    returned. *)
Lemma created_job_run_returns (w : processors_report_generator.World)
    (job_id url : string) (jobs_db0 : gmap string ScreenerJob) :
  exists value jobs_db job,
    processors_report_generator.generate_report_async w job_id url
      (snd (main.generate job_id url jobs_db0))
      = (processors_report_generator.returned value, jobs_db) /\
    jobs_db !! job_id = Some job /\
    processors_report_generator.job_at (processors_report_generator.returned value) job.
Proof.
  destruct (created_job_at_lookup job_id url jobs_db0) as [Hstart Hat0].
  destruct (steps_job_at w job_id url 11 _ _ Hstart Hat0) as (job & Hjob & Hat).
  pose proof (steps_remaining w job_id url 11
                (processors_report_generator.at_lookup,
                 snd (main.generate job_id url jobs_db0))) as Hrem.
  unfold processors_report_generator.generate_report_async.
  destruct (processors_report_generator.steps w job_id url 11
              (processors_report_generator.at_lookup,
               snd (main.generate job_id url jobs_db0))) as [loc jobs_db].
  cbn [fst snd] in *.
  destruct loc; cbn in Hrem; try lia; [|contradiction].
  exists value, jobs_db, job. repeat split; assumption.
Qed.

(** X4. When the run of a created job has returned, the job is in a
    terminal status: either the call returned a report, the job is
    Completed with that report and no error, and the report query
    returns that report; or the call returned nothing, the job is Failed
    with an error and no report, and the report query signals 400. *)
Theorem finished_run_is_terminal (w : processors_report_generator.World)
    (job_id url : string) (jobs_db0 : gmap string ScreenerJob) :
  let final := processors_report_generator.generate_report_async w job_id url
                 (snd (main.generate job_id url jobs_db0)) in
  exists job,
    snd final !! job_id = Some job /\
    ((exists r,
        fst final = processors_report_generator.returned (Some r) /\
        status job = COMPLETED /\ report job = Some r /\ error job = None /\
        main.get_job_status job_id (snd final)
          = inr (main.mkJobResponse job_id COMPLETED) /\
        main.get_report job_id (snd final) = inr (Some r)) \/
     (fst final = processors_report_generator.returned None /\
      status job = FAILED /\ report job = None /\ is_Some (error job) /\
      main.get_job_status job_id (snd final)
        = inr (main.mkJobResponse job_id FAILED) /\
      exists exc, main.get_report job_id (snd final) = inl exc /\
                  main.status_code exc = 400%Z)).
Proof.
  intros final.
  destruct (created_job_run_returns w job_id url jobs_db0)
    as (value & jobs_db & job & Hfinal & Hjob & Hat).
  unfold final. rewrite Hfinal. cbn [fst snd].
  exists job. split; [exact Hjob|].
  unfold main.get_job_status, main.get_report. rewrite Hjob.
  destruct value as [r|]; cbn [processors_report_generator.job_at] in Hat;
    destruct Hat as (Hs & Hr & He); rewrite Hs.
  - left. exists r. repeat split; try assumption. rewrite Hr. reflexivity.
  - right. repeat split; try assumption. cbn. eexists. split; reflexivity.
Qed.

Lemma steps_from_store (w : processors_report_generator.World) (job_id url : string)
    (m : nat) (r : ReportModel) (jobs_db : gmap string ScreenerJob) :
  processors_report_generator.steps w job_id url (2 + m)
    (processors_report_generator.at_store r, jobs_db)
    = (processors_report_generator.returned (Some r), jobs_db) /\
  processors_report_generator.steps w job_id url (1 + m)
    (processors_report_generator.at_return r, jobs_db)
    = (processors_report_generator.returned (Some r), jobs_db).
Proof.
  split.
  - change (2 + m) with (S (S m)). rewrite !steps_S.
    cbn [processors_report_generator.step]. rewrite rebind_same. apply steps_returned.
  - change (1 + m) with (S m). rewrite steps_S.
    cbn [processors_report_generator.step]. apply steps_returned.
Qed.

(** X5. No partial report is ever served: if, after any number of
    statements of the run of a created job, the report query returns
    something, it is the report the run returns at its end, and the
    store is already the final one. *)
Theorem served_report_is_final (w : processors_report_generator.World)
    (job_id url : string) (jobs_db0 : gmap string ScreenerJob) (n : nat)
    (served : option ReportModel) :
  let start := (processors_report_generator.at_lookup,
                snd (main.generate job_id url jobs_db0)) in
  let now := processors_report_generator.steps w job_id url n start in
  main.get_report job_id (snd now) = inr served ->
  exists r,
    served = Some r /\
    processors_report_generator.generate_report_async w job_id url (snd start)
      = (processors_report_generator.returned (Some r), snd now).
Proof.
  intros start now Hserved.
  apply get_report_inr in Hserved as (job & Hjob & Hcompleted & ->).
  destruct (created_job_at_lookup job_id url jobs_db0) as [Hstart Hat0].
  destruct (steps_job_at w job_id url n _ _ Hstart Hat0) as (job' & Hjob' & Hat).
  fold start in Hjob', Hat. fold now in Hjob', Hat.
  rewrite Hjob in Hjob'. injection Hjob' as <-.
  pose proof (steps_remaining w job_id url n start) as Hrem. fold now in Hrem.
  cbn [fst start processors_report_generator.remaining] in Hrem.
  unfold processors_report_generator.generate_report_async.
  cbn [snd start]. fold start.
  destruct now as [loc jobs_db] eqn:Hnow. cbn [fst snd] in *.
  assert (Hrun : forall k, n + k = 11 ->
            processors_report_generator.steps w job_id url 11 start
            = processors_report_generator.steps w job_id url k (loc, jobs_db)).
  { intros k <-. rewrite steps_add. unfold now in Hnow. rewrite Hnow. reflexivity. }
  destruct loc as [| | | | | | | | |r|r| | | | |[r|]|];
    cbn [processors_report_generator.job_at] in Hat; try contradiction;
    destruct Hat as (Hs & Hr & He); try congruence;
    cbn [processors_report_generator.remaining] in Hrem;
    exists r; (split; [exact Hr|]).
  - rewrite (Hrun (2 + (9 - n))) by lia. apply steps_from_store.
  - rewrite (Hrun (1 + (10 - n))) by lia. apply steps_from_store.
  - destruct (le_lt_dec n 11) as [Hle|Hgt].
    + rewrite (Hrun (11 - n)) by lia. apply steps_returned.
    + destruct (created_job_run_returns w job_id url jobs_db0)
        as (value & jobs_db1 & job1 & Hfinal & _ & _).
      unfold processors_report_generator.generate_report_async in Hfinal.
      fold start in Hfinal.
      assert (Hlate : processors_report_generator.steps w job_id url n start
                      = (processors_report_generator.returned value, jobs_db1)).
      { replace n with (11 + (n - 11)) by lia.
        rewrite steps_add, Hfinal. apply steps_returned. }
      unfold now in Hnow. rewrite Hnow in Hlate. rewrite Hfinal. symmetry. exact Hlate.
Qed.

Lemma served_report_is_final_witness :
  exists r,
    processors_report_generator.generate_report_async sample_world "job-1" sample_url
      pending_db
    = (processors_report_generator.returned (Some r),
       snd (processors_report_generator.steps sample_world "job-1" sample_url 9
              (processors_report_generator.at_lookup, pending_db))).
Proof.
  destruct (served_report_is_final sample_world "job-1" sample_url ∅ 9
              (Some (mkReportModel (Some "# Acme Robotics") (Some "Robots as a service")
                       (Some "A large market") None None None None)))
    as (r & _ & Hfinal).
  - vm_compute. reflexivity.
  - exists r. exact Hfinal.
Defined.





(** X7. When every section generation returns but one of them hands back
    the annotated dict of [get_response] instead of a text, building the
    [ReportModel] raises a validation error: the job ends Failed although
    no call has raised. *)
Theorem annotated_section_fails_job (w : processors_report_generator.World)
    (job_id url : string) (n : nat) (raw_data : processors_report_generator.RawData)
    (jobs_db : gmap string ScreenerJob) (job : ScreenerJob)
    (v0 v1 v2 : llm_api_wrapper.ResponseValue) :
  jobs_db !! job_id = Some job ->
  processors_report_generator.section_tasks w raw_data = [inr v0; inr v1; inr v2] ->
  is_annotated v0 || is_annotated v1 || is_annotated v2 = true ->
  exists msg,
    processors_report_generator._generate_report_sections w raw_data
      = inl (ValidationError msg) /\
    processors_report_generator.steps w job_id url (5 + n)
      (processors_report_generator.at_sections raw_data, jobs_db)
    = (processors_report_generator.returned None,
       <[job_id := set_error msg (set_status FAILED job)]> jobs_db).
Proof.
  intros Hjob Htasks Hannotated.
  assert (Hsections : exists msg,
            processors_report_generator._generate_report_sections w raw_data
            = inl (ValidationError msg)).
  { unfold processors_report_generator._generate_report_sections. rewrite Htasks.
    change [inr v0; inr v1; inr v2] with (map (@inr Exception _) [v0; v1; v2]).
    rewrite gather_values. cbn.
    destruct v0, v1, v2; cbn in *; try discriminate; eexists; reflexivity. }
  destruct Hsections as [msg Hsections]. exists msg. split; [exact Hsections|].
  apply (run_from_sections_raised w job_id url n raw_data (ValidationError msg)
           jobs_db job Hjob Hsections).
Qed.

Lemma annotated_section_fails_job_witness :
  exists job,
    snd (processors_report_generator.steps annotated_world "job-1" sample_url 5
           (processors_report_generator.at_sections
              (processors_report_generator.mkRawData "Acme Robotics" sample_url ∅),
            pending_db)) !! "job-1" = Some job /\
    status job = FAILED.
Proof.
  destruct (annotated_section_fails_job annotated_world "job-1" sample_url 0
              (processors_report_generator.mkRawData "Acme Robotics" sample_url ∅)
              pending_db (new_job "job-1" PENDING sample_url)
              (llm_api_wrapper.Annotated ["https://acme.co/about"] "# Acme Robotics")
              (llm_api_wrapper.Content "Robots as a service")
              (llm_api_wrapper.Content "A large market"))
    as (msg & _ & Hrun); [reflexivity | reflexivity | reflexivity |].
  eexists. change (5 + 0) with 5 in Hrun. rewrite Hrun. cbn [snd].
  rewrite lookup_insert_eq. split; reflexivity.
Defined.

(** ** The text-generation adapter: more of [get_openai_response] *)

(** X8. Whatever [get_openai_response] returns or raises is the outcome
    of one of its at most five backend calls, reached after rate-limit
    signals only: a response is a response of the backend, an exception
    an exception of the backend. The [RuntimeError] after the loop is
    never raised by the function itself. *)
Theorem outcome_is_a_backend_outcome (backend : openai_api.Backend) (prompt : string)
    (system_prompt : option string) (max_tokens : Z) (model : string) :
  let req := openai_api.request_for prompt
               (openai_api.system_prompt_or_default system_prompt) max_tokens model in
  let run := openai_api.get_openai_response backend prompt system_prompt max_tokens model in
  exists k,
    k < 5 /\
    fst run = backend k req /\
    (forall j, j < k -> openai_api.rate_limited backend req j = true) /\
    length (openai_api.calls (snd run)) = S k.
Proof.
  intros req run.
  destruct (get_openai_response_stops backend prompt system_prompt max_tokens model)
    as (k & Hk & Hpre & _ & Hrun).
  fold req in Hpre, Hrun. fold run in Hrun.
  exists k. split; [lia|]. rewrite Hrun. cbn [fst snd].
  split; [reflexivity|]. split; [exact Hpre|].
  rewrite calls_retry_events. apply length_replicate.
Qed.

Lemma outcome_is_a_backend_outcome_witness :
  let req := openai_api.request_for "prompt"
               (openai_api.system_prompt_or_default None) 4096 OPENAI_MODEL in
  let run := openai_api.get_openai_response answering_at_third_attempt "prompt" None 4096
               OPENAI_MODEL in
  exists k,
    k < 5 /\
    fst run = answering_at_third_attempt k req /\
    (forall j, j < k -> openai_api.rate_limited answering_at_third_attempt req j = true) /\
    length (openai_api.calls (snd run)) = S k.
Proof.
  exact (outcome_is_a_backend_outcome answering_at_third_attempt "prompt" None 4096
           OPENAI_MODEL).
Defined.

Lemma total_delay_take (k : nat) :
  k <= 4 -> total_delay (take k [1; 2; 4; 8]%Z) = (2 ^ Z.of_nat k - 1)%Z.
Proof.
  intros Hk. destruct k as [|[|[|[|[|k]]]]]; try reflexivity. lia.
Qed.

(** X9. The time one call spends in backoff is 2^(attempts - 1) - 1
    seconds, at most 15 seconds in all; a call whose first attempt is not
    rate-limited makes that one backend call and nothing else: it neither
    sleeps nor logs. *)
Theorem total_backoff (backend : openai_api.Backend) (prompt : string)
    (system_prompt : option string) (max_tokens : Z) (model : string) :
  let req := openai_api.request_for prompt
               (openai_api.system_prompt_or_default system_prompt) max_tokens model in
  let run := openai_api.get_openai_response backend prompt system_prompt max_tokens model in
  let attempts := length (openai_api.calls (snd run)) in
  total_delay (openai_api.sleeps (snd run)) = (2 ^ (Z.of_nat attempts - 1) - 1)%Z /\
  (total_delay (openai_api.sleeps (snd run)) <= 15)%Z /\
  (openai_api.rate_limited backend req 0 = false ->
     run = (backend 0 req, [openai_api.Create req])).
Proof.
  intros req run attempts.
  destruct (get_openai_response_stops backend prompt system_prompt max_tokens model)
    as (k & Hk & Hpre & Hlast & Hrun).
  fold req in Hpre, Hlast, Hrun. fold run in Hrun.
  assert (Hattempts : attempts = S k).
  { unfold attempts. rewrite Hrun. cbn [snd].
    rewrite calls_retry_events. apply length_replicate. }
  assert (Hsleeps : openai_api.sleeps (snd run) = take k [1; 2; 4; 8]%Z).
  { rewrite Hrun. cbn [snd]. rewrite sleeps_retry_events. apply backoffs_from_one, Hk. }
  rewrite Hsleeps, Hattempts, (total_delay_take k Hk).
  split; [|split].
  - f_equal. f_equal. lia.
  - assert (2 ^ Z.of_nat k <= 2 ^ 4)%Z by (apply Z.pow_le_mono_r; lia). lia.
  - intros Hfirst.
    assert (k = 0).
    { destruct k as [|k]; [reflexivity|].
      rewrite (Hpre 0) in Hfirst by lia. discriminate. }
    subst k. rewrite Hrun. unfold openai_api.last_events. rewrite Hfirst. reflexivity.
Qed.

Lemma total_backoff_witness :
  openai_api.get_openai_response answering "prompt" None 4096 "gpt-4o"
    = (inr sample_completion,
       [openai_api.Create
          (openai_api.request_for "prompt" "You are an AI publishing assistant"
             4096 "gpt-4o")]).
Proof.
  destruct (total_backoff answering "prompt" None 4096 "gpt-4o") as (_ & _ & Hfirst).
  apply Hfirst. reflexivity.
Defined.

(** X10. A call recovers from rate limiting: when the first [k] attempts
    ([k] at most 4) are answered by rate-limit signals and the next one by
    a response, the call returns that response, after [k + 1] backend
    calls and the delays 1, 2, ... 2^(k-1). *)
Theorem recovers_after_rate_limits (backend : openai_api.Backend) (prompt : string)
    (system_prompt : option string) (max_tokens : Z) (model : string)
    (k : nat) (response : openai_api.ChatCompletion) :
  let req := openai_api.request_for prompt
               (openai_api.system_prompt_or_default system_prompt) max_tokens model in
  let run := openai_api.get_openai_response backend prompt system_prompt max_tokens model in
  k < 5 ->
  (forall j, j < k -> openai_api.rate_limited backend req j = true) ->
  backend k req = inr response ->
  fst run = inr response /\
  length (openai_api.calls (snd run)) = S k /\
  openai_api.sleeps (snd run) = take k [1; 2; 4; 8]%Z.
Proof.
  intros req run Hk Hbefore Hresponse.
  destruct (get_openai_response_stops backend prompt system_prompt max_tokens model)
    as (k' & Hk' & Hpre & Hlast & Hrun).
  fold req in Hpre, Hlast, Hrun. fold run in Hrun.
  assert (Hstop : openai_api.rate_limited backend req k = false).
  { unfold openai_api.rate_limited. rewrite Hresponse. reflexivity. }
  assert (k' = k).
  { destruct (lt_eq_lt_dec k' k) as [[Hlt|Heq]|Hgt]; [|exact Heq|].
    - rewrite Hbefore in Hlast by exact Hlt. specialize (Hlast ltac:(lia)). discriminate.
    - rewrite Hpre in Hstop by exact Hgt. discriminate. }
  subst k'. rewrite Hrun. cbn [fst snd].
  split; [exact Hresponse|]. split.
  - rewrite calls_retry_events. apply length_replicate.
  - rewrite sleeps_retry_events. apply backoffs_from_one. lia.
Qed.

Lemma recovers_after_rate_limits_witness :
  let run := openai_api.get_openai_response answering_at_third_attempt
               "prompt" None 4096 "gpt-4o" in
  fst run = inr sample_completion /\
  length (openai_api.calls (snd run)) = 3 /\
  openai_api.sleeps (snd run) = [1; 2]%Z.
Proof.
  apply (recovers_after_rate_limits answering_at_third_attempt "prompt" None 4096
           "gpt-4o" 2 sample_completion).
  - lia.
  - intros j Hj. destruct j as [|[|j]]; [reflexivity | reflexivity | lia].
  - reflexivity.
Defined.

(** ** Cost accounting: more of [get_response] *)

(** X11. [get_response] returns a value exactly when the backend call
    returned a response, the model is in the price table, the cost of
    the response could be computed (its token counts convert to floats)
    and the response has a choice; the value is built from the first
    choice alone: its content, or the dict of its annotations and
    content when it has annotations. *)
Theorem get_response_returns_iff (self : llm_api_wrapper.LLMAPIWrapper)
    (backend : openai_api.Backend) (prompt : string) (system_prompt : option string)
    (max_tokens : Z) (model : option string) (value : llm_api_wrapper.ResponseValue) :
  let m := llm_api_wrapper.model_or_default model in
  let backend_result :=
    fst (openai_api.get_openai_response backend prompt system_prompt max_tokens m) in
  let out := llm_api_wrapper.get_response self backend prompt system_prompt max_tokens model in
  fst (fst out) = inr value <->
  exists response prices cost message rest,
    backend_result = inr response /\
    openai_api.MODEL_COSTS !! m = Some prices /\
    llm_api_wrapper.total_cost prices response = inr cost /\
    openai_api.choices response = message :: rest /\
    value = match openai_api.msg_annotations message with
            | [] => llm_api_wrapper.Content (openai_api.msg_content message)
            | annotations =>
                llm_api_wrapper.Annotated annotations (openai_api.msg_content message)
            end.
Proof.
  intros m backend_result out. unfold out, backend_result, llm_api_wrapper.get_response.
  fold m.
  destruct (openai_api.get_openai_response backend prompt system_prompt max_tokens m)
    as [[exc|response] events]; cbn [fst snd].
  - split; [discriminate|]. intros (r & p & c & msg & rest & H & _). discriminate.
  - destruct (openai_api.MODEL_COSTS !! m) as [prices|] eqn:Hprices; cbn [fst snd].
    + destruct (llm_api_wrapper.total_cost prices response) as [e|cost] eqn:Hcost;
        cbn [fst snd].
      { split; [discriminate|].
        intros (r & p & c & msg & rest & [= <-] & [= <-] & Hc & _). congruence. }
      destruct (openai_api.choices response) as [|message rest] eqn:Hchoices; cbn [fst snd].
      * split; [discriminate|].
        intros (r & p & c & msg & rest & [= <-] & _ & _ & Hc & _). congruence.
      * split.
        -- intros Hv. exists response, prices, cost, message, rest.
           repeat split; try reflexivity; try assumption.
           destruct (openai_api.msg_annotations message); cbn in Hv; unfold ret in Hv;
             congruence.
        -- intros (r & p & c & msg & rest' & [= <-] & _ & _ & Hc & ->).
           rewrite Hchoices in Hc. injection Hc as <- <-.
           destruct (openai_api.msg_annotations message); reflexivity.
    + split; [discriminate|].
      intros (r & p & c & msg & rest & _ & H & _). discriminate.
Qed.

Lemma get_response_returns_iff_witness :
  fst (fst (llm_api_wrapper.get_response llm_api_wrapper.init answering
              "prompt" None 4096 None))
  = inr (llm_api_wrapper.Content "Acme builds robots.").
Proof.
  apply (get_response_returns_iff llm_api_wrapper.init answering "prompt" None 4096 None).
  exists sample_completion, (openai_api.mkModelPrices 2.0 8.0), 0.006%float,
    (openai_api.mkChatMessage "Acme builds robots." []), [].
  repeat split; reflexivity.
Defined.

(** X12. The cost is added before the choice is read: when the backend
    returns a response without choices for a priced model, the call
    raises [IndexError] and the cost of the response has been added to
    the accumulator all the same. *)
Theorem charged_before_choice_is_read (self : llm_api_wrapper.LLMAPIWrapper)
    (backend : openai_api.Backend) (prompt : string) (system_prompt : option string)
    (max_tokens : Z) (model : option string)
    (response : openai_api.ChatCompletion) (prices : openai_api.ModelPrices)
    (cost : float) :
  let m := llm_api_wrapper.model_or_default model in
  let out := llm_api_wrapper.get_response self backend prompt system_prompt max_tokens model in
  fst (openai_api.get_openai_response backend prompt system_prompt max_tokens m)
    = inr response ->
  openai_api.MODEL_COSTS !! m = Some prices ->
  llm_api_wrapper.total_cost prices response = inr cost ->
  openai_api.choices response = [] ->
  fst (fst out) = inl (IndexError "list index out of range") /\
  llm_api_wrapper.accumulated_cost (snd (fst out))
    = (llm_api_wrapper.accumulated_cost self + cost)%float.
Proof.
  intros m out Hbackend Hprices Hcost Hchoices.
  unfold out, llm_api_wrapper.get_response. fold m.
  destruct (openai_api.get_openai_response backend prompt system_prompt max_tokens m)
    as [r events]. cbn [fst] in Hbackend. subst r.
  rewrite Hprices, Hcost, Hchoices. split; reflexivity.
Qed.

Lemma charged_before_choice_is_read_witness :
  let out := llm_api_wrapper.get_response llm_api_wrapper.init answering_without_choices
               "prompt" None 4096 (Some "gpt-4o-mini") in
  fst (fst out) = inl (IndexError "list index out of range") /\
  llm_api_wrapper.accumulated_cost (snd (fst out)) = 0.00045%float.
Proof.
  destruct (charged_before_choice_is_read llm_api_wrapper.init answering_without_choices
              "prompt" None 4096 (Some "gpt-4o-mini")
              (openai_api.mkChatCompletion 1000 500 [])
              (openai_api.mkModelPrices 0.15 0.6) 0.00045%float) as [Hraise Hcost];
    [reflexivity | reflexivity | reflexivity | reflexivity |].
  split; [exact Hraise|]. rewrite Hcost. reflexivity.
Defined.

Lemma total_cost_returns (prices : openai_api.ModelPrices)
    (response : openai_api.ChatCompletion) :
  is_raised (llm_api_wrapper.float_of_int (openai_api.prompt_tokens response)) = false ->
  is_raised (llm_api_wrapper.float_of_int (openai_api.completion_tokens response)) = false ->
  exists cost, llm_api_wrapper.total_cost prices response = inr cost.
Proof.
  unfold llm_api_wrapper.total_cost. intros Hp Hc.
  destruct (llm_api_wrapper.float_of_int (openai_api.prompt_tokens response));
    [discriminate|].
  destruct (llm_api_wrapper.float_of_int (openai_api.completion_tokens response));
    [discriminate|].
  eexists. reflexivity.
Qed.

(** X13. The models the code names are priced: a call that leaves the
    model to its default, and a call for the search model, cannot fail on
    the price lookup; it returns a value as soon as the backend returns a
    response with a choice and token counts that convert to floats. *)
Theorem named_models_are_priced (self : llm_api_wrapper.LLMAPIWrapper)
    (backend : openai_api.Backend) (prompt : string) (system_prompt : option string)
    (max_tokens : Z) (model : option string) :
  model = None \/ model = Some EmptyString \/ model = Some OPENAI_MODEL
    \/ model = Some SEARCH_MODEL ->
  let m := llm_api_wrapper.model_or_default model in
  let out := llm_api_wrapper.get_response self backend prompt system_prompt max_tokens model in
  is_Some (openai_api.MODEL_COSTS !! m) /\
  (forall response message rest,
     fst (openai_api.get_openai_response backend prompt system_prompt max_tokens m)
       = inr response ->
     is_raised (llm_api_wrapper.float_of_int (openai_api.prompt_tokens response)) = false ->
     is_raised (llm_api_wrapper.float_of_int (openai_api.completion_tokens response))
       = false ->
     openai_api.choices response = message :: rest ->
     exists value, fst (fst out) = inr value).
Proof.
  intros Hmodel m out.
  assert (Hpriced : is_Some (openai_api.MODEL_COSTS !! m)).
  { unfold m. destruct Hmodel as [-> | [-> | [-> | ->]]]; vm_compute; eauto. }
  split; [exact Hpriced|].
  intros response message rest Hbackend Hp Hc Hchoices.
  unfold out, llm_api_wrapper.get_response. fold m.
  destruct (openai_api.get_openai_response backend prompt system_prompt max_tokens m)
    as [r events]. cbn [fst] in Hbackend. subst r.
  destruct Hpriced as [prices Hprices]. rewrite Hprices.
  destruct (total_cost_returns prices response Hp Hc) as [cost Hcost].
  rewrite Hcost, Hchoices.
  destruct (openai_api.msg_annotations message); eexists; reflexivity.
Qed.

Lemma named_models_are_priced_witness :
  exists value,
    fst (fst (llm_api_wrapper.get_response llm_api_wrapper.init answering
                "prompt" None 4096 (Some SEARCH_MODEL))) = inr value.
Proof.
  destruct (named_models_are_priced llm_api_wrapper.init answering "prompt" None 4096
              (Some SEARCH_MODEL)) as [_ Hreturns].
  - right. right. right. reflexivity.
  - apply (Hreturns sample_completion
             (openai_api.mkChatMessage "Acme builds robots." []) []); reflexivity.
Defined.

(** ** The client singleton (app/core/openai_api.py) *)

(** X14. The client is a singleton: a construction with an empty key
    raises and leaves no instance; once a construction has succeeded,
    every later construction returns the client of that first key and
    cannot raise, whatever the key is then, even an empty one. *)
Theorem client_is_a_singleton (key : string) (keys : list string) :
  openai_client.OpenAIClient EmptyString None
    = (inl (ValueError "API key is invalid. Please provide a valid OpenAI API key."),
       None) /\
  (key <> EmptyString ->
     openai_client.constructions (key :: keys) None
       = (replicate (S (length keys)) (inr (openai_client.mkAsyncOpenAI key)),
          Some (openai_client.mkAsyncOpenAI key))).
Proof.
  split; [reflexivity|]. intros Hkey.
  assert (Hlater : forall client,
            openai_client.constructions keys (Some client)
            = (replicate (length keys) (inr client), Some client)).
  { intros client. induction keys as [|k ks IH]; [reflexivity|].
    cbn [openai_client.constructions openai_client.OpenAIClient]. rewrite IH. reflexivity. }
  cbn [openai_client.constructions].
  destruct key as [|c key]; [contradiction|].
  cbn [openai_client.OpenAIClient]. rewrite Hlater. reflexivity.
Qed.

Lemma client_is_a_singleton_witness :
  openai_client.constructions ["sk-first"; ""; "sk-second"] None
    = ([inr (openai_client.mkAsyncOpenAI "sk-first");
        inr (openai_client.mkAsyncOpenAI "sk-first");
        inr (openai_client.mkAsyncOpenAI "sk-first")],
       Some (openai_client.mkAsyncOpenAI "sk-first")).
Proof.
  destruct (client_is_a_singleton "sk-first" [""; "sk-second"]) as [_ Hsingle].
  apply Hsingle. discriminate.
Defined.

(** ** URL utilities (app/utils/url_parser.py) *)

Lemma label_has_no_dot (host : string) :
  pystr.contains "." (url_parser.label_before_first_dot host) = false.
Proof.
  induction host as [|c rest IH]; [reflexivity|].
  cbn [url_parser.label_before_first_dot].
  destruct (Ascii.eqb c ".") eqn:Hc; [reflexivity|].
  cbn [pystr.contains]. rewrite IH, Ascii.eqb_sym, Hc. reflexivity.
Qed.

Lemma separators_to_spaces_clean (label : string) :
  pystr.contains "." label = false ->
  pystr.contains "." (url_parser.separators_to_spaces label) = false /\
  pystr.contains "-" (url_parser.separators_to_spaces label) = false /\
  pystr.contains "_" (url_parser.separators_to_spaces label) = false.
Proof.
  induction label as [|c rest IH]; [repeat split|].
  cbn [pystr.contains url_parser.separators_to_spaces]. intros Hdot.
  apply orb_false_iff in Hdot as [Hc Hrest].
  destruct (IH Hrest) as (H1 & H2 & H3). rewrite H1, H2, H3.
  destruct (Ascii.eqb c "-") eqn:Hdash; [repeat split|].
  destruct (Ascii.eqb c "_") eqn:Hunder; [repeat split|].
  cbn [orb]. rewrite Hc.
  rewrite (Ascii.eqb_sym "-" c), Hdash, (Ascii.eqb_sym "_" c), Hunder. repeat split.
Qed.

Lemma separators_to_spaces_length (label : string) :
  String.length (url_parser.separators_to_spaces label) = String.length label.
Proof.
  induction label as [|c rest IH]; [reflexivity|]. cbn. rewrite IH. reflexivity.
Qed.

Lemma label_length (host : string) :
  String.length (url_parser.label_before_first_dot host) <= String.length host.
Proof.
  induction host as [|c rest IH]; [reflexivity|].
  cbn [url_parser.label_before_first_dot].
  destruct (Ascii.eqb c "."); cbn; lia.
Qed.

(** X15. The company name derived from a URL is computed from its
    domain: whenever [extract_domain_from_url] returns a domain,
    [extract_company_name_from_url] returns the label of that domain
    before its first dot with dashes and underscores turned into spaces,
    and when one raises the other raises the same exception. The name
    contains no dot, no dash and no underscore and is never longer than
    the domain. *)
Theorem company_name_from_domain (url : string) :
  match url_parser.extract_domain_from_url url with
  | inl e => url_parser.extract_company_name_from_url url = inl e
  | inr d =>
      exists name,
        url_parser.extract_company_name_from_url url = inr name /\
        name = url_parser.separators_to_spaces (url_parser.label_before_first_dot d) /\
        pystr.contains "." name = false /\
        pystr.contains "-" name = false /\
        pystr.contains "_" name = false /\
        String.length name <= String.length d
  end.
Proof.
  rewrite extract_company_name_derived. unfold url_parser.extract_domain_from_url.
  destruct (urllib.urlparse_netloc url) as [e|netloc]; [reflexivity|].
  cbn [bind]. unfold ret.
  fold (url_parser.strip_www netloc). unfold url_parser.derived_company_name.
  set (d := url_parser.strip_www netloc).
  eexists. split; [reflexivity|]. split; [reflexivity|].
  destruct (separators_to_spaces_clean (url_parser.label_before_first_dot d)
              (label_has_no_dot d)) as (H1 & H2 & H3).
  repeat split; try assumption.
  rewrite separators_to_spaces_length. apply label_length.
Qed.

Lemma append_cons (c : ascii) (a b : string) : String c a +:+ b = String c (a +:+ b).
Proof. reflexivity. Qed.

Lemma append_empty (b : string) : EmptyString +:+ b = b.
Proof. reflexivity. Qed.

Lemma prefix_iff_append (p s : string) :
  String.prefix p s = true <-> exists post, s = p +:+ post.
Proof.
  revert s. induction p as [|a p IH]; intros s.
  - split; [intros _; exists s; reflexivity | intros _; destruct s; reflexivity].
  - destruct s as [|b s]; cbn [String.prefix].
    + split; [discriminate | intros [post H]; discriminate].
    + destruct (ascii_dec a b) as [->|Hne].
      * rewrite IH. split; intros [post H]; exists post;
          rewrite append_cons in *; congruence.
      * split; [discriminate | intros [post H]; rewrite append_cons in H; congruence].
Qed.

Lemma contains_str_iff (p s : string) :
  contains_str p s = true <-> exists pre post, s = pre +:+ p +:+ post.
Proof.
  split.
  - induction s as [|c s IH]; cbn [contains_str]; intros H.
    + rewrite orb_false_r in H. apply prefix_iff_append in H as [post H].
      exists EmptyString, post. exact H.
    + apply orb_true_iff in H as [H|H].
      * apply prefix_iff_append in H as [post H]. exists EmptyString, post. exact H.
      * destruct (IH H) as (pre & post & ->). exists (String c pre), post. reflexivity.
  - intros (pre & post & ->). induction pre as [|c pre IH].
    + rewrite append_empty.
      assert (H : String.prefix p (p +:+ post) = true)
        by (apply prefix_iff_append; eauto).
      destruct (p +:+ post); cbn [contains_str]; rewrite H; reflexivity.
    + rewrite append_cons. cbn [contains_str]. rewrite IH. apply orb_true_r.
Qed.

Lemma no_platform_in_iff (domains : list string) (netloc : string) :
  no_platform_in domains netloc = true <->
  forall d, d ∈ domains -> contains_str d netloc = false.
Proof.
  induction domains as [|d0 rest IH]; cbn [no_platform_in].
  - split; [intros _ d Hd; inversion Hd | reflexivity].
  - destruct (contains_str d0 netloc) eqn:H0.
    + split; [discriminate|]. intros Hall.
      rewrite (Hall d0) in H0 by apply list_elem_of_here. discriminate.
    + rewrite IH. split.
      * intros Hall d Hd. apply elem_of_cons in Hd as [->|Hd]; [exact H0 | apply Hall, Hd].
      * intros Hall d Hd. apply Hall. apply list_elem_of_further, Hd.
Qed.

(** X16. [is_company_website] raises what the URL parser raises and
    otherwise answers true exactly when the netloc is not empty and none
    of the twelve platform domains occurs anywhere in it. A host that
    merely contains a platform domain, as a subdomain or as part of a
    longer name, is rejected with the platform itself. *)
Theorem company_website_check (url : string) :
  match urllib.urlparse_netloc url with
  | inl e => is_company_website url = inl e
  | inr netloc =>
      exists answer,
        is_company_website url = inr answer /\
        (answer = true <->
         netloc <> EmptyString /\
         forall d pre post, d ∈ non_company_domains -> netloc <> pre +:+ d +:+ post)
  end.
Proof.
  unfold is_company_website.
  destruct (urllib.urlparse_netloc url) as [e|netloc]; [reflexivity|].
  cbn [bind]. destruct netloc as [|c netloc].
  - exists false. split; [reflexivity|]. split; [discriminate|]. intros [H _]. congruence.
  - eexists. split; [reflexivity|]. rewrite no_platform_in_iff. split.
    + intros Hall. split; [discriminate|]. intros d pre post Hd Heq.
      assert (Hin : contains_str d (String c netloc) = true)
        by (apply contains_str_iff; eauto).
      rewrite (Hall d Hd) in Hin. discriminate.
    + intros [_ Hnone] d Hd.
      destruct (contains_str d (String c netloc)) eqn:Hin; [|reflexivity].
      apply contains_str_iff in Hin as (pre & post & Heq).
      exfalso. exact (Hnone d pre post Hd Heq).
Qed.

Lemma company_website_check_witness :
  exists answer,
    is_company_website "https://notgithub.com/" = inr answer /\
    (answer = true <->
     "notgithub.com" <> EmptyString /\
     forall d pre post,
       d ∈ non_company_domains -> "notgithub.com" <> pre +:+ d +:+ post).
Proof.
  exact (company_website_check "https://notgithub.com/").
Defined.

Example platform_lookalikes_are_rejected :
  is_company_website "https://www.linkedin.com/company/acme" = inr false /\
  is_company_website "https://notgithub.com/" = inr false /\
  is_company_website "https://acme.co/about" = inr true /\
  is_company_website "acme.co/about" = inr false.
Proof. vm_compute. repeat split. Qed.

(** ** Link cleaning (app/data_sources/openai_websearch.py) *)

Lemma prefix_append (p a b : string) :
  String.prefix p a = true -> String.prefix p (a +:+ b) = true.
Proof.
  intros H. apply prefix_iff_append in H as [post ->].
  apply prefix_iff_append. exists (post +:+ b).
  induction p as [|c p IH]; [reflexivity|]. rewrite !append_cons, IH. reflexivity.
Qed.

Lemma before_first_is_prefix (p s : string) :
  exists rest, s = before_first p s +:+ rest.
Proof.
  induction s as [|c s [rest IH]]; cbn [before_first].
  - destruct (String.prefix p EmptyString); exists EmptyString; reflexivity.
  - destruct (String.prefix p (String c s)).
    + exists (String c s). reflexivity.
    + exists rest. rewrite append_cons, <- IH. reflexivity.
Qed.

Lemma before_first_without (p s : string) :
  p <> EmptyString -> contains_str p (before_first p s) = false.
Proof.
  intros Hp.
  assert (Hempty : contains_str p EmptyString = false).
  { destruct p; [contradiction | reflexivity]. }
  induction s as [|c s IH]; cbn [before_first].
  - destruct (String.prefix p EmptyString); exact Hempty.
  - destruct (String.prefix p (String c s)) eqn:Hpre; [exact Hempty|].
    cbn [contains_str]. rewrite IH, orb_false_r.
    destruct (String.prefix p (String c (before_first p s))) eqn:Hpre'; [|reflexivity].
    destruct (before_first_is_prefix p s) as [rest Hrest].
    apply (prefix_append _ _ rest) in Hpre'. rewrite append_cons in Hpre'.
    rewrite <- Hrest in Hpre'. congruence.
Qed.

Lemma before_first_absent (p s : string) :
  contains_str p s = false -> before_first p s = s.
Proof.
  induction s as [|c s IH]; cbn [contains_str before_first]; intros H;
    apply orb_false_iff in H as [Hpre Hrest]; rewrite Hpre; [reflexivity|].
  rewrite (IH Hrest). reflexivity.
Qed.

(** No occurrence of [?utm_] starts inside [base] and runs into a
    following [?utm_]: the pattern has its only question mark in front. *)
Lemma utm_not_across (base tail : string) :
  base <> EmptyString ->
  String.prefix "?utm_" base = false ->
  String.prefix "?utm_" (base +:+ "?utm_" +:+ tail) = false.
Proof.
  intros Hbase Hpre.
  destruct base as [|c1 [|c2 [|c3 [|c4 [|c5 base]]]]]; [contradiction| | | | |];
    rewrite ?append_cons, ?append_empty; cbn [String.prefix] in *;
    repeat match goal with
           | |- context [ascii_dec ?a ?b] => destruct (ascii_dec a b); subst
           | H : context [ascii_dec ?a ?b] |- _ => destruct (ascii_dec a b); subst
           end; cbn in *; try congruence.
  destruct base; discriminate Hpre.
Qed.

Lemma before_first_cut (url tail : string) :
  contains_str "?utm_" url = false ->
  before_first "?utm_" (url +:+ "?utm_" +:+ tail) = url.
Proof.
  induction url as [|c url IH]; intros Habsent; [destruct tail; reflexivity|].
  cbn [contains_str] in Habsent. apply orb_false_iff in Habsent as [Hpre Hrest].
  rewrite append_cons. cbn [before_first]. rewrite <- append_cons.
  rewrite (utm_not_across (String c url) tail) by (discriminate || exact Hpre).
  f_equal. apply IH. exact Hrest.
Qed.

(** X17. [strip_utm_source] returns the URL up to its first [?utm_]: the
    result is a prefix of the URL and has no [?utm_] in it, a URL without
    [?utm_] is returned as it is, stripping twice is stripping once, and
    everything after the first [?utm_] is dropped with it, parameters
    that are no tracking parameters included. *)
Theorem strip_utm_source_cuts_at_first_utm (url : string) :
  (exists rest, url = strip_utm_source url +:+ rest) /\
  contains_str "?utm_" (strip_utm_source url) = false /\
  strip_utm_source (strip_utm_source url) = strip_utm_source url /\
  (contains_str "?utm_" url = false -> strip_utm_source url = url) /\
  (forall tail, contains_str "?utm_" url = false ->
     strip_utm_source (url +:+ "?utm_" +:+ tail) = url).
Proof.
  unfold strip_utm_source.
  assert (Hwithout : contains_str "?utm_" (before_first "?utm_" url) = false)
    by (apply before_first_without; discriminate).
  split; [apply before_first_is_prefix|]. split; [exact Hwithout|].
  split; [apply before_first_absent, Hwithout|]. split; [apply before_first_absent|].
  intros tail. apply before_first_cut.
Qed.

Lemma strip_utm_source_cuts_at_first_utm_witness :
  strip_utm_source "https://acme.co/pricing?utm_source=openai&plan=pro"
    = "https://acme.co/pricing".
Proof.
  destruct (strip_utm_source_cuts_at_first_utm "https://acme.co/pricing")
    as (_ & _ & _ & _ & Hdrop).
  apply (Hdrop "source=openai&plan=pro"). reflexivity.
Defined.

(** ** The market section (app/processors/market_processor.py) *)

Lemma search_on_web_with_logger (answer : string -> Exception + openai_websearch.WebSearchResponse)
    (topic : string) :
  is_raised (search_on_web (Some a_logger) answer topic) = false.
Proof. unfold search_on_web. destruct (answer topic); reflexivity. Qed.

Lemma fetch_param_outcome (m : market_processor.Market) (key query : string) :
  market_processor.fetch_param m key query =
    match market_processor.web_answer m query with
    | inr found => inr (key, openai_websearch.content found)
    | inl _ => inl (AttributeError "'NoneType' object has no attribute 'error'")
    end.
Proof.
  unfold market_processor.fetch_param, market_processor.search, search_on_web.
  destruct (market_processor.web_answer m query); reflexivity.
Qed.

Lemma pick_inserted (k1 k2 k3 k4 v1 v2 v3 v4 : string) :
  k1 <> k2 -> k1 <> k3 -> k1 <> k4 -> k2 <> k3 -> k2 <> k4 -> k3 <> k4 ->
  market_processor.pick
    (foldl (fun acc kv => <[fst kv := snd kv]> acc) ∅
       [(k1, v1); (k2, v2); (k3, v3); (k4, v4)])
    [k1; k2; k3; k4]
  = inr [(k1, v1); (k2, v2); (k3, v3); (k4, v4)].
Proof.
  intros H12 H13 H14 H23 H24 H34.
  cbn [foldl fst snd market_processor.pick].
  rewrite (lookup_insert_ne _ k4 k1), (lookup_insert_ne _ k3 k1),
    (lookup_insert_ne _ k2 k1), lookup_insert_eq by congruence.
  rewrite (lookup_insert_ne _ k4 k2), (lookup_insert_ne _ k3 k2),
    lookup_insert_eq by congruence.
  rewrite (lookup_insert_ne _ k4 k3), lookup_insert_eq by congruence.
  rewrite lookup_insert_eq. reflexivity.
Qed.

Lemma market_generate_raises (m : market_processor.Market)
    (data : processors_report_generator.RawData) (md : llm_api_wrapper.ResponseValue)
    (key query : string) :
  market_processor.call_llm m
    (market_processor.rewrite_prompt (market_processor.raw_market_description data))
    = inr md ->
  (key, query) ∈ market_processor.parameters (market_processor.format_value m md) ->
  is_raised (market_processor.web_answer m query) = true ->
  market_processor.generate m data
    = inl (AttributeError "'NoneType' object has no attribute 'error'").
Proof.
  intros Hmd Hin Hfail.
  unfold market_processor.generate. rewrite Hmd. cbn [bind].
  set (queries := market_processor.parameters (market_processor.format_value m md)) in *.
  set (tasks := map (fun kq => market_processor.fetch_param m (fst kq) (snd kq)) queries).
  assert (Hraised : inl (AttributeError "'NoneType' object has no attribute 'error'") ∈ tasks).
  { apply list_elem_of_fmap. exists (key, query). split; [|exact Hin].
    rewrite fetch_param_outcome. cbn [snd].
    destruct (market_processor.web_answer m query); [reflexivity|discriminate]. }
  destruct (gather_raises (market_processor.params_order m) tasks _ Hraised)
    as (e & Hgather & He).
  rewrite Hgather. cbn [bind].
  apply list_elem_of_fmap in He as ([k q] & He & _).
  rewrite fetch_param_outcome in He. cbn [snd] in He.
  destruct (market_processor.web_answer m q); congruence.
Qed.

(** X18. The market processor builds its searcher with [logger=None],
    so the handler of [search_on_web] raises where it would log: once
    the market description has been rewritten, a failure of any of the
    four parameter searches makes [generate] raise the [AttributeError]
    of the missing logger, under every completion order, and no N/A
    value ever stands in for a failed search (a searcher with a logger
    never raises). When the four searches answer, the section prompt is
    built from their four contents, keyed and ordered as the parameters,
    and [generate] returns what the LLM returns for it. *)
Theorem market_search_failure_is_raised (m : market_processor.Market)
    (data : processors_report_generator.RawData) (md : llm_api_wrapper.ResponseValue) :
  market_processor.call_llm m
    (market_processor.rewrite_prompt (market_processor.raw_market_description data))
    = inr md ->
  let queries := market_processor.parameters (market_processor.format_value m md) in
  ((exists key query, (key, query) ∈ queries /\
      is_raised (market_processor.web_answer m query) = true) ->
   market_processor.generate m data
     = inl (AttributeError "'NoneType' object has no attribute 'error'")) /\
  (forall answers,
     map (fun kq => market_processor.web_answer m (snd kq)) queries = map inr answers ->
     market_processor.generate m data =
       let! dumped :=
         market_processor.json_dumps m (processors_report_generator.company_name data) md
           (zip (map fst queries) (map openai_websearch.content answers)) in
       market_processor.call_llm m (market_processor.section_prompt dumped)) /\
  (forall topic,
     is_raised (search_on_web (Some a_logger) (market_processor.web_answer m) topic) = false).
Proof.
  intros Hmd queries. split; [|split].
  - intros (key & query & Hin & Hfail).
    exact (market_generate_raises m data md key query Hmd Hin Hfail).
  - intros answers Hanswers.
    unfold market_processor.generate. rewrite Hmd. cbn [bind].
    fold queries. unfold queries, market_processor.parameters in Hanswers.
    destruct answers as [|a1 [|a2 [|a3 [|a4 [|a5 answers]]]]]; try discriminate.
    cbn [map snd] in Hanswers.
    injection Hanswers as H1 H2 H3 H4.
    unfold queries, market_processor.parameters. cbn [map fst snd].
    rewrite !fetch_param_outcome, H1, H2, H3, H4.
    change [inr ("Total Addressable Market (TAM)", openai_websearch.content a1);
            inr ("Market Segments", openai_websearch.content a2);
            inr ("CAGR", openai_websearch.content a3);
            inr ("Geographic Expansion", openai_websearch.content a4)]
      with (map (@inr Exception (string * string))
              [("Total Addressable Market (TAM)", openai_websearch.content a1);
               ("Market Segments", openai_websearch.content a2);
               ("CAGR", openai_websearch.content a3);
               ("Geographic Expansion", openai_websearch.content a4)]).
    rewrite gather_values. cbn [bind].
    rewrite pick_inserted by discriminate. reflexivity.
  - intros topic. apply search_on_web_with_logger.
Qed.

Lemma market_search_failure_is_raised_witness :
  market_processor.generate sample_market
    (processors_report_generator.mkRawData "Acme Robotics" sample_url ∅)
  = inl (AttributeError "'NoneType' object has no attribute 'error'").
Proof.
  refine (proj1 (market_search_failure_is_raised sample_market _
                   (llm_api_wrapper.Content "warehouse robotics") _) _).
  - reflexivity.
  - eexists "CAGR", _. split.
    + apply list_elem_of_further, list_elem_of_further, list_elem_of_here.
    + reflexivity.
Defined.

(** X19. A failed market search fails the whole job: in a run whose
    market section is generated by [MarketProcessor.generate], for a job
    in the store and a URL that parses, with overview and product
    generations that do not raise, one failing parameter search ends the
    run with the job Failed, the message of the missing logger in its
    error field and no report, whatever the other searches returned. *)
Theorem failed_market_search_fails_job (w : processors_report_generator.World)
    (m : market_processor.Market) (job_id url : string)
    (jobs_db : gmap string ScreenerJob) (job : ScreenerJob) (d name : string)
    (md : llm_api_wrapper.ResponseValue) (key query : string) :
  processors_report_generator.market_processor w = market_processor.generate m ->
  jobs_db !! job_id = Some job ->
  url_parser.extract_domain_from_url url = inr d ->
  url_parser.extract_company_name_from_url url = inr name ->
  (forall raw_data,
     is_raised (processors_report_generator.overview_processor w raw_data) = false) ->
  (forall raw_data,
     is_raised (processors_report_generator.product_processor w raw_data) = false) ->
  market_processor.call_llm m
    (market_processor.rewrite_prompt
       (openai_websearch.content
          (web_searcher.resolved (processors_report_generator.web_answer w) d
             "What market does the company work in?")))
    = inr md ->
  (key, query) ∈ market_processor.parameters (market_processor.format_value m md) ->
  is_raised (market_processor.web_answer m query) = true ->
  processors_report_generator.generate_report_async w job_id url jobs_db =
    (processors_report_generator.returned None,
     <[job_id :=
         set_error "'NoneType' object has no attribute 'error'"
           (set_status FAILED (set_domain d (set_status PROCESSING job)))]> jobs_db).
Proof.
  intros Hmarket Hjob Hdomain Hname Hoverview Hproduct Hmd Hin Hfail.
  unfold processors_report_generator.generate_report_async.
  change 11 with (6 + (5 + 0)). rewrite steps_add.
  rewrite (run_to_sections w job_id url jobs_db job d name Hjob Hdomain Hname).
  set (raw_data := processors_report_generator.mkRawData _ _ _).
  assert (Hraw : market_processor.raw_market_description raw_data =
            openai_websearch.content
              (web_searcher.resolved (processors_report_generator.web_answer w) d
                 "What market does the company work in?")).
  { unfold market_processor.raw_market_description, raw_data.
    cbn [processors_report_generator.website_data].
    rewrite (collected_lookup _ d "market" "What market does the company work in?");
      [reflexivity|].
    unfold web_searcher.info_topics.
    do 3 apply list_elem_of_further. apply list_elem_of_here. }
  assert (Hgen : market_processor.generate m raw_data
            = inl (AttributeError "'NoneType' object has no attribute 'error'")).
  { apply (market_generate_raises m raw_data md key query); [|exact Hin|exact Hfail].
    rewrite Hraw. exact Hmd. }
  destruct (sections_raise w raw_data
              (AttributeError "'NoneType' object has no attribute 'error'"))
    as (e & He & Hsections).
  { unfold processors_report_generator.section_tasks. rewrite Hmarket, Hgen.
    do 2 apply list_elem_of_further. apply list_elem_of_here. }
  assert (e = AttributeError "'NoneType' object has no attribute 'error'") as ->.
  { unfold processors_report_generator.section_tasks in He.
    rewrite Hmarket, Hgen in He.
    apply elem_of_cons in He as [He|He].
    { specialize (Hoverview raw_data). rewrite <- He in Hoverview. discriminate. }
    apply elem_of_cons in He as [He|He].
    { specialize (Hproduct raw_data). rewrite <- He in Hproduct. discriminate. }
    apply list_elem_of_singleton in He. congruence. }
  rewrite (run_from_sections_raised w job_id url 0 raw_data _ _
             (set_domain d (set_status PROCESSING job)) (lookup_insert_eq _ _ _) Hsections).
  rewrite insert_insert_eq. reflexivity.
Qed.

Lemma failed_market_search_fails_job_witness :
  snd (processors_report_generator.generate_report_async market_world "job-1" sample_url
         pending_db) !! "job-1"
  = Some (mkScreenerJob "job-1" FAILED sample_url (Some "acme.co") None
            (Some "'NoneType' object has no attribute 'error'")).
Proof.
  rewrite (failed_market_search_fails_job market_world sample_market "job-1" sample_url
             pending_db (new_job "job-1" PENDING sample_url) "acme.co" "acme"
             (llm_api_wrapper.Content "warehouse robotics") "CAGR"
             "What is the Compound Annual Growth Rate (CAGR) for 'warehouse robotics'? Provide recent figures or best estimates.").
  - reflexivity.
  - reflexivity.
  - reflexivity.
  - reflexivity.
  - reflexivity.
  - intros raw_data. reflexivity.
  - intros raw_data. reflexivity.
  - reflexivity.
  - apply list_elem_of_further, list_elem_of_further, list_elem_of_here.
  - reflexivity.
Defined.

(** ** The web research of a job (app/data_sources/web_searcher.py) *)

Lemma collected_keys (answer : string -> string -> Exception + openai_websearch.WebSearchResponse)
    (website_url key : string) :
  is_Some (web_searcher.collected answer website_url !! key) <->
  key ∈ map fst web_searcher.info_topics.
Proof.
  unfold web_searcher.collected, web_searcher.info_topics.
  cbn [foldl map fst snd].
  rewrite !lookup_insert_is_Some, lookup_empty, is_Some_alt, !elem_of_cons, elem_of_nil.
  split.
  - intros [->|[_ [->|[_ [->|[_ [->|[_ [->|[_ []]]]]]]]]]]; auto 10.
  - intros [->|[->|[->|[->|[->|[]]]]]];
      repeat (first [left; reflexivity | right; split; [discriminate|]]).
Qed.

(** X20. [get_company_info] needs the domain of the job. With a domain
    it returns, under every completion order and whatever the searches
    do, a dict with exactly the five topic keys, each holding the answer
    of its search or the N/A response when that search failed. Without a
    domain every search raises while it builds its prompt, the handler
    of [fetch_info] puts the string N/A where a response object is
    expected, and the call raises the [AttributeError] of [.dict()] on
    that string. *)
Theorem company_info_needs_a_domain
    (answer : string -> string -> Exception + openai_websearch.WebSearchResponse)
    (order : list nat) (job_domain : option string) :
  match job_domain with
  | Some website_url =>
      exists info,
        web_searcher.get_company_info answer order job_domain = inr info /\
        (forall key, is_Some (info !! key) <-> key ∈ map fst web_searcher.info_topics) /\
        (forall key topic, (key, topic) ∈ web_searcher.info_topics ->
           info !! key =
             Some (match answer topic website_url with
                   | inr found => found
                   | inl _ => openai_websearch.mkWebSearchResponse "N/A" "N/A"
                   end))
  | None =>
      web_searcher.get_company_info answer order job_domain
        = inl (AttributeError "'str' object has no attribute 'dict'")
  end.
Proof.
  destruct job_domain as [website_url|].
  - exists (web_searcher.collected answer website_url). split; [|split].
    + apply get_company_info_with_domain.
    + intros key. apply collected_keys.
    + intros key topic Hin.
      rewrite (collected_lookup answer website_url key topic Hin).
      unfold web_searcher.resolved. destruct (answer topic website_url); reflexivity.
  - apply get_company_info_without_domain.
Qed.

Lemma company_info_needs_a_domain_witness :
  web_searcher.get_company_info sample_answer sample_order None
    = inl (AttributeError "'str' object has no attribute 'dict'").
Proof.
  exact (company_info_needs_a_domain sample_answer sample_order None).
Defined.

(** ** The construction of the generator (app/processors/report_generator.py, main.py) *)

Lemma require_key_returns (env : report_generator_init.Env) (name message : string) :
  match report_generator_init.require_key env name message with
  | inr key => env name = Some key /\ report_generator_init.truthy (env name) = true
  | inl e => e = ValueError message /\ report_generator_init.truthy (env name) = false
  end.
Proof.
  unfold report_generator_init.require_key, report_generator_init.truthy.
  destruct (env name) as [[|c rest]|]; cbn; auto.
Qed.

(** X21. A report generator is built exactly when its logger and the
    CoreSignal source are and the keys of Serper, Perplexity, ScraperAPI,
    Tracxn and OpenAI are all reported as present by
    [validate_required_keys]; with a logger and without the Serper key
    the construction raises the [ValueError] of the Serper source. POST
    /generate has stored the Pending job by then: when the construction
    raises, the request fails, no orchestration is scheduled and the
    status query keeps answering Pending for the job; when it returns,
    the response and the store are those of a job created Pending and
    exactly one orchestration is scheduled, for this job and URL. *)
Theorem missing_key_strands_pending_job (env : report_generator_init.Env)
    (logger linkedin_source : Exception + unit) (job_id request_url : string)
    (jobs_db : gmap string ScreenerJob) (background_tasks : list (string * string)) :
  let keys := report_generator_init.validate_required_keys env in
  let built := report_generator_init.ReportGenerator env logger linkedin_source in
  let outcome :=
    report_generator_init.generate env logger linkedin_source job_id request_url jobs_db
      background_tasks in
  (built = inr tt <->
   is_raised logger = false /\
   is_raised linkedin_source = false /\
   forall name,
     name ∈ ["SERPER_API_KEY"; "PERPLEXITY_API_KEY"; "SCRAPER_API_KEY";
             "TRACXN_API_KEY"; "OPENAI_API_KEY"] ->
     keys !! name = Some true) /\
  (is_raised logger = false ->
   keys !! "SERPER_API_KEY" = Some false ->
   built = inl (ValueError "Serper API key is required")) /\
  snd (fst outcome) = snd (main.generate job_id request_url jobs_db) /\
  main.get_job_status job_id (snd (fst outcome)) = inr (main.mkJobResponse job_id PENDING) /\
  match built with
  | inl e => fst (fst outcome) = inl e /\ snd outcome = background_tasks
  | inr _ =>
      fst (fst outcome) = inr (fst (main.generate job_id request_url jobs_db)) /\
      snd outcome = background_tasks ++ [(job_id, request_url)]
  end.
Proof.
  intros keys built outcome.
  assert (Hkeys : forall name,
            name ∈ ["SERPER_API_KEY"; "PERPLEXITY_API_KEY"; "SCRAPER_API_KEY";
                    "TRACXN_API_KEY"; "OPENAI_API_KEY"] ->
            keys !! name = Some (report_generator_init.truthy (env name))).
  { intros name Hin. unfold keys, report_generator_init.validate_required_keys.
    repeat (apply elem_of_cons in Hin as [->|Hin]; [vm_compute; reflexivity|]).
    apply elem_of_nil in Hin. contradiction. }
  split; [|split; [|split; [|split]]].
  - unfold built, report_generator_init.ReportGenerator,
      report_generator_init.SerperDataSource,
      report_generator_init.PerplexityDataSource, report_generator_init.ScraperAPIDataSource,
      report_generator_init.TracxnDataSource, report_generator_init.LLMProcessor.
    pose proof (require_key_returns env "SERPER_API_KEY" "Serper API key is required") as H1.
    pose proof (require_key_returns env "PERPLEXITY_API_KEY" "Perplexity API key is required")
      as H2.
    pose proof (require_key_returns env "SCRAPER_API_KEY" "ScraperAPI key is required") as H3.
    pose proof (require_key_returns env "TRACXN_API_KEY" "Tracxn API key is required") as H4.
    pose proof (require_key_returns env "OPENAI_API_KEY"
                  "OpenAI API key is required for the LLM processor") as H5.
    split.
    + intros Hbuilt.
      destruct logger as [e|[]]; [discriminate|].
      destruct (report_generator_init.require_key env "SERPER_API_KEY" _); [discriminate|].
      destruct (report_generator_init.require_key env "PERPLEXITY_API_KEY" _); [discriminate|].
      destruct (report_generator_init.require_key env "SCRAPER_API_KEY" _); [discriminate|].
      destruct linkedin_source as [e|[]]; [discriminate|].
      destruct (report_generator_init.require_key env "TRACXN_API_KEY" _); [discriminate|].
      destruct (report_generator_init.require_key env "OPENAI_API_KEY" _); [discriminate|].
      split; [reflexivity|]. split; [reflexivity|].
      intros name Hin. rewrite (Hkeys name Hin).
      repeat (apply elem_of_cons in Hin as [->|Hin]; [f_equal; tauto|]).
      apply elem_of_nil in Hin. contradiction.
    + intros (Hlogger & Hlinkedin & Hall).
      assert (Htrue : forall name,
                name ∈ ["SERPER_API_KEY"; "PERPLEXITY_API_KEY"; "SCRAPER_API_KEY";
                        "TRACXN_API_KEY"; "OPENAI_API_KEY"] ->
                report_generator_init.truthy (env name) = true).
      { intros name Hin. pose proof (Hall name Hin) as Ht.
        rewrite (Hkeys name Hin) in Ht. congruence. }
      destruct logger as [e|[]]; [discriminate|].
      destruct (report_generator_init.require_key env "SERPER_API_KEY" _);
        [rewrite Htrue in H1 by (repeat constructor); destruct H1; discriminate|].
      destruct (report_generator_init.require_key env "PERPLEXITY_API_KEY" _);
        [rewrite Htrue in H2 by (repeat constructor); destruct H2; discriminate|].
      destruct (report_generator_init.require_key env "SCRAPER_API_KEY" _);
        [rewrite Htrue in H3 by (repeat constructor); destruct H3; discriminate|].
      destruct linkedin_source as [e|[]]; [discriminate|].
      destruct (report_generator_init.require_key env "TRACXN_API_KEY" _);
        [rewrite Htrue in H4 by (repeat constructor); destruct H4; discriminate|].
      destruct (report_generator_init.require_key env "OPENAI_API_KEY" _);
        [rewrite Htrue in H5 by (repeat constructor); destruct H5; discriminate|].
      reflexivity.
  - intros Hlogger Hmissing. rewrite Hkeys in Hmissing by (repeat constructor).
    unfold built, report_generator_init.ReportGenerator,
      report_generator_init.SerperDataSource.
    destruct logger as [e|[]]; [discriminate|]. cbn [bind].
    pose proof (require_key_returns env "SERPER_API_KEY" "Serper API key is required") as H1.
    destruct (report_generator_init.require_key env "SERPER_API_KEY" _) as [e|key].
    + destruct H1 as [-> _]. reflexivity.
    + destruct H1 as [_ H1]. congruence.
  - unfold outcome, report_generator_init.generate.
    destruct (report_generator_init.ReportGenerator env logger linkedin_source); reflexivity.
  - unfold outcome, report_generator_init.generate, main.get_job_status.
    destruct (report_generator_init.ReportGenerator env logger linkedin_source);
      cbn [fst snd]; rewrite lookup_insert_eq; reflexivity.
  - unfold outcome, built, report_generator_init.generate.
    destruct (report_generator_init.ReportGenerator env logger linkedin_source);
      split; reflexivity.
Qed.

Lemma missing_key_strands_pending_job_witness :
  report_generator_init.ReportGenerator env_without_serper (inr tt) (inr tt)
    = inl (ValueError "Serper API key is required").
Proof.
  apply (missing_key_strands_pending_job env_without_serper (inr tt) (inr tt) "job-1"
           sample_url ∅ []); reflexivity.
Defined.

(** ** The research queries (app/data_sources/search_sources.py) *)

Lemma prefix_contains (p s : string) :
  String.prefix p s = true -> contains_str p s = true.
Proof. intros H. destruct s; cbn [contains_str]; rewrite H; reflexivity. Qed.

Lemma contains_in_suffix (p pre s : string) :
  contains_str p s = true -> contains_str p (pre +:+ s) = true.
Proof.
  intros H. induction pre as [|c pre IH]; [exact H|].
  rewrite append_cons. cbn [contains_str]. rewrite IH. apply orb_true_r.
Qed.

Lemma contains_in_prefix (p s post : string) :
  contains_str p s = true -> contains_str p (s +:+ post) = true.
Proof.
  induction s as [|c s IH]; cbn [contains_str]; intros H.
  - rewrite orb_false_r in H. apply prefix_contains.
    apply (prefix_append _ _ post) in H. exact H.
  - apply orb_true_iff in H as [H|H].
    + apply prefix_contains. apply (prefix_append _ _ post) in H. exact H.
    + rewrite append_cons. cbn [contains_str]. rewrite (IH H). apply orb_true_r.
Qed.

Lemma fetch_loop_keys (post : string -> Exception + core_report_generator.Json)
    (queries : list string) (acc results : gmap string core_report_generator.Json) :
  perplexity_source.fetch_loop post queries acc = inr results ->
  forall k, is_Some (results !! k) ->
    is_Some (acc !! k) \/ exists q, q ∈ queries /\ k = perplexity_source.category q.
Proof.
  revert acc. induction queries as [|query rest IH]; intros acc Hloop k Hk.
  - injection Hloop as <-. left. exact Hk.
  - cbn [perplexity_source.fetch_loop] in Hloop.
    destruct (post query) as [e|body]; [discriminate|]. cbn [bind] in Hloop.
    destruct (IH _ Hloop k Hk) as [Hacc|(q & Hq & ->)].
    + apply lookup_insert_is_Some in Hacc as [<-|[_ Hacc]].
      * right. exists query. split; [apply list_elem_of_here|reflexivity].
      * left. exact Hacc.
    + right. exists q. split; [apply list_elem_of_further, Hq|reflexivity].
Qed.

Lemma fetch_loop_keeps (post : string -> Exception + core_report_generator.Json)
    (queries : list string) (acc results : gmap string core_report_generator.Json) :
  perplexity_source.fetch_loop post queries acc = inr results ->
  forall k, is_Some (acc !! k) -> is_Some (results !! k).
Proof.
  revert acc. induction queries as [|query rest IH]; intros acc Hloop k Hk.
  - injection Hloop as <-. exact Hk.
  - cbn [perplexity_source.fetch_loop] in Hloop.
    destruct (post query) as [e|body]; [discriminate|]. cbn [bind] in Hloop.
    apply (IH _ Hloop). apply lookup_insert_is_Some.
    destruct (decide (perplexity_source.category query = k)); auto.
Qed.

Lemma fetch_loop_stores (post : string -> Exception + core_report_generator.Json)
    (queries : list string) (acc results : gmap string core_report_generator.Json) :
  perplexity_source.fetch_loop post queries acc = inr results ->
  forall q, q ∈ queries -> is_Some (results !! perplexity_source.category q).
Proof.
  revert acc. induction queries as [|query rest IH]; intros acc Hloop q Hq.
  - apply elem_of_nil in Hq. contradiction.
  - change (perplexity_source.fetch_loop post (query :: rest) acc)
      with (let! body := post query in
            perplexity_source.fetch_loop post rest
              (<[perplexity_source.category query := body]> acc)) in Hloop.
    destruct (post query) as [e|body]; [discriminate|]. cbn [bind] in Hloop.
    apply elem_of_cons in Hq as [->|Hq].
    + apply (fetch_loop_keeps _ _ _ _ Hloop). rewrite lookup_insert_eq. eauto.
    + apply (IH _ Hloop q Hq).
Qed.

Lemma fetch_loop_raises (post : string -> Exception + core_report_generator.Json)
    (queries : list string) (acc : gmap string core_report_generator.Json) (q : string) :
  q ∈ queries -> is_raised (post q) = true ->
  is_raised (perplexity_source.fetch_loop post queries acc) = true.
Proof.
  revert acc. induction queries as [|query rest IH]; intros acc Hin Hq.
  - apply elem_of_nil in Hin. contradiction.
  - cbn [perplexity_source.fetch_loop].
    destruct (post query) as [e|body] eqn:Hpost; [reflexivity|]. cbn [bind].
    apply elem_of_cons in Hin as [->|Hin].
    + rewrite Hpost in Hq. discriminate.
    + apply IH; assumption.
Qed.

Lemma first_query_category (company_name : string) :
  perplexity_source.category
    ("Detailed analysis of " +:+ company_name +:+ "'s business model and products")
  = "business_model".
Proof.
  unfold perplexity_source.category.
  assert (H : contains_str "business model"
                ("Detailed analysis of " +:+ company_name
                   +:+ "'s business model and products") = true)
    by (apply contains_in_suffix, contains_in_suffix; reflexivity).
  rewrite H. reflexivity.
Qed.

Lemma query_category (company_name suffix : string) :
  perplexity_source.category suffix <> "general" ->
  perplexity_source.category (company_name +:+ suffix) ∈ perplexity_source.categories.
Proof.
  unfold perplexity_source.category, perplexity_source.categories.
  intros Hsuffix.
  repeat match goal with
         | |- context [contains_str ?p (company_name +:+ suffix)] =>
             destruct (contains_str p (company_name +:+ suffix)) eqn:?
         end;
    try (repeat (first [apply list_elem_of_here | apply list_elem_of_further])).
  exfalso. apply Hsuffix.
  repeat match goal with
         | |- context [contains_str ?p suffix] =>
             let H := fresh in
             destruct (contains_str p suffix) eqn:H;
               [apply (contains_in_suffix _ company_name) in H; congruence|]
         end.
  reflexivity.
Qed.

Lemma market_query_category (company_name suffix : string) :
  contains_str "market" company_name = true ->
  perplexity_source.category (company_name +:+ suffix) = "business_model" \/
  perplexity_source.category (company_name +:+ suffix) = "market_analysis".
Proof.
  intros H. apply (contains_in_prefix _ _ suffix) in H.
  unfold perplexity_source.category. rewrite H.
  destruct (contains_str "business model" (company_name +:+ suffix)); auto.
Qed.

(** X22. The research data of the Perplexity source: one failing query
    makes [fetch_data] raise, so the answers already received are lost;
    a returned dict has its keys among the six categories of the code
    (never [general]) and always has [business_model]. The category is
    read off the whole query, company name included: for a company name
    that contains the word market the dict has at most the two keys
    [business_model] and [market_analysis], the answers on competitors,
    finance, funding and the team having overwritten one another. *)
Theorem research_categories_collide
    (post : string -> Exception + core_report_generator.Json) (company_name url : string) :
  ((exists q, q ∈ perplexity_source.research_queries company_name /\
              is_raised (post q) = true) ->
   is_raised (perplexity_source.fetch_data post company_name url) = true) /\
  (forall results,
     perplexity_source.fetch_data post company_name url = inr results ->
     (forall k, is_Some (results !! k) -> k ∈ perplexity_source.categories) /\
     is_Some (results !! "business_model") /\
     (contains_str "market" company_name = true ->
      forall k, is_Some (results !! k) -> k = "business_model" \/ k = "market_analysis")).
Proof.
  split.
  - intros (q & Hin & Hq). apply (fetch_loop_raises _ _ _ q Hin Hq).
  - intros results Hfetch. unfold perplexity_source.fetch_data in Hfetch.
    split; [|split].
    + intros k Hk. destruct (fetch_loop_keys _ _ _ _ Hfetch k Hk) as [Hempty|(q & Hq & ->)].
      { rewrite lookup_empty in Hempty. destruct Hempty; discriminate. }
      unfold perplexity_source.research_queries in Hq.
      apply elem_of_cons in Hq as [->|Hq].
      { rewrite first_query_category. apply list_elem_of_here. }
      repeat (apply elem_of_cons in Hq as [->|Hq];
              [apply query_category; vm_compute; discriminate|]).
      apply elem_of_nil in Hq. contradiction.
    + rewrite <- (first_query_category company_name).
      apply (fetch_loop_stores _ _ _ _ Hfetch). apply list_elem_of_here.
    + intros Hmarket k Hk.
      destruct (fetch_loop_keys _ _ _ _ Hfetch k Hk) as [Hempty|(q & Hq & ->)].
      { rewrite lookup_empty in Hempty. destruct Hempty; discriminate. }
      unfold perplexity_source.research_queries in Hq.
      apply elem_of_cons in Hq as [->|Hq].
      { left. apply first_query_category. }
      repeat (apply elem_of_cons in Hq as [->|Hq];
              [apply market_query_category, Hmarket|]).
      apply elem_of_nil in Hq. contradiction.
Qed.

Lemma research_categories_collide_witness :
  exists results,
    perplexity_source.fetch_data echo_post "Supermarket Labs" "https://supermarket.io/"
      = inr results /\
    results !! "team" = None.
Proof.
  eexists. split; [reflexivity|].
  match goal with |- ?m !! _ = None => set (results := m) end.
  destruct (results !! "team") as [body|] eqn:Hteam; [|reflexivity].
  exfalso.
  destruct (proj2 (research_categories_collide echo_post "Supermarket Labs"
                     "https://supermarket.io/") results eq_refl)
    as (_ & _ & Hcollide).
  destruct (Hcollide eq_refl "team" (mk_is_Some _ _ Hteam)); discriminate.
Defined.

(** ** The scraped pages (app/data_sources/scraper_sources.py) *)

Lemma extract_error_key (site : scraper_sources.Site) (page_type : string)
    (data : scraper_sources.RawPage) :
  scraper_sources.extract_page site (page_type +:+ "_error") data = None.
Proof.
  unfold scraper_sources.extract_page.
  rewrite (contains_in_suffix "error" page_type "_error") by reflexivity. reflexivity.
Qed.

Lemma extract_insert_error (site : scraper_sources.Site) (page_type : string)
    (data : scraper_sources.RawPage) (results : gmap string scraper_sources.RawPage) :
  scraper_sources._extract_key_info_from_html site (<[page_type +:+ "_error" := data]> results)
  = scraper_sources._extract_key_info_from_html site results.
Proof.
  unfold scraper_sources._extract_key_info_from_html.
  apply map_eq. intros i. rewrite !map_lookup_imap.
  destruct (decide (i = page_type +:+ "_error")) as [->|Hne].
  - rewrite lookup_insert_eq. cbn. rewrite extract_error_key.
    destruct (results !! (page_type +:+ "_error")); [cbn; rewrite extract_error_key|];
      reflexivity.
  - rewrite lookup_insert_ne by congruence. reflexivity.
Qed.

Lemma extract_insert_page (site : scraper_sources.Site) (page_type : string)
    (data : scraper_sources.RawPage) (results results' : gmap string scraper_sources.RawPage) :
  scraper_sources._extract_key_info_from_html site results
    = scraper_sources._extract_key_info_from_html site results' ->
  scraper_sources._extract_key_info_from_html site (<[page_type := data]> results)
    = scraper_sources._extract_key_info_from_html site (<[page_type := data]> results').
Proof.
  unfold scraper_sources._extract_key_info_from_html. intros Heq.
  destruct (scraper_sources.extract_page site page_type data) as [page|] eqn:Hpage.
  - rewrite !(map_imap_insert_Some _ _ _ _ _ Hpage), Heq. reflexivity.
  - rewrite !(map_imap_insert_None _ _ _ _ Hpage), Heq. reflexivity.
Qed.

Lemma fetch_pages_as_not_found (site : scraper_sources.Site)
    (paths : list (string * string)) (results results' : gmap string scraper_sources.RawPage) :
  scraper_sources._extract_key_info_from_html site results
    = scraper_sources._extract_key_info_from_html site results' ->
  cleaned_outcome site (scraper_sources.fetch_pages site paths results)
  = cleaned_outcome site
      (scraper_sources.fetch_pages (scraper_sources.as_not_found site) paths results').
Proof.
  revert results results'.
  induction paths as [|[page_type path] rest IH]; intros results results' Heq.
  - cbn. f_equal. exact Heq.
  - cbn [scraper_sources.fetch_pages scraper_sources.as_not_found
         scraper_sources.full_url scraper_sources.get].
    destruct (scraper_sources.get site (scraper_sources.full_url site path))
      as [text|status_code message|e].
    + apply IH, extract_insert_page, Heq.
    + cbn [Z.eqb Pos.eqb]. destruct (status_code =? 404)%Z.
      * apply IH, Heq.
      * apply IH. rewrite extract_insert_error. exact Heq.
    + reflexivity.
Qed.

Lemma fetch_pages_origin (site : scraper_sources.Site) (paths : list (string * string))
    (results raw : gmap string scraper_sources.RawPage) :
  scraper_sources.fetch_pages site paths results = inr raw ->
  forall key page,
    scraper_sources._extract_key_info_from_html site raw !! key = Some page ->
    scraper_sources._extract_key_info_from_html site results !! key = Some page \/
    exists path html,
      (key, path) ∈ paths /\
      scraper_sources.get site (scraper_sources.full_url site path)
        = scraper_sources.Html html /\
      page = scraper_sources.mkCleanPage (scraper_sources.full_url site path)
               (scraper_sources.clean_text site html).
Proof.
  revert results.
  induction paths as [|[page_type path] rest IH]; intros results Hloop key page Hpage.
  - injection Hloop as <-. left. exact Hpage.
  - cbn [scraper_sources.fetch_pages] in Hloop.
    destruct (scraper_sources.get site (scraper_sources.full_url site path))
      as [text|status_code message|e] eqn:Hget.
    + destruct (IH _ Hloop key page Hpage) as [Hin|(p & h & Hin & Hp & ->)].
      * unfold scraper_sources._extract_key_info_from_html in Hin |- *.
        rewrite map_lookup_imap in Hin.
        destruct (decide (key = page_type)) as [->|Hne].
        -- rewrite lookup_insert_eq in Hin. cbn in Hin.
           right. exists path, text. split; [apply list_elem_of_here|]. split; [exact Hget|].
           unfold scraper_sources.extract_page in Hin.
           destruct (contains_str "error" page_type); congruence.
        -- rewrite lookup_insert_ne in Hin by congruence.
           left. rewrite map_lookup_imap. exact Hin.
      * right. exists p, h. split; [apply list_elem_of_further, Hin|]. split; [exact Hp|reflexivity].
    + destruct (status_code =? 404)%Z.
      * destruct (IH _ Hloop key page Hpage) as [Hin|(p & h & Hin & Hp & ->)].
        -- left. exact Hin.
        -- right. exists p, h. split; [apply list_elem_of_further, Hin|].
           split; [exact Hp|reflexivity].
      * destruct (IH _ Hloop key page Hpage) as [Hin|(p & h & Hin & Hp & ->)].
        -- left. rewrite extract_insert_error in Hin. exact Hin.
        -- right. exists p, h. split; [apply list_elem_of_further, Hin|].
           split; [exact Hp|reflexivity].
    + discriminate.
Qed.

Lemma fetch_pages_untouched (site : scraper_sources.Site) (paths : list (string * string))
    (results raw : gmap string scraper_sources.RawPage) (key : string) :
  scraper_sources.fetch_pages site paths results = inr raw ->
  key ∉ map fst paths ->
  contains_str "error" key = false ->
  raw !! key = results !! key.
Proof.
  revert results.
  induction paths as [|[page_type path] rest IH]; intros results Hloop Hnotin Hkey.
  - injection Hloop as <-. reflexivity.
  - cbn [scraper_sources.fetch_pages] in Hloop. cbn [map fst] in Hnotin.
    apply not_elem_of_cons in Hnotin as [Hne Hnotin].
    destruct (scraper_sources.get site (scraper_sources.full_url site path))
      as [text|status_code message|e].
    + rewrite (IH _ Hloop Hnotin Hkey). apply lookup_insert_ne. congruence.
    + destruct (status_code =? 404)%Z.
      * apply (IH _ Hloop Hnotin Hkey).
      * rewrite (IH _ Hloop Hnotin Hkey). apply lookup_insert_ne.
        intros <-. rewrite (contains_in_suffix "error" page_type "_error") in Hkey
          by reflexivity. discriminate.
    + discriminate.
Qed.

Lemma fetch_pages_served (site : scraper_sources.Site) (paths : list (string * string))
    (results raw : gmap string scraper_sources.RawPage) (key path html : string) :
  NoDup (map fst paths) ->
  scraper_sources.fetch_pages site paths results = inr raw ->
  (key, path) ∈ paths ->
  scraper_sources.get site (scraper_sources.full_url site path) = scraper_sources.Html html ->
  contains_str "error" key = false ->
  raw !! key = Some (scraper_sources.Page (scraper_sources.full_url site path) html).
Proof.
  revert results.
  induction paths as [|[page_type p] rest IH]; intros results Hnodup Hloop Hin Hget Hkey.
  - apply elem_of_nil in Hin. contradiction.
  - cbn [map fst] in Hnodup. apply NoDup_cons in Hnodup as [Hfresh Hnodup].
    apply elem_of_cons in Hin as [[= -> ->]|Hin].
    + cbn [scraper_sources.fetch_pages] in Hloop. rewrite Hget in Hloop.
      rewrite (fetch_pages_untouched _ _ _ _ _ Hloop Hfresh Hkey).
      apply lookup_insert_eq.
    + cbn [scraper_sources.fetch_pages] in Hloop.
      destruct (scraper_sources.get site (scraper_sources.full_url site p))
        as [text|status_code message|e].
      * apply (IH _ Hnodup Hloop Hin Hget Hkey).
      * destruct (status_code =? 404)%Z; apply (IH _ Hnodup Hloop Hin Hget Hkey).
      * discriminate.
Qed.

Lemma target_paths_keys (key path : string) :
  (key, path) ∈ scraper_sources.target_paths -> contains_str "error" key = false.
Proof.
  unfold scraper_sources.target_paths. intros Hin.
  repeat (apply elem_of_cons in Hin as [[= -> ->]|Hin]; [reflexivity|]).
  apply elem_of_nil in Hin. contradiction.
Qed.

Lemma target_paths_NoDup : NoDup (map fst scraper_sources.target_paths).
Proof. apply (bool_decide_unpack _). vm_compute. exact I. Qed.

(** X23. The scraper records the error info of a page that answers with
    an HTTP error status other than 404 and then drops it again: what
    [fetch_data] returns or raises is the same as for a site that
    answers 404 in its place. A returned dict holds exactly the pages
    that were served, each under its page type with its URL and the
    cleaned text; no error entry ever reaches the caller. *)
Theorem scraper_drops_error_info (site : scraper_sources.Site) (company_name url : string) :
  scraper_sources.fetch_data site company_name url
    = scraper_sources.fetch_data (scraper_sources.as_not_found site) company_name url /\
  (forall cleaned,
     scraper_sources.fetch_data site company_name url = inr cleaned ->
     forall key page,
       cleaned !! key = Some page <->
       exists path html,
         (key, path) ∈ scraper_sources.target_paths /\
         scraper_sources.get site (scraper_sources.full_url site path)
           = scraper_sources.Html html /\
         page = scraper_sources.mkCleanPage (scraper_sources.full_url site path)
                  (scraper_sources.clean_text site html)).
Proof.
  split.
  - unfold scraper_sources.fetch_data.
    destruct (urllib.urlparse_netloc url) as [e|netloc]; [reflexivity|]. cbn [bind].
    pose proof (fetch_pages_as_not_found site scraper_sources.target_paths ∅ ∅ eq_refl) as H.
    unfold cleaned_outcome in H.
    destruct (scraper_sources.fetch_pages site scraper_sources.target_paths ∅),
      (scraper_sources.fetch_pages (scraper_sources.as_not_found site)
         scraper_sources.target_paths ∅); cbn [bind]; exact H.
  - intros cleaned Hfetch key page. unfold scraper_sources.fetch_data in Hfetch.
    destruct (urllib.urlparse_netloc url) as [e|netloc]; [discriminate|].
    cbn [bind] in Hfetch.
    destruct (scraper_sources.fetch_pages site scraper_sources.target_paths ∅)
      as [e|raw] eqn:Hloop; [discriminate|].
    cbn [bind] in Hfetch. injection Hfetch as <-. split.
    + intros Hpage.
      destruct (fetch_pages_origin _ _ _ _ Hloop key page Hpage) as [Hempty|Hserved];
        [|exact Hserved].
      unfold scraper_sources._extract_key_info_from_html in Hempty.
      rewrite map_lookup_imap, lookup_empty in Hempty. discriminate.
    + intros (path & html & Hin & Hget & ->).
      pose proof (target_paths_keys key path Hin) as Hkey.
      unfold scraper_sources._extract_key_info_from_html.
      rewrite map_lookup_imap,
        (fetch_pages_served _ _ _ _ key path html target_paths_NoDup Hloop Hin Hget Hkey).
      cbn. unfold scraper_sources.extract_page. rewrite Hkey. reflexivity.
Qed.

Lemma scraper_drops_error_info_witness :
  exists cleaned,
    scraper_sources.fetch_data sample_site "Acme Robotics" sample_url = inr cleaned /\
    cleaned !! "home" = Some (scraper_sources.mkCleanPage "https://acme.co/" "<h1>Acme</h1>").
Proof.
  destruct (scraper_sources.fetch_data sample_site "Acme Robotics" sample_url)
    as [e|cleaned] eqn:Hfetch; [vm_compute in Hfetch; discriminate|].
  exists cleaned. split; [reflexivity|].
  apply (proj2 (scraper_drops_error_info sample_site "Acme Robotics" sample_url)
           cleaned Hfetch).
  exists "/", "<h1>Acme</h1>". split; [apply list_elem_of_here|]. split; reflexivity.
Defined.
